(** * slashmetrics: the exposition parser, the scrape client and the
      interaction model, embedded from the Go sources.

    Two snapshots of the scrape code are present in the sources: the one
    that lives in [main.go] (printed in [src/README.md]) and the one of
    [src/metrics.go].  They are embedded side by side, in the modules
    [MainGo] and [MetricsGo]; the bubbletea model ([Update] and its
    helpers) only exists in [main.go].

    Conventions of the embedding:
    - a Go [string] is a Rocq [string], read as ASCII text: on such input
      [unicode.IsSpace] is the six-character table [asciiSpace] of package
      [strings];
    - a [float64] is a primitive binary64 [float];
    - a Go [int] is a [Z] (no length in the program can overflow it);
    - [strconv.ParseFloat], [http.Get], [time.Now] and the terminal widgets
      are collaborators: their outcome is an argument of the function that
      calls them. *)

From Stdlib Require Import ZArith Uint63 Floats String Ascii.
From stdpp Require Import base option list sorting gmap strings.

Set Warnings "-inexact-float,-register-all".

Local Open Scope string_scope.
Local Open Scope Z_scope.
Local Open Scope list_scope.

(** ** Package [strings] *)

Module GoStrings.

(** [asciiSpace]: tab, newline, vertical tab, form feed, carriage return
    and space. *)
Definition isSpace (c : ascii) : bool := Ascii.is_space c.

Definition flush (cur : string) : list string :=
  match cur with
  | "" => []
  | _ => [cur]
  end.

(** [Fields] scans left to right; [cur] is the field being read (empty
    when the scan is between fields). *)
Fixpoint fieldsFrom (cur s : string) : list string :=
  match s with
  | "" => flush cur
  | String c rest =>
      if isSpace c then flush cur ++ fieldsFrom "" rest
      else fieldsFrom (cur +:+ String c "") rest
  end.

Definition Fields (s : string) : list string := fieldsFrom "" s.

Fixpoint trimLeft (s : string) : string :=
  match s with
  | String c rest => if isSpace c then trimLeft rest else s
  | "" => ""
  end.

Fixpoint trimRight (s : string) : string :=
  match s with
  | "" => ""
  | String c rest =>
      match trimRight rest with
      | "" => if isSpace c then "" else String c ""
      | r => String c r
      end
  end.

Definition TrimSpace (s : string) : string := trimRight (trimLeft s).

Definition HasPrefix (s prefix : string) : bool := String.prefix prefix s.

(** [Index s sep] for a one-byte separator: the position of its first
    occurrence, [-1] when there is none. *)
Fixpoint IndexByte (s : string) (c : ascii) : Z :=
  match s with
  | "" => -1
  | String a rest =>
      if Ascii.eqb a c then 0
      else let i := IndexByte rest c in
           if i =? -1 then -1 else i + 1
  end.

Definition Contains (s : string) (c : ascii) : bool :=
  negb (IndexByte s c =? -1).

(** [s[:i]] and [s[i:]] for [0 <= i <= len(s)]. *)
Definition sliceTo (s : string) (i : Z) : string :=
  String.substring 0 (Z.to_nat i) s.
Definition sliceFrom (s : string) (i : Z) : string :=
  String.substring (Z.to_nat i) (String.length s - Z.to_nat i) s.

(** [Cut s sep] for a one-byte separator. *)
Definition Cut (s : string) (c : ascii) : string * string * bool :=
  let i := IndexByte s c in
  if 0 <=? i then (sliceTo s i, sliceFrom s (i + 1), true)
  else (s, "", false).

End GoStrings.

Import GoStrings.

Definition lbrace : ascii := "{"%char.

(** ** Samples, errors, HTTP outcomes *)

Record MetricSample := mkSample {
  FullName : string;   (* full metric name including labels *)
  Value : float
}.

#[export] Instance MetricSample_inhabited : Inhabited MetricSample :=
  populate (mkSample "" 0%float).

(** The three [fmt.Errorf] values of the scrape client, by format string. *)
Inductive error :=
| ErrFetchFailed (cause : string)      (* "failed to fetch metrics: %w" *)
| ErrUnexpectedStatus (code : Z)       (* "unexpected status code: %d"  *)
| ErrMetricNotFound (metric : string). (* "metric %q not found"         *)

(** What [http.Get] hands back: a transport error, or a response whose body
    [bufio.Scanner] delivers line by line. *)
Inductive HttpResult :=
| HttpFail (cause : string)
| HttpResp (StatusCode : Z) (Body : list string).

Definition StatusOK : Z := 200.

(** [baseName := fullName; if idx := strings.Index(fullName, "{"); idx != -1
    { baseName = fullName[:idx] }] -- the pattern is written out three
    times in main.go. *)
Definition baseNameOf (fullName : string) : string :=
  let idx := IndexByte fullName lbrace in
  if negb (idx =? -1) then sliceTo fullName idx else fullName.

Definition zero : float := 0%float.

(** ** The value rules, in the words of the specification *)

(** "Attempt to parse the last token as a floating-point number; if that
    fails and at least three tokens exist, fall back to the second-to-last
    token.  If both fail, reject."  Fewer than two tokens: reject. *)
Definition lastTokenRule (ParseFloat : string -> option float)
  (tokens : list string) : option float :=
  match reverse tokens with
  | lastTok :: prevTok :: earlier =>
      match ParseFloat lastTok with
      | Some v => Some v
      | None =>
          match earlier with
          | [] => None
          | _ :: _ => ParseFloat prevTok
          end
      end
  | _ => None
  end.

(** The "alternate, simpler rule using the second token as the value". *)
Definition secondTokenRule (ParseFloat : string -> option float)
  (tokens : list string) : option float :=
  match tokens with
  | _ :: second :: _ => ParseFloat second
  | _ => None
  end.

(** What the parser answers once the value is resolved: the base name of
    the first token and [ok = true], or the rejection. *)
Definition answer (tokens : list string) (v : option float)
  : string * float * bool :=
  match v with
  | Some val => (baseNameOf (tokens !!! 0%nat), val, true)
  | None => ("", zero, false)
  end.

(** A line of white space only. *)
Fixpoint allSpace (s : string) : bool :=
  match s with
  | "" => true
  | String c rest => isSpace c && allSpace rest
  end.

(** ** The scrape code of main.go *)

Module MainGo.
Section WithParseFloat.
(** [strconv.ParseFloat(s, 64)]: [None] when [err != nil]. *)
Variable ParseFloat : string -> option float.

Definition rejected : string * float * bool := ("", zero, false).

Definition parseMetricLine (line : string) : string * float * bool :=
  let parts := Fields line in
  if (length parts <? 2)%nat then rejected
  else
    let finish (val : float) :=
      let name := parts !!! 0%nat in
      let idx := IndexByte name lbrace in
      if negb (idx =? -1) then (sliceTo name idx, val, true)
      else (name, val, true) in
    match ParseFloat (parts !!! (length parts - 1)%nat) with
    | Some val => finish val
    | None =>
        if (3 <=? length parts)%nat then
          match ParseFloat (parts !!! (length parts - 2)%nat) with
          | Some val => finish val
          | None => rejected
          end
        else rejected
    end.

(** One turn of the scanner loop of [fetchAllMetrics]: the name the line
    adds to the set, if any. *)
Definition nameOfLine (line : string) : option string :=
  if HasPrefix line "#" || (String.length (TrimSpace line) =? 0)%nat then None
  else
    match parseMetricLine line with
    | (name, _, true) => Some name
    | _ => None
    end.

Definition scanNames (body : list string) : gmap string bool :=
  fold_left (fun (metrics : gmap string bool) line =>
               match nameOfLine line with
               | Some name => <[name := true]> metrics
               | None => metrics
               end) body ∅.

(** The keys of the map, through [sort.Strings]. *)
Definition fetchAllMetrics (resp : HttpResult) : list string + error :=
  match resp with
  | HttpFail cause => inr (ErrFetchFailed cause)
  | HttpResp code body =>
      if negb (code =? StatusOK) then inr (ErrUnexpectedStatus code)
      else inl (merge_sort String.le (map_to_list (scanNames body)).*1)
  end.

(** One turn of the scanner loop of [fetchAllMetricSeries]: [None] is a
    [continue], [Some s] reaches the [append]. *)
Definition seriesOfLine (metricName line : string) : option MetricSample :=
  if HasPrefix line "#" || (String.length (TrimSpace line) =? 0)%nat then None
  else
    let parts := Fields line in
    if (length parts <? 2)%nat then None
    else
      let fullName := parts !!! 0%nat in
      let baseName := baseNameOf fullName in
      if negb (String.eqb baseName metricName) then None
      else
        let accept (val : float) :=
          let fullName :=
            if negb (Contains fullName lbrace) then fullName +:+ "{}"
            else fullName in
          Some (mkSample fullName val) in
        match ParseFloat (parts !!! (length parts - 1)%nat) with
        | Some val => accept val
        | None =>
            if (3 <=? length parts)%nat then
              match ParseFloat (parts !!! (length parts - 2)%nat) with
              | Some val => accept val
              | None => None
              end
            else None
        end.

Definition scanSeries (metricName : string) (body : list string)
  : list MetricSample :=
  fold_left (fun (samples : list MetricSample) line =>
               match seriesOfLine metricName line with
               | Some s => samples ++ [s]
               | None => samples
               end) body [].

Definition fetchAllMetricSeries (resp : HttpResult) (metricName : string)
  : list MetricSample + error :=
  match resp with
  | HttpFail cause => inr (ErrFetchFailed cause)
  | HttpResp code body =>
      if negb (code =? StatusOK) then inr (ErrUnexpectedStatus code)
      else
        let samples := scanSeries metricName body in
        if (length samples =? 0)%nat then inr (ErrMetricNotFound metricName)
        else inl samples
  end.

End WithParseFloat.
End MainGo.

(** ** The scrape code of metrics.go *)

Module MetricsGo.
Section WithParseFloat.
Variable ParseFloat : string -> option float.

Definition rejected : string * float * bool := ("", zero, false).

(** The second field is the value; whatever follows it is ignored. *)
Definition parseMetricLine (line : string) : string * float * bool :=
  let parts := Fields line in
  if (length parts <? 2)%nat then rejected
  else
    match ParseFloat (parts !!! 1%nat) with
    | None => rejected
    | Some val =>
        let name := parts !!! 0%nat in
        match Cut name lbrace with
        | (before, _, true) => (before, val, true)
        | _ => (name, val, true)
        end
    end.

(** The loops of [fetchAllMetrics] and [fetchAllMetricSeries] read as in
    main.go, apart from the value rule. *)
Definition nameOfLine (line : string) : option string :=
  if HasPrefix line "#" || (String.length (TrimSpace line) =? 0)%nat then None
  else
    match parseMetricLine line with
    | (name, _, true) => Some name
    | _ => None
    end.

Definition scanNames (body : list string) : gmap string bool :=
  fold_left (fun (metrics : gmap string bool) line =>
               match nameOfLine line with
               | Some name => <[name := true]> metrics
               | None => metrics
               end) body ∅.

(** The keys of the map, through [sort.Strings]. *)
Definition fetchAllMetrics (resp : HttpResult) : list string + error :=
  match resp with
  | HttpFail cause => inr (ErrFetchFailed cause)
  | HttpResp code body =>
      if negb (code =? StatusOK) then inr (ErrUnexpectedStatus code)
      else inl (merge_sort String.le (map_to_list (scanNames body)).*1)
  end.

Definition seriesOfLine (metricName line : string) : option MetricSample :=
  if HasPrefix line "#" || (String.length (TrimSpace line) =? 0)%nat then None
  else
    let parts := Fields line in
    if (length parts <? 2)%nat then None
    else
      let fullName := parts !!! 0%nat in
      let baseName := baseNameOf fullName in
      if negb (String.eqb baseName metricName) then None
      else
        match ParseFloat (parts !!! 1%nat) with
        | None => None
        | Some val =>
            let fullName :=
              if negb (Contains fullName lbrace) then fullName +:+ "{}"
              else fullName in
            Some (mkSample fullName val)
        end.

Definition scanSeries (metricName : string) (body : list string)
  : list MetricSample :=
  fold_left (fun (samples : list MetricSample) line =>
               match seriesOfLine metricName line with
               | Some s => samples ++ [s]
               | None => samples
               end) body [].

Definition fetchAllMetricSeries (resp : HttpResult) (metricName : string)
  : list MetricSample + error :=
  match resp with
  | HttpFail cause => inr (ErrFetchFailed cause)
  | HttpResp code body =>
      if negb (code =? StatusOK) then inr (ErrUnexpectedStatus code)
      else
        let samples := scanSeries metricName body in
        if (length samples =? 0)%nat then inr (ErrMetricNotFound metricName)
        else inl samples
  end.

End WithParseFloat.
End MetricsGo.

(** The errors the specification calls [EndpointError]. *)
Definition isEndpointError (e : error) : bool :=
  match e with
  | ErrFetchFailed _ | ErrUnexpectedStatus _ => true
  | ErrMetricNotFound _ => false
  end.

(** ** The contract of "fetch series for metric"

    [accept] is the per-line rule; the outcome is an error exactly in the
    three listed situations, and otherwise the accepted samples, of which
    there is at least one. *)
Definition fetchContract (accept : string -> option MetricSample)
  (metric : string) (resp : HttpResult) (out : list MetricSample + error)
  : Prop :=
  match out with
  | inr e =>
      (exists cause,
          resp = HttpFail cause /\ e = ErrFetchFailed cause /\
          isEndpointError e = true) \/
      (exists code body,
          resp = HttpResp code body /\ code <> StatusOK /\
          e = ErrUnexpectedStatus code /\ isEndpointError e = true) \/
      (exists body,
          resp = HttpResp StatusOK body /\ omap accept body = [] /\
          e = ErrMetricNotFound metric /\ isEndpointError e = false)
  | inl samples =>
      exists body,
        resp = HttpResp StatusOK body /\ samples = omap accept body /\
        samples <> []
  end.

(** A sample of the metric [metric]: its name up to the first brace is the
    metric, and it carries a label block. *)
Definition sampleOf (metric : string) (s : MetricSample) : Prop :=
  baseNameOf (FullName s) = metric /\ Contains (FullName s) lbrace = true.

(** ** An instance of [strconv.ParseFloat]

    Plain decimal literals [[+-]digits[.digits]] whose digits form a
    number below 2^53 with at most 15 digits after the point: there
    [strconv] itself converts exactly, by one correctly rounded division by
    a power of ten.  Anything else is answered [None]; that is right for
    text that is no number at all, and the instance is not used on the other
    spellings of floats (exponents, hexadecimal, Inf, NaN).  The general
    theorems quantify over every [ParseFloat]. *)

Fixpoint digitsValue (acc : Z) (s : string) : option Z :=
  match s with
  | "" => Some acc
  | String c rest =>
      match Ascii.is_nat c with
      | Some d => digitsValue (10 * acc + Z.of_nat d) rest
      | None => None
      end
  end.

Definition floatOfZ (z : Z) : float := PrimFloat.of_uint63 (Uint63.of_Z z).

Definition ParseFloat_plain (s : string) : option float :=
  let '(neg, body) :=
    match s with
    | String "-" rest => (true, rest)
    | String "+" rest => (false, rest)
    | _ => (false, s)
    end in
  let i := IndexByte body "."%char in
  let intPart := if i =? -1 then body else sliceTo body i in
  let fracPart := if i =? -1 then "" else sliceFrom body (i + 1) in
  if (String.length intPart + String.length fracPart =? 0)%nat then None
  else
    match digitsValue 0 (intPart +:+ fracPart) with
    | None => None
    | Some mant =>
        let k := Z.of_nat (String.length fracPart) in
        if (mant <? 2 ^ 53) && (k <=? 15) then
          let f := (floatOfZ mant / floatOfZ (10 ^ k))%float in
          Some (if neg then (- f)%float else f)
        else None
    end.

(** ** The chart widget

    [timeserieslinechart.Model] is a collaborator.  The embedding keeps, for
    a chart, the calls the program has made on it since it was created, in
    order: what the widget does with them is the widget's business. *)

Module timeserieslinechart.

Record TimePoint := mkPoint { Time : Z; Value : float }.

Inductive Call :=
| New (w h : Z)
| ClearAllData
| Clear
| DrawXYAxisAndLabel
| Draw
| DrawAll
| Resize (w h : Z)
| SetYRange (minY maxY : float)
| SetViewYRange (minY maxY : float)
| SetDataSetStyle (dataset color : string)
| SetDataSetLineStyle (dataset : string)
| PushDataSet (dataset : string) (p : TimePoint).

Definition Model := list Call.

Definition isRangeCall (c : Call) : bool :=
  match c with
  | SetYRange _ _ | SetViewYRange _ _ => true
  | _ => false
  end.

(** The calls that fix the display range, oldest first. *)
Definition rangeCalls (c : list Call) : list Call := filter isRangeCall c.

(** The range the program last gave to [SetYRange], if any. *)
Definition yRange (c : Model) : option (float * float) :=
  fold_left (fun r call =>
               match call with
               | SetYRange lo hi => Some (lo, hi)
               | _ => r
               end) c None.

End timeserieslinechart.

Import timeserieslinechart (TimePoint, mkPoint).
Abbreviation Chart := timeserieslinechart.Model.

(** ** Messages *)

Inductive Msg :=
| TickMsg (t : Z)
| MetricsMsg (Samples : list MetricSample) (Err : option error)
| MetricsListMsg (Metrics : list string) (Err : option error)
| KeyMsg (key : string)                 (* [msg.String()] of a [tea.KeyMsg] *)
| WindowSizeMsg (Width Height : Z)
| OtherMsg (tag : Z).                    (* mouse and other events *)

(** seriesItem represents a data series with a checked state *)
Record seriesItem := mkSeries {
  name : string;
  checked : bool;
  colorIdx : Z
}.

(** [colorIdx] is the position in the registry: dense, and unique. *)
Definition dense (sl : list seriesItem) : Prop :=
  forall i s, sl !! i = Some s -> colorIdx s = Z.of_nat i.

(** What [existingSeries] knows is what the registry lists. *)
Definition tracks (e : gmap string bool) (sl : list seriesItem) : Prop :=
  forall n, default false (e !! n) = true <-> n ∈ name <$> sl.

(** The names of a batch that a registry does not list yet, each once, in
    the order in which the batch first shows them. *)
Fixpoint unseen (known names : list string) : list string :=
  match names with
  | [] => []
  | n :: rest =>
      if decide (n ∈ known) then unseen known rest
      else n :: unseen (known ++ [n]) rest
  end.

(** What a batch adds to a registry [sl]: records [new], all checked,
    numbered from [length sl] on, under names that are new, distinct and
    taken from the batch; afterwards every name of the batch is listed; and
    the new records come in first-seen order. *)
Definition adds (sl new : list seriesItem) (samples : list MetricSample)
  : Prop :=
  Forall (fun s => checked s = true) new /\
  (forall j s, new !! j = Some s -> colorIdx s = Z.of_nat (length sl + j)) /\
  NoDup (name <$> new) /\
  (forall s, s ∈ new ->
             (name s ∉ (name <$> sl)) /\ (name s ∈ (FullName <$> samples))) /\
  (forall x, x ∈ samples -> FullName x ∈ (name <$> (sl ++ new))) /\
  name <$> new = unseen (name <$> sl) (FullName <$> samples).

(** Calls that set no range. *)
Definition quiet (cs : list timeserieslinechart.Call) : Prop :=
  Forall (fun c => timeserieslinechart.isRangeCall c = false) cs.

(** The palette [NewModel] stores in [seriesColors]; nothing assigns the
    field afterwards. *)
Definition seriesColors : list string :=
  [ "202"; "46"; "226"; "201"; "51"; "208"; "99"; "171";
    "196"; "33"; "214"; "40"; "129"; "39"; "160"; "45";
    "220"; "135"; "118"; "200"; "81"; "227"; "161"; "48";
    "57"; "190"; "213"; "38"; "154"; "124"; "27"; "141" ].

Definition legendBoxWidth : Z := 35.
Definition legendContentPad : Z := 1.

(** abs returns the absolute value of a float64 *)
Definition abs (x : float) : float :=
  if (x <? 0)%float then (- x)%float else x.

(** The list and viewport widgets of [bubbles], and the commands they hand
    back, through the operations the program uses. *)
Class Widgets := {
  ListModel : Type;
  Viewport : Type;
  WidgetCmd : Type;
  list_New : ListModel;
  list_SelectedItem : ListModel -> option string;
  list_ResetFilter : ListModel -> ListModel;
  list_Filtering : ListModel -> bool;
  list_SetItems : list string -> ListModel -> ListModel;
  list_SetSize : Z -> Z -> ListModel -> ListModel;
  list_Update : Msg -> ListModel -> ListModel * WidgetCmd;
  viewport_New : Z -> Z -> Viewport;
  viewport_SetContent : list (string * string) -> Viewport -> Viewport;
  viewport_SetSize : Z -> Z -> Viewport -> Viewport;
  viewport_Update : Msg -> Viewport -> Viewport * WidgetCmd
}.

Section Session.
Context `{W : Widgets}.

Inductive Cmd :=
| nilCmd
| Quit
| fetchMetricCmd (url metricName : string)
| fetchAllMetricsCmd (url : string)
| tickCmd (interval : Z)
| widgetCmd (c : WidgetCmd)
| Batch (cmds : list Cmd).

(** Model is the bubbletea model *)
Record Model := mkModel {
  url : string;
  metricName : string;
  interval : Z;   (* a time.Duration *)
  chart : Chart;   (* the line chart widget *)
  lastValues : gmap string float;   (* series name to last value *)
  dataHistory : gmap string (list TimePoint);   (* all data points per series *)
  lastUpdate : Z;   (* a time.Time, as an instant *)
  err : option error;
  width : Z;
  height : Z;
  selectMode : bool;
  metricsList : ListModel;   (* the metric picker widget *)
  seriesSelectMode : bool;   (* whether in series selection mode *)
  seriesList : list seriesItem;   (* available series *)
  seriesListScroll : Z;   (* scroll position in series list *)
  seriesListSelected : Z;   (* selected item in series list *)
  showLegend : bool;   (* whether to show the legend *)
  termWidth : Z;
  termHeight : Z;
  legendViewport : Viewport;   (* viewport scrolling the legend entries *)
  yRangeSet : bool   (* whether the Y range has been initialized *)
}.


Definition set_metricName (v : string) (m : Model) : Model :=
  mkModel (url m) v (interval m) (chart m) (lastValues m) (dataHistory
    m) (lastUpdate m) (err m) (width m) (height m) (selectMode m)
    (metricsList m) (seriesSelectMode m) (seriesList m)
    (seriesListScroll m) (seriesListSelected m) (showLegend m)
    (termWidth m) (termHeight m) (legendViewport m) (yRangeSet m).
Definition set_chart (v : Chart) (m : Model) : Model :=
  mkModel (url m) (metricName m) (interval m) v (lastValues m)
    (dataHistory m) (lastUpdate m) (err m) (width m) (height m)
    (selectMode m) (metricsList m) (seriesSelectMode m) (seriesList m)
    (seriesListScroll m) (seriesListSelected m) (showLegend m)
    (termWidth m) (termHeight m) (legendViewport m) (yRangeSet m).
Definition set_lastValues (v : gmap string float) (m : Model) : Model :=
  mkModel (url m) (metricName m) (interval m) (chart m) v (dataHistory
    m) (lastUpdate m) (err m) (width m) (height m) (selectMode m)
    (metricsList m) (seriesSelectMode m) (seriesList m)
    (seriesListScroll m) (seriesListSelected m) (showLegend m)
    (termWidth m) (termHeight m) (legendViewport m) (yRangeSet m).
Definition set_dataHistory (v : gmap string (list TimePoint)) (m : Model) : Model :=
  mkModel (url m) (metricName m) (interval m) (chart m) (lastValues m) v
    (lastUpdate m) (err m) (width m) (height m) (selectMode m)
    (metricsList m) (seriesSelectMode m) (seriesList m)
    (seriesListScroll m) (seriesListSelected m) (showLegend m)
    (termWidth m) (termHeight m) (legendViewport m) (yRangeSet m).
Definition set_lastUpdate (v : Z) (m : Model) : Model :=
  mkModel (url m) (metricName m) (interval m) (chart m) (lastValues m)
    (dataHistory m) v (err m) (width m) (height m) (selectMode m)
    (metricsList m) (seriesSelectMode m) (seriesList m)
    (seriesListScroll m) (seriesListSelected m) (showLegend m)
    (termWidth m) (termHeight m) (legendViewport m) (yRangeSet m).
Definition set_err (v : option error) (m : Model) : Model :=
  mkModel (url m) (metricName m) (interval m) (chart m) (lastValues m)
    (dataHistory m) (lastUpdate m) v (width m) (height m) (selectMode m)
    (metricsList m) (seriesSelectMode m) (seriesList m)
    (seriesListScroll m) (seriesListSelected m) (showLegend m)
    (termWidth m) (termHeight m) (legendViewport m) (yRangeSet m).
Definition set_width (v : Z) (m : Model) : Model :=
  mkModel (url m) (metricName m) (interval m) (chart m) (lastValues m)
    (dataHistory m) (lastUpdate m) (err m) v (height m) (selectMode m)
    (metricsList m) (seriesSelectMode m) (seriesList m)
    (seriesListScroll m) (seriesListSelected m) (showLegend m)
    (termWidth m) (termHeight m) (legendViewport m) (yRangeSet m).
Definition set_height (v : Z) (m : Model) : Model :=
  mkModel (url m) (metricName m) (interval m) (chart m) (lastValues m)
    (dataHistory m) (lastUpdate m) (err m) (width m) v (selectMode m)
    (metricsList m) (seriesSelectMode m) (seriesList m)
    (seriesListScroll m) (seriesListSelected m) (showLegend m)
    (termWidth m) (termHeight m) (legendViewport m) (yRangeSet m).
Definition set_selectMode (v : bool) (m : Model) : Model :=
  mkModel (url m) (metricName m) (interval m) (chart m) (lastValues m)
    (dataHistory m) (lastUpdate m) (err m) (width m) (height m) v
    (metricsList m) (seriesSelectMode m) (seriesList m)
    (seriesListScroll m) (seriesListSelected m) (showLegend m)
    (termWidth m) (termHeight m) (legendViewport m) (yRangeSet m).
Definition set_metricsList (v : ListModel) (m : Model) : Model :=
  mkModel (url m) (metricName m) (interval m) (chart m) (lastValues m)
    (dataHistory m) (lastUpdate m) (err m) (width m) (height m)
    (selectMode m) v (seriesSelectMode m) (seriesList m)
    (seriesListScroll m) (seriesListSelected m) (showLegend m)
    (termWidth m) (termHeight m) (legendViewport m) (yRangeSet m).
Definition set_seriesSelectMode (v : bool) (m : Model) : Model :=
  mkModel (url m) (metricName m) (interval m) (chart m) (lastValues m)
    (dataHistory m) (lastUpdate m) (err m) (width m) (height m)
    (selectMode m) (metricsList m) v (seriesList m) (seriesListScroll m)
    (seriesListSelected m) (showLegend m) (termWidth m) (termHeight m)
    (legendViewport m) (yRangeSet m).
Definition set_seriesList (v : list seriesItem) (m : Model) : Model :=
  mkModel (url m) (metricName m) (interval m) (chart m) (lastValues m)
    (dataHistory m) (lastUpdate m) (err m) (width m) (height m)
    (selectMode m) (metricsList m) (seriesSelectMode m) v
    (seriesListScroll m) (seriesListSelected m) (showLegend m)
    (termWidth m) (termHeight m) (legendViewport m) (yRangeSet m).
Definition set_seriesListScroll (v : Z) (m : Model) : Model :=
  mkModel (url m) (metricName m) (interval m) (chart m) (lastValues m)
    (dataHistory m) (lastUpdate m) (err m) (width m) (height m)
    (selectMode m) (metricsList m) (seriesSelectMode m) (seriesList m) v
    (seriesListSelected m) (showLegend m) (termWidth m) (termHeight m)
    (legendViewport m) (yRangeSet m).
Definition set_seriesListSelected (v : Z) (m : Model) : Model :=
  mkModel (url m) (metricName m) (interval m) (chart m) (lastValues m)
    (dataHistory m) (lastUpdate m) (err m) (width m) (height m)
    (selectMode m) (metricsList m) (seriesSelectMode m) (seriesList m)
    (seriesListScroll m) v (showLegend m) (termWidth m) (termHeight m)
    (legendViewport m) (yRangeSet m).
Definition set_showLegend (v : bool) (m : Model) : Model :=
  mkModel (url m) (metricName m) (interval m) (chart m) (lastValues m)
    (dataHistory m) (lastUpdate m) (err m) (width m) (height m)
    (selectMode m) (metricsList m) (seriesSelectMode m) (seriesList m)
    (seriesListScroll m) (seriesListSelected m) v (termWidth m)
    (termHeight m) (legendViewport m) (yRangeSet m).
Definition set_termWidth (v : Z) (m : Model) : Model :=
  mkModel (url m) (metricName m) (interval m) (chart m) (lastValues m)
    (dataHistory m) (lastUpdate m) (err m) (width m) (height m)
    (selectMode m) (metricsList m) (seriesSelectMode m) (seriesList m)
    (seriesListScroll m) (seriesListSelected m) (showLegend m) v
    (termHeight m) (legendViewport m) (yRangeSet m).
Definition set_termHeight (v : Z) (m : Model) : Model :=
  mkModel (url m) (metricName m) (interval m) (chart m) (lastValues m)
    (dataHistory m) (lastUpdate m) (err m) (width m) (height m)
    (selectMode m) (metricsList m) (seriesSelectMode m) (seriesList m)
    (seriesListScroll m) (seriesListSelected m) (showLegend m)
    (termWidth m) v (legendViewport m) (yRangeSet m).
Definition set_legendViewport (v : Viewport) (m : Model) : Model :=
  mkModel (url m) (metricName m) (interval m) (chart m) (lastValues m)
    (dataHistory m) (lastUpdate m) (err m) (width m) (height m)
    (selectMode m) (metricsList m) (seriesSelectMode m) (seriesList m)
    (seriesListScroll m) (seriesListSelected m) (showLegend m)
    (termWidth m) (termHeight m) v (yRangeSet m).
Definition set_yRangeSet (v : bool) (m : Model) : Model :=
  mkModel (url m) (metricName m) (interval m) (chart m) (lastValues m)
    (dataHistory m) (lastUpdate m) (err m) (width m) (height m)
    (selectMode m) (metricsList m) (seriesSelectMode m) (seriesList m)
    (seriesListScroll m) (seriesListSelected m) (showLegend m)
    (termWidth m) (termHeight m) (legendViewport m) v.

Definition addCalls (cs : list timeserieslinechart.Call) (m : Model) : Model :=
  set_chart (chart m ++ cs) m.

Definition colorAt (idx : Z) : string :=
  seriesColors !!! Z.to_nat idx.

Definition paletteSize : Z := Z.of_nat (length seriesColors).

(** redrawChart redraws the chart respecting series selection *)
Definition redrawSeries (m : Model) (series : seriesItem)
  : list timeserieslinechart.Call :=
  if negb (checked series) then []
  else
    match dataHistory m !! name series with
    | None => []
    | Some data =>
        let colorIdx := Z.rem (colorIdx series) paletteSize in
        [ timeserieslinechart.SetDataSetStyle (name series) (colorAt colorIdx);
          timeserieslinechart.SetDataSetLineStyle (name series) ]
        ++ map (timeserieslinechart.PushDataSet (name series)) data
    end.

Definition redrawChart (m : Model) : Model :=
  let m := addCalls [ timeserieslinechart.ClearAllData;
                      timeserieslinechart.Clear;
                      timeserieslinechart.DrawXYAxisAndLabel ] m in
  let m := addCalls (concat (map (redrawSeries m) (seriesList m))) m in
  addCalls [ timeserieslinechart.DrawAll ] m.

(** One legend entry: the colour of the indicator and the label. *)
Definition legendEntry (m : Model) (series : seriesItem)
  : list (string * string) :=
  if negb (checked series) then []
  else
    match dataHistory m !! name series with
    | None => []
    | Some _ =>
        let colorIdx := Z.rem (colorIdx series) paletteSize in
        let idx := IndexByte (name series) lbrace in
        let legendLabel :=
          if negb (idx =? -1) then sliceFrom (name series) idx else "{}" in
        let legendLabel :=
          if 30 <? Z.of_nat (String.length legendLabel)
          then sliceTo legendLabel 27 +:+ "..."
          else legendLabel in
        [ (colorAt colorIdx, legendLabel) ]
    end.

Definition rebuildLegend (m : Model) : Model :=
  let legendContent := concat (map (legendEntry m) (seriesList m)) in
  set_legendViewport (viewport_SetContent legendContent (legendViewport m)) m.

Definition legendInnerDimensions (totalHeight : Z) : Z * Z :=
  (Z.max (legendBoxWidth - 2 - 2 * legendContentPad) 1,
   Z.max (totalHeight - 4) 1).

Definition newLegendViewport (totalHeight : Z) : Viewport :=
  let '(width, height) := legendInnerDimensions totalHeight in
  viewport_New width height.

Definition updateLegendViewportSize (m : Model) : Model :=
  if negb (showLegend m) then m
  else
    let '(width, height) := legendInnerDimensions (height m) in
    set_legendViewport (viewport_SetSize width height (legendViewport m)) m.

(** NewModel creates a new model *)
Definition NewModel (url metricName : string) (interval : Z) : Model :=
  let width := 100 in
  let height := 20 in
  mkModel url metricName interval [ timeserieslinechart.New width height ]
    ∅ ∅ 0 None width height false list_New false [] 0 0 false 0 0
    (newLegendViewport height) false.

(** resizeChart resizes the chart based on terminal dimensions *)
Definition resizeChart (m : Model) : Model :=
  if (termWidth m =? 0) || (termHeight m =? 0) then m
  else
    let headerFooterHeight := if err m is Some _ then 9 + 2 else 9 in
    let chartWidth := termWidth m - 6 in
    let chartWidth := if showLegend m then chartWidth - 38 else chartWidth in
    let chartHeight := termHeight m - headerFooterHeight in
    let chartWidth := if chartWidth <? 40 then 40 else chartWidth in
    let chartHeight := if chartHeight <? 10 then 10 else chartHeight in
    let m :=
      if negb (chartWidth =? width m) || negb (chartHeight =? height m) then
        let m := set_height chartHeight (set_width chartWidth m) in
        addCalls [ timeserieslinechart.Resize (width m) (height m);
                   timeserieslinechart.DrawXYAxisAndLabel;
                   if (size (dataHistory m) <=? 1)%nat
                   then timeserieslinechart.Draw
                   else timeserieslinechart.DrawAll ] m
      else m in
    updateLegendViewportSize m.

(** *** A scrape result: [case MetricsMsg] of [Update] *)

(** The cross-metric guard: the first sample names another metric. *)
Definition wrongMetric (m : Model) (samples : list MetricSample) : bool :=
  match samples with
  | [] => false
  | first :: _ =>
      negb (String.eqb (baseNameOf (FullName first)) (metricName m))
  end.

Definition existingOf (sl : list seriesItem) : gmap string bool :=
  fold_left (fun (e : gmap string bool) s => <[name s := true]> e) sl ∅.

Definition reconcileStep (st : gmap string bool * list seriesItem)
  (sample : MetricSample) : gmap string bool * list seriesItem :=
  let displayName := FullName sample in
  if negb (default false (st.1 !! displayName)) then
    (<[displayName := true]> st.1,
     st.2 ++ [ mkSeries displayName true (Z.of_nat (length st.2)) ])
  else st.

(** "Update series list when new samples arrive" *)
Definition reconcile (sl : list seriesItem) (samples : list MetricSample)
  : list seriesItem :=
  (fold_left reconcileStep samples (existingOf sl, sl)).2.

Definition minMaxStep (acc : float * float) (sample : MetricSample)
  : float * float :=
  let minVal := if (Value sample <? acc.1)%float then Value sample else acc.1 in
  let maxVal := if (acc.2 <? Value sample)%float then Value sample else acc.2 in
  (minVal, maxVal).

(** "Initial setup - set a reasonable range based on all values" *)
Definition initialRange (samples : list MetricSample) : float * float :=
  let first := Value (samples !!! 0%nat) in
  let '(minVal, maxVal) := fold_left minMaxStep samples (first, first) in
  let minY := (minVal * 0.9)%float in
  let maxY := (maxVal * 1.1)%float in
  if (minY =? maxY)%float then
    if (minVal =? 0)%float then ((-1)%float, 1%float)
    else
      let delta := (abs minVal * 0.1)%float in
      ((minVal - delta)%float, (maxVal + delta)%float)
  else (minY, maxY).

(** The linear search of [seriesList] for a name. *)
Fixpoint findSeries (sl : list seriesItem) (displayName : string)
  : option seriesItem :=
  match sl with
  | [] => None
  | s :: rest =>
      if String.eqb (name s) displayName then Some s
      else findSeries rest displayName
  end.

(** One turn of "Process each sample and push to appropriate dataset". *)
Definition pushSample (i : Z) (sample : MetricSample) (m : Model) : Model :=
  let m := set_lastValues (<[FullName sample := Value sample]> (lastValues m)) m in
  let point := mkPoint (lastUpdate m) (Value sample) in
  let displayName := FullName sample in
  let '(isChecked, colorIdx) :=
    if 0 <? Z.of_nat (length (seriesList m)) then
      match findSeries (seriesList m) displayName with
      | Some s => (checked s, colorIdx s)
      | None => (false, Z.rem i paletteSize)
      end
    else (true, Z.rem i paletteSize) in
  let datasetName := displayName in
  let m := set_dataHistory
             (<[datasetName := default [] (dataHistory m !! datasetName) ++ [point]]>
                (dataHistory m)) m in
  let colorIdx := Z.rem colorIdx paletteSize in
  addCalls ([ timeserieslinechart.SetDataSetStyle datasetName (colorAt colorIdx);
              timeserieslinechart.SetDataSetLineStyle datasetName ]
            ++ if isChecked
               then [ timeserieslinechart.PushDataSet datasetName point ]
               else []) m.

Fixpoint pushSamples (i : Z) (samples : list MetricSample) (m : Model) : Model :=
  match samples with
  | [] => m
  | sample :: rest => pushSamples (i + 1) rest (pushSample i sample m)
  end.

Definition updateMetrics (now : Z) (m : Model)
  (samples : list MetricSample) (e : option error) : Model * Cmd :=
  match e with
  | Some _ => (set_err e m, nilCmd)
  | None =>
      let m := set_err None m in
      let m := set_lastUpdate now m in
      if wrongMetric m samples then (m, nilCmd)
      else
        let m :=
          if 0 <? Z.of_nat (length samples)
          then set_seriesList (reconcile (seriesList m) samples) m
          else m in
        let m :=
          if (0 <? Z.of_nat (length samples)) && negb (yRangeSet m) then
            let '(minY, maxY) := initialRange samples in
            set_yRangeSet true
              (addCalls [ timeserieslinechart.SetYRange minY maxY;
                          timeserieslinechart.SetViewYRange minY maxY ] m)
          else m in
        let m := pushSamples 0 samples m in
        let m :=
          if negb (seriesSelectMode m)
          then addCalls [ timeserieslinechart.DrawAll ] m
          else m in
        (m, nilCmd)
  end.

(** *** Keys of the series selection mode *)

Definition toggle (s : seriesItem) : seriesItem :=
  mkSeries (name s) (negb (checked s)) (colorIdx s).

Definition setChecked (b : bool) (s : seriesItem) : seriesItem :=
  mkSeries (name s) b (colorIdx s).

Definition maxVisible (m : Model) : Z :=
  let maxVisible := termHeight m - 12 in
  if maxVisible <? 3 then 3 else maxVisible.

(** [seriesListSelected] starts at 0 and is only decremented when
    positive, so the index below is never negative. *)
Definition updateSeriesSelect (m : Model) (msg : Msg) : Model * Cmd :=
  match msg with
  | KeyMsg key =>
      if String.eqb key "ctrl+c" then (m, Quit)
      else if String.eqb key "q" || String.eqb key "esc" then
        (set_seriesSelectMode false m, nilCmd)
      else if String.eqb key "enter" then
        (rebuildLegend (redrawChart (set_seriesSelectMode false m)), nilCmd)
      else if String.eqb key " " then
        if (0 <? Z.of_nat (length (seriesList m)))
           && (seriesListSelected m <? Z.of_nat (length (seriesList m)))
        then (set_seriesList
                (alter toggle (Z.to_nat (seriesListSelected m)) (seriesList m)) m,
              nilCmd)
        else (m, nilCmd)
      else if String.eqb key "a" then
        let allChecked := forallb checked (seriesList m) in
        (set_seriesList (map (setChecked (negb allChecked)) (seriesList m)) m,
         nilCmd)
      else if String.eqb key "up" then
        if 0 <? seriesListSelected m then
          let m := set_seriesListSelected (seriesListSelected m - 1) m in
          let m := if seriesListSelected m <? seriesListScroll m
                   then set_seriesListScroll (seriesListSelected m) m
                   else m in
          (m, nilCmd)
        else (m, nilCmd)
      else if String.eqb key "down" then
        if seriesListSelected m <? Z.of_nat (length (seriesList m)) - 1 then
          let m := set_seriesListSelected (seriesListSelected m + 1) m in
          let m := if seriesListScroll m + maxVisible m <=? seriesListSelected m
                   then set_seriesListScroll
                          (seriesListSelected m - maxVisible m + 1) m
                   else m in
          (m, nilCmd)
        else (m, nilCmd)
      else (m, nilCmd)
  | _ => (m, nilCmd)
  end.

(** *** The metric picker *)

(** "Switch to selected metric": the assignments made when the picker has
    a selected item. *)
Definition switchMetric (i : string) (m : Model) : Model :=
  let m := set_metricName i m in
  let m := set_chart [ timeserieslinechart.New (width m) (height m);
                       timeserieslinechart.DrawXYAxisAndLabel ] m in
  let m := set_err None m in
  let m := set_lastValues ∅ m in
  let m := set_dataHistory ∅ m in
  let m := set_lastUpdate 0 m in
  let m := set_yRangeSet false m in
  let m := set_seriesList [] m in
  let m := set_seriesListSelected 0 m in
  set_seriesListScroll 0 m.

Definition passToList (m : Model) (msg : Msg) : Model * Cmd :=
  let '(l, cmd) := list_Update msg (metricsList m) in
  (set_metricsList l m, widgetCmd cmd).

Definition updateSelect (m : Model) (msg : Msg) : Model * Cmd :=
  match msg with
  | KeyMsg key =>
      if String.eqb key "enter" then
        let m := match list_SelectedItem (metricsList m) with
                 | Some i => switchMetric i m
                 | None => m
                 end in
        let m := set_metricsList (list_ResetFilter (metricsList m)) m in
        let m := rebuildLegend m in
        let m := set_selectMode false m in
        (m, Batch [ fetchMetricCmd (url m) (metricName m); tickCmd (interval m) ])
      else if String.eqb key "ctrl+c" then (m, Quit)
      else if (String.eqb key "q" || String.eqb key "esc")
              && negb (list_Filtering (metricsList m)) then
        let m := set_metricsList (list_ResetFilter (metricsList m)) m in
        (set_selectMode false m, nilCmd)
      else passToList m msg
  | MetricsListMsg metrics e =>
      match e with
      | Some _ => (set_selectMode false (set_err e m), nilCmd)
      | None =>
          (set_metricsList (list_SetItems metrics (metricsList m)) m, nilCmd)
      end
  | _ => passToList m msg
  end.

(** *** Normal mode *)

(** The end of [Update]: the legend viewport sees the message. *)
Definition legendTail (m : Model) (msg : Msg) : Model * Cmd :=
  if showLegend m then
    let '(v, cmd) := viewport_Update msg (legendViewport m) in
    (set_legendViewport v m, Batch [ widgetCmd cmd ])
  else (m, Batch []).

Definition updateNormal (m : Model) (msg : Msg) : Model * Cmd :=
  match msg with
  | KeyMsg key =>
      if String.eqb key "q" || String.eqb key "ctrl+c" then (m, Quit)
      else if String.eqb key "m" then
        (set_selectMode true m, fetchAllMetricsCmd (url m))
      else if String.eqb key "l" then
        let m := set_showLegend (negb (showLegend m)) m in
        legendTail (resizeChart (rebuildLegend m)) msg
      else if String.eqb key "s" then
        let m :=
          if (0 <? size (dataHistory m))%nat then
            set_seriesListScroll 0
              (set_seriesListSelected 0 (set_seriesSelectMode true m))
          else m in
        legendTail m msg
      else if String.eqb key "r" then
        (addCalls [ timeserieslinechart.ClearAllData;
                    timeserieslinechart.Clear;
                    timeserieslinechart.DrawXYAxisAndLabel ] m, nilCmd)
      else legendTail m msg
  | WindowSizeMsg w h =>
      let m := set_termHeight h (set_termWidth w m) in
      let m :=
        if negb (selectMode m) then resizeChart m
        else set_metricsList (list_SetSize (w - 4) (h - 10) (metricsList m)) m in
      legendTail m msg
  | _ => legendTail m msg
  end.

(** *** Update

    [now] is what [time.Now()] answers if the handler asks. *)
Definition Update (now : Z) (m : Model) (msg : Msg) : Model * Cmd :=
  match msg with
  | TickMsg _ =>
      (m, Batch [ fetchMetricCmd (url m) (metricName m); tickCmd (interval m) ])
  | MetricsMsg samples e => updateMetrics now m samples e
  | _ =>
      if seriesSelectMode m then updateSeriesSelect m msg
      else if selectMode m then updateSelect m msg
      else updateNormal m msg
  end.

(** The model after a run of the event loop, one [(now, msg)] per turn. *)
Definition run (m : Model) (events : list (Z * Msg)) : Model :=
  fold_left (fun m ev => (Update ev.1 m ev.2).1) events m.

(** The turn confirms a metric in the picker. *)
Definition confirmsMetric (m : Model) (msg : Msg) : bool :=
  match msg with
  | KeyMsg key =>
      negb (seriesSelectMode m) && selectMode m && String.eqb key "enter"
  | _ => false
  end.

Fixpoint noConfirm (m : Model) (events : list (Z * Msg)) : bool :=
  match events with
  | [] => true
  | ev :: rest =>
      negb (confirmsMetric m ev.2) && noConfirm (Update ev.1 m ev.2).1 rest
  end.

(** The display range is left as it was: the lock keeps its value and no
    call on the chart sets a range. *)
Definition sameRange (m m' : Model) : Prop :=
  yRangeSet m' = yRangeSet m /\
  timeserieslinechart.rangeCalls (chart m')
  = timeserieslinechart.rangeCalls (chart m).

End Session.

(** ** A plain instance of the widgets, for running the model

    The picker keeps its items and a cursor; the viewport keeps its size and
    content; neither reacts to messages. *)

Record plainList := mkPlainList {
  plItems : list string;
  plCursor : nat;
  plFiltering : bool
}.

Record plainViewport := mkPlainViewport {
  pvWidth : Z;
  pvHeight : Z;
  pvContent : list (string * string)
}.

#[export] Instance plainWidgets : Widgets := {|
  ListModel := plainList;
  Viewport := plainViewport;
  WidgetCmd := unit;
  list_New := mkPlainList [] 0 false;
  list_SelectedItem l := plItems l !! plCursor l;
  list_ResetFilter l := mkPlainList (plItems l) (plCursor l) false;
  list_Filtering := plFiltering;
  list_SetItems items l := mkPlainList items (plCursor l) (plFiltering l);
  list_SetSize _ _ l := l;
  list_Update _ l := (l, tt);
  viewport_New w h := mkPlainViewport w h [];
  viewport_SetContent c v := mkPlainViewport (pvWidth v) (pvHeight v) c;
  viewport_SetSize w h v := mkPlainViewport w h (pvContent v);
  viewport_Update _ v := (v, tt)
|}.

(** ** A session to run the model on *)

Module Demo.

Definition seriesA : string := "temp{room=a}".
Definition seriesB : string := "temp{room=b}".
Definition seriesC : string := "temp{room=c}".

Definition batchAB : list MetricSample :=
  [ mkSample seriesA 1.5; mkSample seriesB 2.5 ].
Definition batchABC : list MetricSample :=
  [ mkSample seriesA 1; mkSample seriesB 2; mkSample seriesC 3 ].
(** Values far outside the range the first batch gives. *)
Definition batchWild : list MetricSample :=
  [ mkSample seriesA 100; mkSample seriesB (-50) ].
(** A batch of another metric. *)
Definition batchOther : list MetricSample :=
  [ mkSample "load{cpu=0}" 7 ].
(** Two below-zero gauges. *)
Definition batchCold : list MetricSample :=
  [ mkSample seriesA (-10); mkSample seriesB (-5) ].
Definition batchColder : list MetricSample :=
  [ mkSample seriesA (-10); mkSample seriesB (-9.5) ].

(** The model at start-up, watching [temp]. *)
Definition started : Model := NewModel "http://host/metrics" "temp" 2.

(** After the first scrape. *)
Definition afterAB : Model := (Update 1 started (MetricsMsg batchAB None)).1.

(** In the metric picker, with [load] under the cursor. *)
Definition picking : Model :=
  run afterAB [ (2, KeyMsg "m"); (3, MetricsListMsg [ "load"; "temp" ] None) ].

End Demo.

(** ** Words for the properties of the scrape code *)

(** A text without white space. *)
Fixpoint noSpace (s : string) : bool :=
  match s with
  | "" => true
  | String c rest => negb (isSpace c) && noSpace rest
  end.

(** A token of a line: not empty, no white space. *)
Definition token (s : string) : Prop := s <> "" /\ noSpace s = true.

(** [strings.Join(tokens, " ")]. *)
Definition joinSpace (tokens : list string) : string :=
  String.concat " " tokens.

(** The contract of "discover metric names", for a given per-line rule:
    the two endpoint errors, or else the names the lines give, each once,
    in increasing order. *)
Definition discoverContract (nameOf : string -> option string)
  (resp : HttpResult) (out : list string + error) : Prop :=
  match out with
  | inr e =>
      (exists cause, resp = HttpFail cause /\ e = ErrFetchFailed cause) \/
      (exists code body,
          resp = HttpResp code body /\ code <> StatusOK /\
          e = ErrUnexpectedStatus code)
  | inl names =>
      exists body,
        resp = HttpResp StatusOK body /\
        Sorted String.le names /\ NoDup names /\
        forall n, n ∈ names <->
                  exists line, line ∈ body /\ nameOf line = Some n
  end.

(** The name a sample gets: its first field, with [{}] added when it has no
    label block. *)
Definition labelled (first : string) : string :=
  if negb (Contains first lbrace) then first +:+ "{}" else first.

(** Whether the scanner loops skip the line before they parse it. *)
Definition skipped (line : string) : bool :=
  HasPrefix line "#" || (String.length (TrimSpace line) =? 0)%nat.

(** The two scanner loops, read by value rule: what a line gives to
    discovery, and what it gives to the fetch of [metric]. *)
Definition nameByRule (rule : list string -> option float) (line : string)
  : option string :=
  if skipped line then None
  else match rule (Fields line) with
       | Some _ => Some (baseNameOf (Fields line !!! 0%nat))
       | None => None
       end.

Definition seriesByRule (rule : list string -> option float)
  (metric line : string) : option MetricSample :=
  if skipped line then None
  else match rule (Fields line) with
       | Some v =>
           if String.eqb (baseNameOf (Fields line !!! 0%nat)) metric
           then Some (mkSample (labelled (Fields line !!! 0%nat)) v)
           else None
       | None => None
       end.

(** ** Words for the properties of the session *)

(** The data of the session is left as it was: current metric, history,
    last values, registry and range lock. *)
Definition sameData `{W : Widgets} (m m' : Model) : Prop :=
  metricName m' = metricName m /\ dataHistory m' = dataHistory m
  /\ lastValues m' = lastValues m /\ seriesList m' = seriesList m
  /\ yRangeSet m' = yRangeSet m.

(** The history of a series, empty when the series has none. *)
Definition historyOf `{W : Widgets} (m : Model) (n : string) : list TimePoint :=
  default [] (dataHistory m !! n).

(** The session has only grown: same metric; every history is extended at
    its end; the registry keeps its names and colour numbers, in place, and
    is extended at its end. *)
Definition grows `{W : Widgets} (m m' : Model) : Prop :=
  metricName m' = metricName m
  /\ (forall n, historyOf m n `prefix_of` historyOf m' n)
  /\ (name <$> seriesList m) `prefix_of` (name <$> seriesList m')
  /\ (colorIdx <$> seriesList m) `prefix_of` (colorIdx <$> seriesList m').

(** What holds of every model the program can reach: the registry lists
    each name once and numbers its records by position; every series with a
    history is in the registry; and while the series picker is open its
    cursor is on a record and inside the scroll window. *)
Definition consistent `{W : Widgets} (m : Model) : Prop :=
  NoDup (name <$> seriesList m)
  /\ dense (seriesList m)
  /\ (forall n, is_Some (dataHistory m !! n) -> n ∈ name <$> seriesList m)
  /\ (seriesSelectMode m = true ->
      0 <= seriesListSelected m < Z.of_nat (length (seriesList m))
      /\ 0 <= seriesListScroll m <= seriesListSelected m
      /\ seriesListSelected m < seriesListScroll m + maxVisible m).

(** ** Words for what the chart is told *)

(** The points pushed to the dataset [n] by a list of calls, in order. *)
Definition pushedTo (n : string) (cs : list timeserieslinechart.Call)
  : list TimePoint :=
  omap (fun c =>
          match c with
          | timeserieslinechart.PushDataSet d p =>
              if decide (d = n) then Some p else None
          | _ => None
          end) cs.

(** Whether the registry shows the series [n]: the check of its record,
    [false] when it has none. *)
Definition visible (sl : list seriesItem) (n : string) : bool :=
  match findSeries sl n with
  | Some s => checked s
  | None => false
  end.

(** The calls the sample loop makes: styles and pushes. *)
Definition isDataCall (c : timeserieslinechart.Call) : bool :=
  match c with
  | timeserieslinechart.SetDataSetStyle _ _
  | timeserieslinechart.SetDataSetLineStyle _
  | timeserieslinechart.PushDataSet _ _ => true
  | _ => false
  end.

(** The points of a batch for the series [n], stamped [now]. *)
Definition pointsOf (now : Z) (n : string) (samples : list MetricSample)
  : list TimePoint :=
  (mkPoint now ∘ Value) <$> filter (fun x => FullName x = n) samples.

(** The legend shows a series: it is checked and has a history. *)
Definition inLegend `{W : Widgets} (m : Model) (s : seriesItem) : Prop :=
  checked s = true /\ is_Some (dataHistory m !! name s).

#[export] Instance inLegend_dec `{W : Widgets} (m : Model) (s : seriesItem)
  : Decision (inLegend m s) :=
  (_ : Decision (checked s = true /\ is_Some (dataHistory m !! name s))).

(** The colour a series is drawn in. *)
Definition colorOf (s : seriesItem) : string :=
  colorAt (Z.rem (colorIdx s) paletteSize).

(** The calls that give the chart a size. *)
Definition isSizeCall (c : timeserieslinechart.Call) : bool :=
  match c with
  | timeserieslinechart.New _ _ | timeserieslinechart.Resize _ _ => true
  | _ => false
  end.

(** The size the chart was last given, by [New] or [Resize]. *)
Definition chartSize (c : list timeserieslinechart.Call) : option (Z * Z) :=
  fold_left (fun r call =>
               match call with
               | timeserieslinechart.New w h
               | timeserieslinechart.Resize w h => Some (w, h)
               | _ => r
               end) c None.

(** The model's [width] and [height] are the size the chart has, and are
    not below the floors of [resizeChart]. *)
Definition sized `{W : Widgets} (m : Model) : Prop :=
  chartSize (chart m) = Some (width m, height m)
  /\ 40 <= width m /\ 10 <= height m.

(** [m'] has the size of [m] and its chart has only been given calls that
    leave the size alone. *)
Definition sizeFrame `{W : Widgets} (m m' : Model) : Prop :=
  width m' = width m /\ height m' = height m
  /\ exists cs, chart m' = chart m ++ cs
                /\ Forall (fun c => isSizeCall c = false) cs.

(** ** The commands and the start of the program *)

(** The message the command of [fetchMetricCmd] delivers when the endpoint
    answers [resp]. *)
Definition fetchMetricMsg (ParseFloat : string -> option float)
  (resp : HttpResult) (metricName : string) : Msg :=
  match MainGo.fetchAllMetricSeries ParseFloat resp metricName with
  | inl samples => MetricsMsg samples None
  | inr e => MetricsMsg [] (Some e)
  end.

(** The message the command of [fetchAllMetricsCmd] delivers. *)
Definition fetchAllMetricsMsg (ParseFloat : string -> option float)
  (resp : HttpResult) : Msg :=
  match MainGo.fetchAllMetrics ParseFloat resp with
  | inl metrics => MetricsListMsg metrics None
  | inr e => MetricsListMsg [] (Some e)
  end.

(** The two errors [runApp] makes before the program starts. *)
Inductive appError :=
| ErrFetchingMetrics (e : error)   (* "error fetching metrics: %w" *)
| ErrNoMetrics.   (* "no metrics found at the endpoint" *)

(** [runApp] up to the model it hands to [tea.NewProgram]; [resp] is the
    answer of the endpoint to the discovery request, if one is made. *)
Definition runApp `{W : Widgets} (ParseFloat : string -> option float)
  (metricFlag : string) (intervalFlag : Z) (resp : HttpResult) (url : string)
  : Model + appError :=
  let selectedMetric :=
    if String.eqb metricFlag "" then
      match MainGo.fetchAllMetrics ParseFloat resp with
      | inr e => inr (ErrFetchingMetrics e)
      | inl metrics =>
          if (length metrics =? 0)%nat then inr ErrNoMetrics
          else inl (metrics !!! 0%nat)
      end
    else inl metricFlag in
  match selectedMetric with
  | inl selectedMetric => inl (NewModel url selectedMetric intervalFlag)
  | inr e => inr e
  end.

(** The float is a zero, of either sign. *)
Definition isZero (v : float) : Prop := (v =? 0)%float = true.

(** ** The scrape contracts, in the words of the specification *)

(** The value of the line resolves under the rule. *)
Definition resolves (rule : list string -> option float) (line : string)
  : bool :=
  match rule (Fields line) with
  | Some _ => true
  | None => false
  end.

(** The line is an accepted sample of the metric: it is neither a comment
    nor blank, its value resolves, and its first token, up to the first
    brace, is the metric. *)
Definition matchesMetric (rule : list string -> option float)
  (metric line : string) : bool :=
  negb (skipped line) && resolves rule line
  && String.eqb (baseNameOf (Fields line !!! 0%nat)) metric.

(** The contract of "fetch series for metric" with the per-line rule
    written out: an endpoint error for a failed transport or a status other
    than 200; the not-found error, naming the metric, when the response was
    read and no line is an accepted sample of the metric; otherwise one
    sample per accepted line of the metric, in the order of the lines, and
    at least one. *)
Definition fetchSpec (rule : list string -> option float)
  (metric : string) (resp : HttpResult) (out : list MetricSample + error)
  : Prop :=
  match out with
  | inr e =>
      (exists cause,
          resp = HttpFail cause /\ e = ErrFetchFailed cause /\
          isEndpointError e = true) \/
      (exists code body,
          resp = HttpResp code body /\ code <> StatusOK /\
          e = ErrUnexpectedStatus code /\ isEndpointError e = true) \/
      (exists body,
          resp = HttpResp StatusOK body /\
          (forall line, line ∈ body -> matchesMetric rule metric line = false) /\
          e = ErrMetricNotFound metric /\ isEndpointError e = false)
  | inl samples =>
      exists body,
        resp = HttpResp StatusOK body /\
        samples = omap (seriesByRule rule metric) body /\
        samples <> [] /\
        length samples
        = length (filter (fun line => matchesMetric rule metric line = true)
                    body)
  end.





(** * Facts about package [strings] *)

Section StringFacts.

Lemma trimLeft_empty s : trimLeft s = "" <-> allSpace s = true.
Proof.
  induction s as [|c s IH]; simpl; [done|].
  destruct (isSpace c); simpl; [done|]. split; discriminate.
Qed.

Lemma trimRight_empty s : trimRight s = "" <-> allSpace s = true.
Proof.
  induction s as [|c s IH]; simpl; [done|].
  destruct (trimRight s) eqn:E.
  - destruct (isSpace c); simpl.
    + tauto.
    + split; discriminate.
  - split; [discriminate|].
    intros [_ H]%andb_true_iff. apply IH in H. discriminate.
Qed.

Lemma trimLeft_allSpace s : allSpace (trimLeft s) = allSpace s.
Proof.
  induction s as [|c s IH]; simpl; [done|].
  destruct (isSpace c) eqn:E; simpl; [done|]. by rewrite E.
Qed.

Lemma TrimSpace_empty s : TrimSpace s = "" <-> allSpace s = true.
Proof. unfold TrimSpace. by rewrite trimRight_empty, trimLeft_allSpace. Qed.

Lemma length_zero_empty s : (String.length s =? 0)%nat = true <-> s = "".
Proof. destruct s; simpl; split; done. Qed.

Lemma Fields_allSpace s : allSpace s = true -> Fields s = [].
Proof.
  unfold Fields. induction s as [|c s IH]; simpl; [done|].
  intros [-> H]%andb_true_iff. simpl. auto.
Qed.

Lemma Fields_blank s : TrimSpace s = "" -> Fields s = [].
Proof. intros H. by apply Fields_allSpace, TrimSpace_empty. Qed.

Lemma IndexByte_range s c :
  IndexByte s c = -1 \/ 0 <= IndexByte s c < Z.of_nat (String.length s).
Proof.
  induction s as [|a s IH]; simpl; [by left|].
  destruct (Ascii.eqb a c); [right; lia|].
  destruct (Z.eqb_spec (IndexByte s c) (-1)); [by left|right; lia].
Qed.

Lemma sliceTo_cons a s i :
  0 <= i -> sliceTo (String a s) (i + 1) = String a (sliceTo s i).
Proof.
  intros Hi. unfold sliceTo.
  replace (Z.to_nat (i + 1)) with (S (Z.to_nat i)) by lia. done.
Qed.

(** Appending text after the first brace changes neither its position nor
    the prefix before it. *)
Lemma app_cons a s t : String a s +:+ t = String a (s +:+ t).
Proof. done. Qed.

Lemma IndexByte_app_found s t c :
  IndexByte s c <> -1 -> IndexByte (s +:+ t) c = IndexByte s c.
Proof.
  induction s as [|a s IH]; [done|].
  rewrite app_cons. simpl.
  destruct (Ascii.eqb a c); [done|].
  destruct (Z.eqb_spec (IndexByte s c) (-1)) as [|Hne]; [done|].
  intros _. rewrite (IH Hne).
  destruct (Z.eqb_spec (IndexByte s c) (-1)); done.
Qed.

Lemma IndexByte_app_absent s t c :
  IndexByte s c = -1 ->
  IndexByte (s +:+ String c t) c = Z.of_nat (String.length s).
Proof.
  induction s as [|a s IH].
  - intros _. change ("" +:+ String c t) with (String c t). simpl.
    by rewrite Ascii.eqb_refl.
  - rewrite app_cons. simpl.
    destruct (Ascii.eqb a c); [done|].
    destruct (Z.eqb_spec (IndexByte s c) (-1)) as [He|Hne].
    + intros _. rewrite (IH He).
      destruct (Z.eqb_spec (Z.of_nat (String.length s)) (-1)); lia.
    + destruct (IndexByte_range s c); lia.
Qed.

Lemma sliceTo_app_length s t :
  sliceTo (s +:+ t) (Z.of_nat (String.length s)) = s.
Proof.
  unfold sliceTo. rewrite Nat2Z.id.
  induction s as [|a s IH].
  - by destruct t.
  - rewrite app_cons. simpl. by rewrite IH.
Qed.

Lemma baseNameOf_no_brace s :
  Contains s lbrace = false -> baseNameOf s = s.
Proof.
  unfold Contains, baseNameOf. intros H.
  by destruct (IndexByte s lbrace =? -1).
Qed.

Lemma baseNameOf_add_braces s :
  Contains s lbrace = false -> baseNameOf (s +:+ "{}") = s.
Proof.
  unfold Contains, baseNameOf. intros H.
  destruct (Z.eqb_spec (IndexByte s lbrace) (-1)) as [He|]; [|done].
  change "{}" with (String lbrace "}").
  rewrite (IndexByte_app_absent s "}" lbrace He).
  destruct (Z.eqb_spec (Z.of_nat (String.length s)) (-1)); [lia|].
  apply sliceTo_app_length.
Qed.

Lemma Contains_add_braces s : Contains (s +:+ "{}") lbrace = true.
Proof.
  unfold Contains. change "{}" with (String lbrace "}").
  destruct (IndexByte_range s lbrace) as [He|Hr].
  - rewrite (IndexByte_app_absent s "}" lbrace He).
    destruct (Z.eqb_spec (Z.of_nat (String.length s)) (-1)); [lia|done].
  - rewrite IndexByte_app_found by lia.
    destruct (Z.eqb_spec (IndexByte s lbrace) (-1)); [lia|done].
Qed.

(** [strings.Cut] and the [Index]-then-slice idiom agree on the part
    before the separator. *)
Lemma Cut_before s :
  (Cut s lbrace).1.1 = baseNameOf s /\
  (Cut s lbrace).2 = Contains s lbrace.
Proof.
  unfold Cut, baseNameOf, Contains.
  destruct (IndexByte_range s lbrace) as [->|Hr]; [done|].
  destruct (Z.leb_spec 0 (IndexByte s lbrace)); [|lia].
  destruct (Z.eqb_spec (IndexByte s lbrace) (-1)); [lia|done].
Qed.

End StringFacts.

(** * The exposition parser and the scrape client *)

Section ParserFacts.
Variable ParseFloat : string -> option float.

Lemma lookup_total_last (l : list string) x y :
  (l ++ [y; x]) !!! (length (l ++ [y; x]) - 1)%nat = x.
Proof.
  change [y; x] with ([y] ++ [x]). rewrite app_assoc.
  apply list_lookup_total_middle. rewrite !length_app. simpl. lia.
Qed.

Lemma lookup_total_prev (l : list string) x y :
  (l ++ [y; x]) !!! (length (l ++ [y; x]) - 2)%nat = y.
Proof.
  apply list_lookup_total_middle. rewrite length_app. simpl. lia.
Qed.

Lemma lookup_total_first (l : list string) x y :
  (l ++ [y; x]) !!! 0%nat = match l with [] => y | z :: _ => z end.
Proof. by destruct l. Qed.

Lemma finish_baseName (first : string) (val : float) :
  (if negb (IndexByte first lbrace =? -1)
   then (sliceTo first (IndexByte first lbrace), val, true)
   else (first, val, true)) = (baseNameOf first, val, true).
Proof. unfold baseNameOf. by destruct (IndexByte first lbrace =? -1). Qed.

(** main.go: the parser is the last-token rule. *)
Lemma main_parse_rule line :
  MainGo.parseMetricLine ParseFloat line
  = answer (Fields line) (lastTokenRule ParseFloat (Fields line)).
Proof.
  unfold MainGo.parseMetricLine, lastTokenRule.
  generalize (Fields line). intros parts.
  destruct (reverse parts) as [|x [|y r]] eqn:E;
    apply (f_equal reverse) in E; rewrite reverse_involutive in E;
    subst parts.
  - done.
  - done.
  - rewrite !reverse_cons, <- app_assoc. simpl app.
    set (l := reverse r).
    assert (Hlen : (length (l ++ [y; x]) <? 2)%nat = false).
    { apply Nat.ltb_ge. rewrite length_app. simpl. lia. }
    rewrite Hlen.
    rewrite lookup_total_last, lookup_total_prev.
    cbv zeta.
    destruct (ParseFloat x) as [v|]; [by rewrite finish_baseName|].
    assert (Hr : (3 <=? length (l ++ [y; x]))%nat
                 = match r with [] => false | _ => true end).
    { rewrite length_app. subst l. rewrite length_reverse.
      destruct r; [done|]. apply Nat.leb_le. simpl. lia. }
    rewrite Hr. destruct r; [done|].
    destruct (ParseFloat y); [by rewrite finish_baseName|done].
Qed.

(** metrics.go: the parser is the second-token rule. *)
Lemma metrics_parse_rule line :
  MetricsGo.parseMetricLine ParseFloat line
  = answer (Fields line) (secondTokenRule ParseFloat (Fields line)).
Proof.
  unfold MetricsGo.parseMetricLine, secondTokenRule.
  generalize (Fields line). intros [|first [|second rest]]; [done..|].
  simpl. destruct (ParseFloat second) as [v|]; [|done].
  destruct (Cut_before first) as [Hb Hc].
  destruct (Cut first lbrace) as [[before after] found]. simpl in *.
  subst. destruct (Contains first lbrace) eqn:E; [done|].
  by rewrite baseNameOf_no_brace.
Qed.

Lemma main_parse_blank line :
  TrimSpace line = "" -> MainGo.parseMetricLine ParseFloat line = ("", zero, false).
Proof.
  intros H. unfold MainGo.parseMetricLine. by rewrite (Fields_blank _ H).
Qed.

Lemma metrics_parse_blank line :
  TrimSpace line = "" ->
  MetricsGo.parseMetricLine ParseFloat line = ("", zero, false).
Proof.
  intros H. unfold MetricsGo.parseMetricLine. by rewrite (Fields_blank _ H).
Qed.

(** The scanner loops append in encounter order: they are [omap] of the
    per-line rule. *)
Lemma fold_append_omap {A B} (f : A -> option B) (l : list A) (acc : list B) :
  fold_left (fun (acc : list B) x =>
               match f x with Some y => acc ++ [y] | None => acc end) l acc
  = acc ++ omap f l.
Proof.
  revert acc. induction l as [|x l IH]; intros acc; simpl.
  - by rewrite app_nil_r.
  - rewrite IH. destruct (f x); [|done]. by rewrite <- app_assoc.
Qed.

Lemma main_scan_omap metric body :
  MainGo.scanSeries ParseFloat metric body
  = omap (MainGo.seriesOfLine ParseFloat metric) body.
Proof. unfold MainGo.scanSeries. by rewrite fold_append_omap. Qed.

Lemma metrics_scan_omap metric body :
  MetricsGo.scanSeries ParseFloat metric body
  = omap (MetricsGo.seriesOfLine ParseFloat metric) body.
Proof. unfold MetricsGo.scanSeries. by rewrite fold_append_omap. Qed.

Lemma length_zero_nil {A} (l : list A) : (length l =? 0)%nat = true <-> l = [].
Proof. destruct l; simpl; split; done. Qed.

Lemma main_fetch_contract resp metric :
  fetchContract (MainGo.seriesOfLine ParseFloat metric) metric resp
    (MainGo.fetchAllMetricSeries ParseFloat resp metric).
Proof.
  destruct resp as [cause|code body]; simpl.
  - left. by exists cause.
  - destruct (Z.eqb_spec code StatusOK) as [->|Hne]; simpl.
    + rewrite main_scan_omap.
      destruct (omap _ body) as [|s l] eqn:E; simpl.
      * right. right. by exists body.
      * exists body. by rewrite E.
    + right. left. by exists code, body.
Qed.

Lemma metrics_fetch_contract resp metric :
  fetchContract (MetricsGo.seriesOfLine ParseFloat metric) metric resp
    (MetricsGo.fetchAllMetricSeries ParseFloat resp metric).
Proof.
  destruct resp as [cause|code body]; simpl.
  - left. by exists cause.
  - destruct (Z.eqb_spec code StatusOK) as [->|Hne]; simpl.
    + rewrite metrics_scan_omap.
      destruct (omap _ body) as [|s l] eqn:E; simpl.
      * right. right. by exists body.
      * exists body. by rewrite E.
    + right. left. by exists code, body.
Qed.

(** The name given to an accepted sample. *)
Lemma labelled_sampleOf first metric (val : float) :
  String.eqb (baseNameOf first) metric = true ->
  sampleOf metric
    (mkSample (if negb (Contains first lbrace) then first +:+ "{}" else first)
       val).
Proof.
  intros H%String.eqb_eq. unfold sampleOf. simpl.
  destruct (Contains first lbrace) eqn:E; simpl; [done|].
  rewrite baseNameOf_add_braces, Contains_add_braces by done.
  by rewrite baseNameOf_no_brace in H.
Qed.

Lemma main_line_sampleOf metric line s :
  MainGo.seriesOfLine ParseFloat metric line = Some s -> sampleOf metric s.
Proof.
  unfold MainGo.seriesOfLine.
  destruct (_ || _); [done|].
  destruct (_ <? _)%nat; [done|].
  destruct (String.eqb _ metric) eqn:E; cbn [negb]; [|done]. cbv zeta.
  destruct (ParseFloat _); [intros [= <-]; by apply labelled_sampleOf|].
  destruct (3 <=? length (Fields line))%nat; [|done].
  destruct (ParseFloat _); [intros [= <-]; by apply labelled_sampleOf|done].
Qed.




(** Lines the scanner loops skip. *)
Lemma comment_skipped metric line :
  HasPrefix line "#" = true ->
  MainGo.nameOfLine ParseFloat line = None /\
  MainGo.seriesOfLine ParseFloat metric line = None /\
  MetricsGo.nameOfLine ParseFloat line = None /\
  MetricsGo.seriesOfLine ParseFloat metric line = None.
Proof.
  intros H.
  unfold MainGo.nameOfLine, MainGo.seriesOfLine,
    MetricsGo.nameOfLine, MetricsGo.seriesOfLine.
  by rewrite H.
Qed.

End ParserFacts.

(** * The series registry *)

Section RegistryFacts.

Lemma existingOf_tracks sl : tracks (existingOf sl) sl.
Proof.
  unfold existingOf.
  assert (G : forall l e sl0,
             tracks e sl0 ->
             tracks (fold_left (fun (e : gmap string bool) s =>
                                  <[name s := true]> e) l e) (sl0 ++ l)).
  { induction l as [|s l IH]; intros e sl0 He; simpl.
    - by rewrite app_nil_r.
    - replace (sl0 ++ s :: l) with ((sl0 ++ [s]) ++ l)
        by by rewrite <- app_assoc.
      apply IH. intros n. rewrite fmap_app, elem_of_app. simpl.
      rewrite list_elem_of_singleton.
      destruct (decide (name s = n)) as [<-|Hne].
      + rewrite lookup_insert_eq. simpl. intuition congruence.
      + rewrite lookup_insert_ne by done. rewrite (He n). intuition congruence. }
  apply (G sl ∅ []). intros n. rewrite lookup_empty. simpl.
  split; [done|]. by intros ?%elem_of_nil.
Qed.

Lemma reconcile_fold samples :
  forall e sl, tracks e sl ->
    exists new,
      (fold_left reconcileStep samples (e, sl)).2 = sl ++ new /\
      adds sl new samples.
Proof.
  induction samples as [|x rest IH]; intros e sl He; simpl.
  - exists []. rewrite app_nil_r. split; [done|].
    split; [constructor|].
    split; [intros j s Hs; by rewrite lookup_nil in Hs|].
    split; [constructor|].
    split; [intros s Hs; by apply elem_of_nil in Hs|].
    split; [|done].
    intros y Hy. by apply elem_of_nil in Hy.
  - unfold reconcileStep at 2. simpl.
    destruct (default false (e !! FullName x)) eqn:Hx; simpl.
    + (* the name is known: nothing is appended *)
      destruct (IH e sl He) as (new & Heq & Ha & Hb & Hc & Hd & Hf & Hu).
      assert (Hknown : FullName x ∈ name <$> sl) by by apply He.
      exists new. split; [done|].
      split; [done|]. split; [done|]. split; [done|].
      split; [|split].
      * intros s Hs. destruct (Hd s Hs) as [Hnot Hin].
        split; [done|]. simpl. by right.
      * intros y [->|Hy]%elem_of_cons; [|by apply Hf].
        rewrite fmap_app, elem_of_app. by left.
      * simpl. by rewrite decide_True.
    + (* a new name: one record, then the rest of the batch *)
      set (item := mkSeries (FullName x) true (Z.of_nat (length sl))).
      assert (He' : tracks (<[FullName x := true]> e) (sl ++ [item])).
      { intros n. rewrite fmap_app, elem_of_app. simpl.
        rewrite list_elem_of_singleton.
        destruct (decide (FullName x = n)) as [<-|Hne].
        - rewrite lookup_insert_eq. simpl. intuition congruence.
        - rewrite lookup_insert_ne by done. rewrite (He n). intuition congruence. }
      destruct (IH _ _ He') as (new & Heq & Ha & Hb & Hc & Hd & Hf & Hu).
      assert (Hfresh : FullName x ∉ name <$> sl).
      { intros Hin. apply He in Hin. congruence. }
      exists (item :: new). split; [by rewrite Heq, <- app_assoc|].
      split; [by constructor|].
      split.
      { intros [|j] t Ht; simpl in Ht.
        - injection Ht as <-. simpl. f_equal. lia.
        - rewrite (Hb j t Ht), length_app. simpl. f_equal. lia. }
      split.
      { simpl. constructor; [|done].
        intros Hin. apply list_elem_of_fmap in Hin as (t & Hn & Ht).
        destruct (Hd t Ht) as [Hnot _]. apply Hnot.
        rewrite fmap_app, elem_of_app. right. simpl.
        rewrite <- Hn. by apply list_elem_of_singleton. }
      split.
      { intros t [->|Ht]%elem_of_cons.
        - split; [done|]. simpl. by left.
        - destruct (Hd t Ht) as [Hnot Hin]. split.
          + intros Hsl. apply Hnot. rewrite fmap_app, elem_of_app. by left.
          + by right. }
      split.
      { intros y [->|Hy]%elem_of_cons.
        - rewrite fmap_app, elem_of_app. right. simpl. by left.
        - specialize (Hf y Hy). by rewrite <- app_assoc in Hf. }
      rewrite fmap_cons. simpl unseen. rewrite decide_False by done.
      f_equal. by rewrite Hu, fmap_app.
Qed.

Lemma reconcile_adds sl samples :
  exists new, reconcile sl samples = sl ++ new /\ adds sl new samples.
Proof. apply reconcile_fold, existingOf_tracks. Qed.

Lemma adds_dense sl new samples :
  dense sl -> adds sl new samples -> dense (sl ++ new).
Proof.
  intros Hsl (_ & Hb & _) i s Hs.
  apply lookup_app_Some in Hs as [Hs|[Hge Hs]]; [by apply Hsl|].
  rewrite (Hb _ _ Hs). f_equal. lia.
Qed.

Lemma adds_NoDup sl new samples :
  NoDup (name <$> sl) -> adds sl new samples -> NoDup (name <$> (sl ++ new)).
Proof.
  intros Hsl (_ & _ & Hc & Hd & _). rewrite fmap_app.
  apply NoDup_app. split; [done|]. split; [|done].
  intros n Hn Hin. apply list_elem_of_fmap in Hin as (s & -> & Hs).
  by destruct (Hd s Hs).
Qed.

(** A batch of known names changes nothing. *)
Lemma reconcile_known sl samples :
  (forall x, x ∈ samples -> FullName x ∈ name <$> sl) ->
  reconcile sl samples = sl.
Proof.
  intros Hk. destruct (reconcile_adds sl samples) as (new & -> & _ & _ & _ & Hd & _).
  destruct new as [|s new]; [by rewrite app_nil_r|].
  destruct (Hd s) as [Hnot Hin]; [by left|].
  apply list_elem_of_fmap in Hin as (x & Hn & Hx).
  exfalso. apply Hnot. rewrite Hn. by apply Hk.
Qed.

End RegistryFacts.

(** * The session: what a turn of [Update] leaves alone *)

Section SessionFacts.
Context `{W : Widgets}.

Import timeserieslinechart.

Lemma rangeCalls_app c cs : rangeCalls (c ++ cs) = rangeCalls c ++ rangeCalls cs.
Proof. apply filter_app. Qed.

Lemma rangeCalls_quiet cs : quiet cs -> rangeCalls cs = [].
Proof.
  unfold rangeCalls. induction 1 as [|c cs Hc _ IH]; [done|].
  rewrite filter_cons. destruct (decide (isRangeCall c)) as [Ht|]; [|done].
  rewrite Hc in Ht. done.
Qed.

Lemma rangeCalls_app_quiet c cs :
  quiet cs -> rangeCalls (c ++ cs) = rangeCalls c.
Proof.
  intros H. by rewrite rangeCalls_app, (rangeCalls_quiet cs H), app_nil_r.
Qed.

Lemma quiet_app cs1 cs2 : quiet cs1 -> quiet cs2 -> quiet (cs1 ++ cs2).
Proof. apply Forall_app_2. Qed.

Lemma quiet_push dataset data : quiet (map (PushDataSet dataset) data).
Proof. apply Forall_forall. intros c (p & -> & _)%list_elem_of_fmap. done. Qed.

Lemma quiet_concat css : Forall quiet css -> quiet (concat css).
Proof.
  induction 1 as [|cs css H _ IH]; simpl; [constructor|by apply quiet_app].
Qed.

(** The range a chart was last given is read off its range calls. *)
Lemma yRange_rangeCalls c : yRange c = yRange (rangeCalls c).
Proof.
  unfold yRange. generalize (@None (float * float)).
  induction c as [|call c IH]; intros r; [done|].
  unfold rangeCalls in *. rewrite filter_cons.
  destruct call; simpl; apply IH.
Qed.

Lemma sameRange_refl m : sameRange m m.
Proof. done. Qed.

Lemma sameRange_trans m1 m2 m3 :
  sameRange m1 m2 -> sameRange m2 m3 -> sameRange m1 m3.
Proof. intros [? ?] [? ?]. split; congruence. Qed.

Lemma sameRange_chart m m' :
  yRangeSet m' = yRangeSet m ->
  (exists cs, chart m' = chart m ++ cs /\ quiet cs) ->
  sameRange m m'.
Proof.
  intros Hy (cs & Hc & Hq). split; [done|].
  by rewrite Hc, rangeCalls_app_quiet.
Qed.

Lemma addCalls_sameRange cs m : quiet cs -> sameRange m (addCalls cs m).
Proof. intros H. apply sameRange_chart; [done|]. by exists cs. Qed.

Lemma quiet_redrawSeries m s : quiet (redrawSeries m s).
Proof.
  unfold redrawSeries. destruct (negb (checked s)); [constructor|].
  destruct (dataHistory m !! name s); [|constructor].
  apply quiet_app; [by repeat constructor|apply quiet_push].
Qed.

Lemma redrawChart_sameRange m : sameRange m (redrawChart m).
Proof.
  unfold redrawChart. cbv zeta.
  set (m1 := addCalls [ClearAllData; Clear; DrawXYAxisAndLabel] m).
  set (m2 := addCalls (concat (map (redrawSeries m1) (seriesList m1))) m1).
  assert (H1 : sameRange m m1)
    by (apply addCalls_sameRange; by repeat constructor).
  assert (H2 : sameRange m1 m2).
  { apply addCalls_sameRange, quiet_concat, Forall_forall.
    intros cs (s & -> & _)%list_elem_of_fmap. apply quiet_redrawSeries. }
  assert (H3 : sameRange m2 (addCalls [DrawAll] m2))
    by (apply addCalls_sameRange; by repeat constructor).
  eauto using sameRange_trans.
Qed.

Lemma rebuildLegend_sameRange m : sameRange m (rebuildLegend m).
Proof. done. Qed.

Lemma updateLegendViewportSize_sameRange m :
  sameRange m (updateLegendViewportSize m).
Proof.
  unfold updateLegendViewportSize. destruct (negb (showLegend m)); [done|].
  by destruct (legendInnerDimensions (height m)).
Qed.

Lemma resizeChart_sameRange m : sameRange m (resizeChart m).
Proof.
  unfold resizeChart. destruct (_ || _); [done|]. cbv zeta.
  eapply sameRange_trans; [|apply updateLegendViewportSize_sameRange].
  destruct (_ || _); [|done]. cbv zeta.
  match goal with |- sameRange _ (addCalls ?cs ?m') =>
    apply (sameRange_trans m m'); [done|apply addCalls_sameRange] end.
  repeat constructor. by destruct (_ <=? _)%nat.
Qed.

Lemma legendTail_sameRange m msg : sameRange m (legendTail m msg).1.
Proof.
  unfold legendTail. destruct (showLegend m); [|done].
  by destruct (viewport_Update msg (legendViewport m)).
Qed.

Lemma passToList_sameRange m msg : sameRange m (passToList m msg).1.
Proof.
  unfold passToList. by destruct (list_Update msg (metricsList m)).
Qed.

(** One sample pushed: the registry, the modes and the lock stay; the
    chart gets calls that set no range. *)
Lemma pushSample_frame i sample m :
  let m' := pushSample i sample m in
  seriesList m' = seriesList m /\ seriesSelectMode m' = seriesSelectMode m /\
  metricName m' = metricName m /\ lastUpdate m' = lastUpdate m /\
  err m' = err m /\ selectMode m' = selectMode m /\ sameRange m m'.
Proof.
  unfold pushSample. cbv zeta.
  match goal with |- context [let '(_, _) := ?p in _] => destruct p as [isChecked idx] end.
  repeat split; try done. simpl.
  apply rangeCalls_app_quiet.
  destruct isChecked; by repeat constructor.
Qed.

Lemma pushSamples_frame samples : forall i m,
  let m' := pushSamples i samples m in
  seriesList m' = seriesList m /\ seriesSelectMode m' = seriesSelectMode m /\
  metricName m' = metricName m /\ lastUpdate m' = lastUpdate m /\
  err m' = err m /\ selectMode m' = selectMode m /\ sameRange m m'.
Proof.
  induction samples as [|s rest IH]; intros i m; simpl; [done|].
  destruct (IH (i + 1) (pushSample i s m)) as (H1 & H2 & H3 & H4 & H5 & H6 & H7).
  destruct (pushSample_frame i s m) as (G1 & G2 & G3 & G4 & G5 & G6 & G7).
  repeat split; try congruence.
  - destruct H7, G7. congruence.
  - destruct H7, G7. congruence.
Qed.

Lemma pushSamples_chart samples : forall i m,
  exists cs, quiet cs /\ chart (pushSamples i samples m) = chart m ++ cs.
Proof.
  induction samples as [|s rest IH]; intros i m; simpl.
  - exists []. split; [constructor|by rewrite app_nil_r].
  - destruct (IH (i + 1) (pushSample i s m)) as (cs & Hq & ->).
    unfold pushSample. cbv zeta.
    match goal with |- context [let '(_, _) := ?p in _] =>
      destruct p as [isChecked idx] end.
    simpl. eexists. split; [|by rewrite <- app_assoc].
    apply quiet_app; [|done].
    destruct isChecked; by repeat constructor.
Qed.

End SessionFacts.

Section UpdateFacts.
Context `{W : Widgets}.

Import timeserieslinechart.

Lemma nonempty_length {A} (l : list A) :
  l <> [] -> (0 <? Z.of_nat (length l)) = true.
Proof. destruct l; [done|]. intros _. apply Z.ltb_lt. simpl. lia. Qed.

Lemma Update_metrics now m samples e :
  Update now m (MetricsMsg samples e) = updateMetrics now m samples e.
Proof. done. Qed.

(** A scrape that failed only records the error. *)
Lemma updateMetrics_error now m samples e :
  updateMetrics now m samples (Some e) = (set_err (Some e) m, nilCmd).
Proof. done. Qed.

(** The discard: the batch names another metric. *)
Lemma updateMetrics_discard now m samples :
  wrongMetric m samples = true ->
  updateMetrics now m samples None
  = (set_lastUpdate now (set_err None m), nilCmd).
Proof.
  intros H. unfold updateMetrics. cbv zeta.
  replace (wrongMetric (set_lastUpdate now (set_err None m)) samples)
    with (wrongMetric m samples) by by destruct samples.
  by rewrite H.
Qed.

(** An accepted batch. *)
Lemma updateMetrics_accept now m samples :
  wrongMetric m samples = false -> samples <> [] ->
  let m' := (updateMetrics now m samples None).1 in
  seriesList m' = reconcile (seriesList m) samples /\
  yRangeSet m' = true /\ err m' = None /\ lastUpdate m' = now /\
  metricName m' = metricName m /\
  (yRangeSet m = true -> sameRange m m') /\
  (yRangeSet m = false ->
   exists cs, quiet cs /\
     chart m' = chart m
                ++ [ SetYRange (initialRange samples).1 (initialRange samples).2;
                     SetViewYRange (initialRange samples).1 (initialRange samples).2 ]
                ++ cs).
Proof.
  intros Hg Hne. unfold updateMetrics. cbv zeta.
  replace (wrongMetric (set_lastUpdate now (set_err None m)) samples)
    with (wrongMetric m samples) by by destruct samples.
  rewrite Hg, (nonempty_length samples Hne). cbn [andb].
  set (m1 := set_seriesList _ _).
  destruct (initialRange samples) as [lo hi] eqn:Hr. cbn [fst snd].
  set (m2 := if negb (yRangeSet m1) then _ else m1).
  destruct (pushSamples_frame samples 0 m2) as (H1 & H2 & H3 & H4 & H5 & H6 & H7).
  set (m3 := pushSamples 0 samples m2) in *.
  set (m4 := if negb (seriesSelectMode m3) then _ else m3).
  assert (H34 : seriesList m4 = seriesList m3 /\ err m4 = err m3 /\
                lastUpdate m4 = lastUpdate m3 /\ metricName m4 = metricName m3 /\
                sameRange m3 m4 /\
                exists cs, quiet cs /\ chart m4 = chart m3 ++ cs).
  { subst m4. destruct (negb (seriesSelectMode m3)).
    - repeat split; try done.
      + apply rangeCalls_app_quiet. by repeat constructor.
      + exists [DrawAll]. split; [by repeat constructor|done].
    - repeat split; try done. exists []. split; [constructor|].
      by rewrite app_nil_r. }
  destruct H34 as (K1 & K2 & K3 & K4 & K5 & cs4 & Kq & Kc).
  cbn [fst].
  assert (Hy2 : yRangeSet m2 = true).
  { subst m2. destruct (yRangeSet m1) eqn:E; simpl; done. }
  assert (Hm2 : seriesList m2 = seriesList m1 /\ err m2 = None /\
                lastUpdate m2 = now /\ metricName m2 = metricName m).
  { subst m2. by destruct (negb (yRangeSet m1)). }
  destruct Hm2 as (L1 & L2 & L3 & L4).
  split; [by rewrite K1, H1, L1|].
  split; [destruct K5 as [-> _], H7 as [-> _]; done|].
  split; [congruence|]. split; [congruence|]. split; [congruence|].
  split.
  - intros Hy. apply (sameRange_trans m m2); [|by eapply sameRange_trans].
    subst m2. replace (yRangeSet m1) with (yRangeSet m) by done.
    rewrite Hy. done.
  - intros Hy.
    destruct H7 as [_ H7]. 
    destruct (pushSamples_chart samples 0 m2) as (cs3 & Hq3 & Hc3).
    fold m3 in Hc3.
    exists (cs3 ++ cs4). split; [by apply quiet_app|].
    rewrite Kc, Hc3. subst m2.
    replace (yRangeSet m1) with (yRangeSet m) by done. rewrite Hy. simpl.
    by rewrite <- !app_assoc.
Qed.

(** An empty batch for the right metric only stamps the time. *)
Lemma updateMetrics_empty now m :
  let m' := (updateMetrics now m [] None).1 in
  seriesList m' = seriesList m /\ dataHistory m' = dataHistory m /\
  yRangeSet m' = yRangeSet m /\ sameRange m m'.
Proof.
  unfold updateMetrics. simpl.
  destruct (negb (seriesSelectMode m)); simpl; repeat split; try done.
  apply rangeCalls_app_quiet. by repeat constructor.
Qed.

(** Whatever the scrape result, the registry only grows at its end. *)
Lemma updateMetrics_registry now m samples e :
  exists new,
    seriesList (updateMetrics now m samples e).1 = seriesList m ++ new /\
    Forall (fun s => checked s = true) new /\
    (dense (seriesList m) -> dense (seriesList m ++ new)).
Proof.
  destruct e as [e|].
  { exists []. rewrite app_nil_r. split; [done|]. split; [constructor|done]. }
  destruct (wrongMetric m samples) eqn:Hg.
  { rewrite updateMetrics_discard by done.
    exists []. rewrite app_nil_r. split; [done|]. split; [constructor|done]. }
  destruct samples as [|s rest].
  { destruct (updateMetrics_empty now m) as (-> & _).
    exists []. rewrite app_nil_r. split; [done|]. split; [constructor|done]. }
  destruct (updateMetrics_accept now m (s :: rest) Hg) as (-> & _); [done|].
  destruct (reconcile_adds (seriesList m) (s :: rest)) as (new & -> & Ha).
  exists new. split; [done|]. split; [apply Ha|].
  intros Hd. by eapply adds_dense.
Qed.

(** A turn that is no scrape result and confirms no metric leaves the
    display range alone. *)
Lemma updateSeriesSelect_sameRange m msg :
  sameRange m (updateSeriesSelect m msg).1.
Proof.
  unfold updateSeriesSelect. destruct msg; try done.
  repeat (case_match; try done); cbn [fst].
  apply (sameRange_trans _ (redrawChart (set_seriesSelectMode false m))).
  - apply (sameRange_trans _ (set_seriesSelectMode false m)); [done|].
    apply redrawChart_sameRange.
  - apply rebuildLegend_sameRange.
Qed.

Lemma updateNormal_sameRange m msg : sameRange m (updateNormal m msg).1.
Proof.
  unfold updateNormal. destruct msg; try apply legendTail_sameRange.
  - repeat (case_match; try done); cbn [fst];
      try apply legendTail_sameRange.
    + eapply sameRange_trans; [|apply legendTail_sameRange].
      eapply sameRange_trans; [|apply resizeChart_sameRange].
      eapply sameRange_trans; [|apply rebuildLegend_sameRange]. done.
    + eapply sameRange_trans; [|apply legendTail_sameRange]. done.
    + apply addCalls_sameRange. by repeat constructor.
  - cbv zeta. eapply sameRange_trans; [|apply legendTail_sameRange].
    destruct (negb _); [|done].
    eapply sameRange_trans; [|apply resizeChart_sameRange]. done.
Qed.

Lemma updateSelect_sameRange m msg :
  match msg with KeyMsg key => String.eqb key "enter" = false | _ => True end ->
  sameRange m (updateSelect m msg).1.
Proof.
  unfold updateSelect. destruct msg; intros Hk;
    try apply passToList_sameRange.
  - by destruct Err.
  - rewrite Hk. repeat (case_match; try done); apply passToList_sameRange.
Qed.

Lemma Update_sameRange now m msg :
  yRangeSet m = true -> confirmsMetric m msg = false ->
  sameRange m (Update now m msg).1.
Proof.
  intros Hy Hc. unfold Update.
  destruct msg as [t|samples e|metrics e|key|w h|tag]; try done.
  - destruct e as [e|]; [done|].
    destruct (wrongMetric m samples) eqn:Hg.
    + by rewrite updateMetrics_discard.
    + destruct samples as [|s rest]; [apply updateMetrics_empty|].
      by apply updateMetrics_accept.
  - destruct (seriesSelectMode m); [apply updateSeriesSelect_sameRange|].
    destruct (selectMode m);
      [by apply updateSelect_sameRange|apply updateNormal_sameRange].
  - simpl in Hc.
    destruct (seriesSelectMode m); [apply updateSeriesSelect_sameRange|].
    destruct (selectMode m); [|apply updateNormal_sameRange].
    apply updateSelect_sameRange. by destruct (String.eqb key "enter").
  - destruct (seriesSelectMode m); [apply updateSeriesSelect_sameRange|].
    destruct (selectMode m);
      [by apply updateSelect_sameRange|apply updateNormal_sameRange].
  - destruct (seriesSelectMode m); [apply updateSeriesSelect_sameRange|].
    destruct (selectMode m);
      [by apply updateSelect_sameRange|apply updateNormal_sameRange].
Qed.

Lemma run_sameRange events : forall m,
  yRangeSet m = true -> noConfirm m events = true ->
  sameRange m (run m events).
Proof.
  unfold run.
  induction events as [|[now msg] rest IH]; intros m Hy Hn; simpl; [done|].
  simpl in Hn. apply andb_true_iff in Hn as [Hc Hn].
  apply negb_true_iff in Hc.
  pose proof (Update_sameRange now m msg Hy Hc) as Hs.
  eapply sameRange_trans; [exact Hs|].
  apply IH; [|done]. destruct Hs as [-> _]. done.
Qed.

End UpdateFacts.

(** * The claims *)

Section RangeFacts.

Import timeserieslinechart.

Lemma yRange_set c lo hi cs :
  quiet cs ->
  yRange (c ++ [SetYRange lo hi; SetViewYRange lo hi] ++ cs) = Some (lo, hi).
Proof.
  intros Hq. rewrite yRange_rangeCalls, app_assoc, rangeCalls_app_quiet by done.
  rewrite rangeCalls_app. unfold yRange. by rewrite fold_left_app.
Qed.

End RangeFacts.

Lemma wrongMetric_cons `{W : Widgets} (m : Model) first rest :
  baseNameOf (FullName first) <> metricName m ->
  wrongMetric m (first :: rest) = true.
Proof.
  intros H. simpl. apply negb_true_iff.
  destruct (String.eqb_spec (baseNameOf (FullName first)) (metricName m)); done.
Qed.

(** C1 (as amended).  The two parsers resolve the value by two rules.
    [parseMetricLine] of main.go follows the last-token rule of the
    specification: the last token if it parses, else, when there are at
    least three tokens, the second-to-last, else rejection.
    [parseMetricLine] of metrics.go takes the second token and nothing
    else.  On the line [name 7.89 not_a_number] both answer [name] with the
    value of [7.89]. *)
Theorem C1_value_rules (ParseFloat : string -> option float) (line : string) :
  MainGo.parseMetricLine ParseFloat line
  = answer (Fields line) (lastTokenRule ParseFloat (Fields line))
  /\ MetricsGo.parseMetricLine ParseFloat line
     = answer (Fields line) (secondTokenRule ParseFloat (Fields line))
  /\ (forall v,
        ParseFloat "7.89" = Some v -> ParseFloat "not_a_number" = None ->
        MainGo.parseMetricLine ParseFloat "name 7.89 not_a_number"
        = ("name", v, true)
        /\ MetricsGo.parseMetricLine ParseFloat "name 7.89 not_a_number"
           = ("name", v, true)).
Proof.
  split; [apply main_parse_rule|]. split; [apply metrics_parse_rule|].
  intros v Hv Hn. rewrite main_parse_rule, metrics_parse_rule.
  change (Fields "name 7.89 not_a_number")
    with ["name"; "7.89"; "not_a_number"].
  unfold lastTokenRule, secondTokenRule. simpl. by rewrite Hn, Hv.
Qed.

Lemma C1_value_rules_witness :
  MainGo.parseMetricLine ParseFloat_plain "name 7.89 not_a_number"
  = ("name", 7.89%float, true)
  /\ MetricsGo.parseMetricLine ParseFloat_plain "name 7.89 not_a_number"
     = ("name", 7.89%float, true).
Proof.
  destruct (C1_value_rules ParseFloat_plain "name 7.89 not_a_number")
    as (_ & _ & H).
  apply (H 7.89%float); reflexivity.
Defined.

(** C1, the claim as stated, fails on metrics.go: on [name abc 5] the
    last-token rule gives 5 and the parser rejects the line; on [name 1 2]
    the rule gives 2 and the parser answers 1. *)
Lemma C1_second_token_counterexample :
  lastTokenRule ParseFloat_plain (Fields "name abc 5") = Some 5%float
  /\ MetricsGo.parseMetricLine ParseFloat_plain "name abc 5" = ("", zero, false)
  /\ lastTokenRule ParseFloat_plain (Fields "name 1 2") = Some 2%float
  /\ MetricsGo.parseMetricLine ParseFloat_plain "name 1 2" = ("name", 1%float, true).
Proof. repeat split; reflexivity. Qed.

(** C7 (as amended).  A line that is empty after trimming is rejected by
    both parsers.  A comment line is not the parser's business: the
    scanner loops that call it skip every line that starts with [#], so such
    a line yields neither a name nor a sample. *)
Theorem C7_blank_rejected_comment_skipped
  (ParseFloat : string -> option float) (metric line : string) :
  (TrimSpace line = "" ->
   MainGo.parseMetricLine ParseFloat line = ("", zero, false)
   /\ MetricsGo.parseMetricLine ParseFloat line = ("", zero, false))
  /\ (HasPrefix line "#" = true ->
      MainGo.nameOfLine ParseFloat line = None
      /\ MainGo.seriesOfLine ParseFloat metric line = None
      /\ MetricsGo.nameOfLine ParseFloat line = None
      /\ MetricsGo.seriesOfLine ParseFloat metric line = None).
Proof.
  split.
  - intros H. split; [by apply main_parse_blank|by apply metrics_parse_blank].
  - apply comment_skipped.
Qed.

Lemma C7_blank_rejected_comment_skipped_witness :
  (MainGo.parseMetricLine ParseFloat_plain "   " = ("", zero, false)
   /\ MetricsGo.parseMetricLine ParseFloat_plain "   " = ("", zero, false))
  /\ (MainGo.nameOfLine ParseFloat_plain "# HELP temp 1" = None
      /\ MainGo.seriesOfLine ParseFloat_plain "#" "# HELP temp 1" = None
      /\ MetricsGo.nameOfLine ParseFloat_plain "# HELP temp 1" = None
      /\ MetricsGo.seriesOfLine ParseFloat_plain "#" "# HELP temp 1" = None).
Proof.
  split.
  - apply (C7_blank_rejected_comment_skipped ParseFloat_plain "#" "   ").
    reflexivity.
  - apply (C7_blank_rejected_comment_skipped ParseFloat_plain "#" "# HELP temp 1").
    reflexivity.
Defined.

(** C7, the claim as stated, fails: handed a comment line, either parser
    answers [ok = true] under the name [#]; and a comment line that is
    indented is not skipped by the scanner loop either. *)
Lemma C7_comment_counterexample :
  MainGo.parseMetricLine ParseFloat_plain "# HELP temp 1" = ("#", 1%float, true)
  /\ MetricsGo.parseMetricLine ParseFloat_plain "# 42 connections"
     = ("#", 42%float, true)
  /\ MainGo.nameOfLine ParseFloat_plain "  # HELP temp 1" = Some "#".
Proof. repeat split; reflexivity. Qed.

(** C2.  The first batch of a session with below-zero values: the code
    multiplies the minimum by 0.9 and the maximum by 1.1, which moves both
    bounds the wrong way.  For the gauges -10 and -5 the chart is given the
    range [-9, -5.5], which holds neither value; for -10 and -9.5 it is
    given [-9, -10.45], whose lower bound is above the upper one. *)
Theorem C2_negative_first_batch :
  timeserieslinechart.yRange
    (chart (Update 1 Demo.started (MetricsMsg Demo.batchCold None)).1)
  = Some ((-9)%float, (-5.5)%float)
  /\ ((-10) <? (-9))%float = true
  /\ ((-5.5) <? (-5))%float = true
  /\ timeserieslinechart.yRange
       (chart (Update 1 Demo.started (MetricsMsg Demo.batchColder None)).1)
     = Some ((-9)%float, (-10.450000000000001)%float)
  /\ ((-10.450000000000001) <? (-9))%float = true.
Proof.
  split; [|split; [|split; [|split]]]; vm_compute; reflexivity.
Qed.

(** C3 (as amended).  Confirming a metric in the picker, with an item
    selected, makes it the current metric and empties the history, the last
    values and the registry and clears the range lock, so that the next
    non-empty batch of that metric sets the range anew.  The reset key of
    normal mode only clears the chart: history, registry and range lock
    stay as they are. *)
Theorem C3_switch_clears_reset_keeps `{W : Widgets} (now : Z) (m : Model) :
  seriesSelectMode m = false ->
  (selectMode m = true ->
   forall i, list_SelectedItem (metricsList m) = Some i ->
     let m' := (Update now m (KeyMsg "enter")).1 in
     metricName m' = i /\ dataHistory m' = ∅ /\ lastValues m' = ∅
     /\ seriesList m' = [] /\ yRangeSet m' = false /\ selectMode m' = false
     /\ forall now' samples,
          samples <> [] -> wrongMetric m' samples = false ->
          timeserieslinechart.yRange
            (chart (Update now' m' (MetricsMsg samples None)).1)
          = Some (initialRange samples))
  /\ (selectMode m = false ->
      let m' := (Update now m (KeyMsg "r")).1 in
      dataHistory m' = dataHistory m /\ lastValues m' = lastValues m
      /\ seriesList m' = seriesList m /\ yRangeSet m' = yRangeSet m
      /\ chart m' = chart m ++ [ timeserieslinechart.ClearAllData;
                                 timeserieslinechart.Clear;
                                 timeserieslinechart.DrawXYAxisAndLabel ]).
Proof.
  intros Hs. split.
  - intros Hp i Hi. unfold Update. rewrite Hs, Hp.
    unfold updateSelect. simpl String.eqb. cbv iota. rewrite Hi. cbv zeta.
    cbn [fst].
    repeat (split; [done|]).
    intros now' samples Hne Hg.
    match type of Hg with wrongMetric ?x _ = _ => set (m' := x) in * end.
    destruct (updateMetrics_accept now' m' samples Hg Hne)
      as (_ & _ & _ & _ & _ & _ & Hc).
    destruct Hc as (cs & Hq & Hc); [done|].
    rewrite Hc. destruct (initialRange samples) as [lo hi].
    by apply yRange_set.
  - intros Hp. unfold Update. rewrite Hs, Hp. done.
Qed.

Lemma C3_switch_clears_reset_keeps_witness :
  (let m' := (Update 4 Demo.picking (KeyMsg "enter")).1 in
   metricName m' = "load" /\ dataHistory m' = ∅ /\ lastValues m' = ∅
   /\ seriesList m' = [] /\ yRangeSet m' = false /\ selectMode m' = false
   /\ forall now' samples,
        samples <> [] -> wrongMetric m' samples = false ->
        timeserieslinechart.yRange
          (chart (Update now' m' (MetricsMsg samples None)).1)
        = Some (initialRange samples))
  /\ (let m' := (Update 2 Demo.afterAB (KeyMsg "r")).1 in
      dataHistory m' = dataHistory Demo.afterAB
      /\ lastValues m' = lastValues Demo.afterAB
      /\ seriesList m' = seriesList Demo.afterAB
      /\ yRangeSet m' = yRangeSet Demo.afterAB
      /\ chart m' = chart Demo.afterAB
                    ++ [ timeserieslinechart.ClearAllData;
                         timeserieslinechart.Clear;
                         timeserieslinechart.DrawXYAxisAndLabel ]).
Proof.
  split.
  - apply (C3_switch_clears_reset_keeps 4 Demo.picking); reflexivity.
  - apply (C3_switch_clears_reset_keeps 2 Demo.afterAB); reflexivity.
Defined.

(** C3, the claim as stated, fails on the reset key: after it the history
    of the session still holds its points, the range lock is still set, and
    the next batch, however far outside, leaves the range of the first
    batch in place. *)
Lemma C3_reset_counterexample :
  let m' := (Update 2 Demo.afterAB (KeyMsg "r")).1 in
  dataHistory m' !! Demo.seriesA
  = Some [ timeserieslinechart.mkPoint 1 1.5%float ]
  /\ seriesList m' = seriesList Demo.afterAB
  /\ yRangeSet m' = true
  /\ timeserieslinechart.yRange
       (chart (Update 3 m' (MetricsMsg Demo.batchWild None)).1)
     = Some (1.35%float, 2.75%float).
Proof.
  cbv zeta. split; [|split; [|split]]; vm_compute; reflexivity.
Qed.

(** C4.  Once the range lock is set, no run of the event loop in which no
    metric is confirmed in the picker changes it: scrape results (whatever
    their values), ticks, keys (the reset key among them) and resizes leave
    the lock set and make no call that sets a range, so the range the chart
    was given stays the one of the first batch. *)
Theorem C4_range_locked `{W : Widgets} (m : Model) (events : list (Z * Msg)) :
  yRangeSet m = true -> noConfirm m events = true ->
  let m' := run m events in
  yRangeSet m' = true
  /\ timeserieslinechart.rangeCalls (chart m')
     = timeserieslinechart.rangeCalls (chart m)
  /\ timeserieslinechart.yRange (chart m')
     = timeserieslinechart.yRange (chart m).
Proof.
  intros Hy Hn. destruct (run_sameRange events m Hy Hn) as [H1 H2].
  simpl. split; [congruence|]. split; [done|].
  by rewrite (yRange_rangeCalls (chart _)), H2, <- yRange_rangeCalls.
Qed.

Lemma C4_range_locked_witness :
  let m' := run Demo.afterAB
              [ (2, MetricsMsg Demo.batchWild None); (3, KeyMsg "r");
                (4, TickMsg 4); (5, MetricsMsg Demo.batchABC None) ] in
  yRangeSet m' = true
  /\ timeserieslinechart.rangeCalls (chart m')
     = timeserieslinechart.rangeCalls (chart Demo.afterAB)
  /\ timeserieslinechart.yRange (chart m')
     = timeserieslinechart.yRange (chart Demo.afterAB).
Proof. apply (C4_range_locked Demo.afterAB); reflexivity. Defined.

(** C5.  A scrape result whose first sample names another metric than the
    current one leaves the registry (names, checks and colours) and the
    history exactly as they were; last values, chart and range lock too. *)
Theorem C5_wrong_metric_discarded `{W : Widgets}
  (now : Z) (m : Model) (first : MetricSample) (rest : list MetricSample) :
  baseNameOf (FullName first) <> metricName m ->
  let m' := (Update now m (MetricsMsg (first :: rest) None)).1 in
  seriesList m' = seriesList m /\ dataHistory m' = dataHistory m
  /\ lastValues m' = lastValues m /\ chart m' = chart m
  /\ yRangeSet m' = yRangeSet m.
Proof.
  intros H. cbv zeta. rewrite Update_metrics.
  by rewrite (updateMetrics_discard now m _ (wrongMetric_cons m first rest H)).
Qed.

Lemma C5_wrong_metric_discarded_witness :
  let m' := (Update 2 Demo.afterAB (MetricsMsg Demo.batchOther None)).1 in
  seriesList m' = seriesList Demo.afterAB
  /\ dataHistory m' = dataHistory Demo.afterAB
  /\ lastValues m' = lastValues Demo.afterAB
  /\ chart m' = chart Demo.afterAB
  /\ yRangeSet m' = yRangeSet Demo.afterAB.
Proof.
  apply (C5_wrong_metric_discarded 2 Demo.afterAB (mkSample "load{cpu=0}" 7) []).
  vm_compute. discriminate.
Defined.

(** C6.  Whatever scrape result arrives, the registry keeps its records,
    in place and untouched, and only grows at its end; when the batch is
    accepted, what is appended is one checked record per name of the batch
    not yet listed, each numbered with the length of the registry at the
    moment it is appended, so that the numbering stays dense. *)
Theorem C6_registry_stable `{W : Widgets}
  (now : Z) (m : Model) (samples : list MetricSample) (e : option error) :
  dense (seriesList m) ->
  let m' := (Update now m (MetricsMsg samples e)).1 in
  exists new,
    seriesList m' = seriesList m ++ new
    /\ Forall (fun s => checked s = true) new
    /\ dense (seriesList m')
    /\ (e = None -> wrongMetric m samples = false ->
        adds (seriesList m) new samples).
Proof.
  intros Hd. cbv zeta. rewrite Update_metrics.
  destruct e as [e|].
  { exists []. rewrite app_nil_r. by repeat split. }
  destruct (wrongMetric m samples) eqn:Hg.
  { rewrite updateMetrics_discard by done.
    exists []. rewrite app_nil_r. by repeat split. }
  destruct (reconcile_adds (seriesList m) samples) as (new & Hr & Ha).
  exists new.
  assert (Hs : seriesList (updateMetrics now m samples None).1
               = seriesList m ++ new).
  { destruct samples as [|s rest].
    - destruct (updateMetrics_empty now m) as (-> & _).
      destruct Ha as (_ & _ & _ & Hin & _).
      destruct new as [|t new]; [by rewrite app_nil_r|].
      destruct (Hin t) as [_ Ht]; [by left|]. by apply elem_of_nil in Ht.
    - destruct (updateMetrics_accept now m (s :: rest) Hg) as (-> & _); done. }
  rewrite Hs. split; [done|]. split; [apply Ha|].
  split; [by eapply adds_dense|done].
Qed.

Lemma C6_registry_stable_witness :
  exists new,
    seriesList (Update 2 Demo.afterAB (MetricsMsg Demo.batchABC None)).1
    = [ mkSeries Demo.seriesA true 0; mkSeries Demo.seriesB true 1 ] ++ new
    /\ Forall (fun s => checked s = true) new
    /\ dense (seriesList (Update 2 Demo.afterAB (MetricsMsg Demo.batchABC None)).1)
    /\ (@None error = None -> wrongMetric Demo.afterAB Demo.batchABC = false ->
        adds (seriesList Demo.afterAB) new Demo.batchABC).
Proof.
  apply (C6_registry_stable 2 Demo.afterAB Demo.batchABC None).
  intros [|[|i]] s; vm_compute; intros [= <-]; reflexivity.
Defined.

(** C10.  The discard of a wrong-metric batch is not without effect: the
    displayed error is cleared and the time of the last update is set to
    the present, and nothing else of the model changes. *)
Theorem C10_discard_side_effects `{W : Widgets}
  (now : Z) (m : Model) (first : MetricSample) (rest : list MetricSample) :
  baseNameOf (FullName first) <> metricName m ->
  let r := Update now m (MetricsMsg (first :: rest) None) in
  err r.1 = None /\ lastUpdate r.1 = now
  /\ r = (set_lastUpdate now (set_err None m), nilCmd).
Proof.
  intros H. cbv zeta. rewrite Update_metrics.
  by rewrite (updateMetrics_discard now m _ (wrongMetric_cons m first rest H)).
Qed.

Lemma C10_discard_side_effects_witness :
  let m := set_err (Some (ErrUnexpectedStatus 500)) Demo.afterAB in
  let r := Update 9 m (MetricsMsg Demo.batchOther None) in
  err r.1 = None /\ lastUpdate r.1 = 9
  /\ r = (set_lastUpdate 9 (set_err None m), nilCmd).
Proof.
  apply (C10_discard_side_effects 9
           (set_err (Some (ErrUnexpectedStatus 500)) Demo.afterAB)
           (mkSample "load{cpu=0}" 7) []).
  vm_compute. discriminate.
Defined.

(** * More on the parser *)

Lemma app_assoc_string (a b c : string) : (a +:+ b) +:+ c = a +:+ (b +:+ c).
Proof.
  induction a as [|x a IH]; [done|]. rewrite !app_cons. by rewrite IH.
Qed.

Lemma app_empty_r (a : string) : a +:+ "" = a.
Proof. induction a as [|x a IH]; [done|]. rewrite app_cons. by rewrite IH. Qed.

Lemma noSpace_app a b : noSpace (a +:+ b) = noSpace a && noSpace b.
Proof.
  induction a as [|x a IH]; [done|]. rewrite app_cons. simpl.
  rewrite IH. by rewrite andb_assoc.
Qed.

Lemma app_nonempty_r (a b : string) : b <> "" -> a +:+ b <> "".
Proof. destruct a; [done|]. by rewrite app_cons. Qed.

(** Reading a token moves it into the field being read. *)
Lemma fieldsFrom_token t : forall cur s,
  noSpace t = true -> fieldsFrom cur (t +:+ s) = fieldsFrom (cur +:+ t) s.
Proof.
  induction t as [|c t IH]; intros cur s H.
  - by rewrite app_empty_r.
  - simpl in H. apply andb_true_iff in H as [Hc Ht].
    rewrite app_cons. simpl. apply negb_true_iff in Hc. rewrite Hc.
    rewrite IH by done. f_equal.
    rewrite app_assoc_string. by rewrite app_cons.
Qed.

Lemma flush_token t : t <> "" -> flush t = [t].
Proof. by destruct t. Qed.

(** [Fields] undoes [Join]: the fields of tokens joined by single spaces
    are the tokens. *)
Lemma Fields_join tokens :
  Forall token tokens -> Fields (joinSpace tokens) = tokens.
Proof.
  unfold Fields, joinSpace.
  induction 1 as [|t ts [Hne Hns] Hts IH]; [done|].
  destruct ts as [|u ts].
  - simpl. rewrite <- (app_empty_r t) at 1.
    rewrite fieldsFrom_token by done. simpl. by apply flush_token.
  - change (String.concat " " (t :: u :: ts))
      with (t +:+ String " " (String.concat " " (u :: ts))).
    rewrite fieldsFrom_token by done.
    change (fieldsFrom ("" +:+ t) (String " " (String.concat " " (u :: ts))))
      with (flush t ++ fieldsFrom "" (String.concat " " (u :: ts))).
    rewrite IH. by rewrite flush_token.
Qed.

(** Every field is a token. *)
Lemma fieldsFrom_tokens s : forall cur,
  noSpace cur = true -> Forall token (fieldsFrom cur s).
Proof.
  induction s as [|c s IH]; intros cur Hcur; simpl.
  - destruct cur; [constructor|]. by repeat constructor.
  - destruct (isSpace c) eqn:Hc.
    + apply Forall_app. split; [|by apply IH].
      destruct cur; [constructor|]. by repeat constructor.
    + apply IH. rewrite noSpace_app, Hcur. simpl. by rewrite Hc.
Qed.

Lemma Fields_tokens s : Forall token (Fields s).
Proof. by apply fieldsFrom_tokens. Qed.

(** No field at all: the line is white space. *)
Lemma fieldsFrom_nonempty s : forall cur, cur <> "" -> fieldsFrom cur s <> [].
Proof.
  induction s as [|c s IH]; intros cur Hcur; simpl.
  - by destruct cur.
  - destruct (isSpace c).
    + by destruct cur.
    + apply IH. by apply app_nonempty_r.
Qed.

Lemma Fields_nil_allSpace s : Fields s = [] -> allSpace s = true.
Proof.
  unfold Fields. induction s as [|c s IH]; [done|]. simpl.
  destruct (isSpace c); simpl; [done|].
  intros H. by apply fieldsFrom_nonempty in H.
Qed.

(** The part of a name before the first brace. *)
Lemma noSpace_sliceTo s : forall i, noSpace s = true -> noSpace (sliceTo s i) = true.
Proof.
  unfold sliceTo. intros i. generalize (Z.to_nat i). clear i.
  induction s as [|c s IH]; intros n H; [by destruct n|].
  destruct n as [|n]; [done|]. simpl in *.
  apply andb_true_iff in H as [-> H]. simpl. by apply IH.
Qed.

Lemma noSpace_baseNameOf s : noSpace s = true -> noSpace (baseNameOf s) = true.
Proof.
  intros H. unfold baseNameOf. destruct (negb _); [|done].
  by apply noSpace_sliceTo.
Qed.

Lemma IndexByte_sliceTo s c :
  IndexByte s c <> -1 -> IndexByte (sliceTo s (IndexByte s c)) c = -1.
Proof.
  induction s as [|a s IH]; [done|]. simpl.
  destruct (Ascii.eqb a c) eqn:E; [done|].
  destruct (Z.eqb_spec (IndexByte s c) (-1)) as [|Hne]; [done|].
  intros _. destruct (IndexByte_range s c) as [|Hr]; [done|].
  rewrite sliceTo_cons by lia. simpl. rewrite E, (IH Hne). done.
Qed.

Lemma baseNameOf_no_brace_in s : Contains (baseNameOf s) lbrace = false.
Proof.
  unfold baseNameOf, Contains.
  destruct (Z.eqb_spec (IndexByte s lbrace) (-1)) as [He|Hne]; simpl.
  - by rewrite He.
  - by rewrite IndexByte_sliceTo.
Qed.

Lemma baseNameOf_idem s : baseNameOf (baseNameOf s) = baseNameOf s.
Proof. apply baseNameOf_no_brace, baseNameOf_no_brace_in. Qed.

(** The base name is a prefix of the name. *)
Lemma sliceTo_prefix s : forall n, String.prefix (String.substring 0 n s) s = true.
Proof.
  induction s as [|a s IH]; intros [|n]; simpl; try done.
  destruct (ascii_dec a a); [apply IH|done].
Qed.

Lemma baseNameOf_prefix s : String.prefix (baseNameOf s) s = true.
Proof.
  unfold baseNameOf. destruct (negb _); [apply sliceTo_prefix|].
  induction s as [|a s IH]; [done|]. simpl. by destruct (ascii_dec a a).
Qed.

Lemma answer_shape tokens v n val ok :
  Forall token tokens -> answer tokens v = (n, val, ok) ->
  if ok
  then noSpace n = true /\ Contains n lbrace = false
       /\ n = baseNameOf (tokens !!! 0%nat) /\ v = Some val
  else n = "" /\ val = zero /\ v = None.
Proof.
  intros Ht. unfold answer. destruct v as [w|]; intros [= <- <- <-].
  - split; [|by split; [apply baseNameOf_no_brace_in|]].
    apply noSpace_baseNameOf.
    destruct Ht as [|t ts [_ Hn] _]; done.
  - done.
Qed.

(** X1.  What either parser answers: on success the name is the first
    field cut before its first brace, so it holds neither a brace nor white
    space, and the value is the one its rule resolved; on rejection the
    name is empty and the value is zero. *)
Theorem parse_answer_shape (ParseFloat : string -> option float)
  (line n : string) (val : float) (ok : bool) :
  MainGo.parseMetricLine ParseFloat line = (n, val, ok)
  \/ MetricsGo.parseMetricLine ParseFloat line = (n, val, ok) ->
  if ok
  then noSpace n = true /\ Contains n lbrace = false
       /\ n = baseNameOf (Fields line !!! 0%nat)
       /\ (2 <= length (Fields line))%nat
  else n = "" /\ val = zero.
Proof.
  intros [H|H].
  - rewrite main_parse_rule in H.
    pose proof (answer_shape _ _ _ _ _ (Fields_tokens line) H) as Hs.
    destruct ok; [|by destruct Hs as (? & ? & ?)].
    destruct Hs as (? & ? & ? & Hv). repeat (split; [done|]).
    unfold lastTokenRule in Hv.
    rewrite <- (length_reverse (Fields line)).
    destruct (reverse (Fields line)) as [|a [|b r]]; simpl; [done..|lia].
  - rewrite metrics_parse_rule in H.
    pose proof (answer_shape _ _ _ _ _ (Fields_tokens line) H) as Hs.
    destruct ok; [|by destruct Hs as (? & ? & ?)].
    destruct Hs as (? & ? & ? & Hv). repeat (split; [done|]).
    unfold secondTokenRule in Hv.
    destruct (Fields line) as [|a [|b r]]; simpl; [done..|lia].
Qed.

Lemma parse_answer_shape_witness :
  noSpace "requests_total" = true
  /\ Contains "requests_total" lbrace = false
  /\ "requests_total" = baseNameOf (Fields "requests_total{code=200} 12" !!! 0%nat)
  /\ (2 <= length (Fields "requests_total{code=200} 12"))%nat.
Proof.
  apply (parse_answer_shape ParseFloat_plain "requests_total{code=200} 12"
           "requests_total" 12%float true).
  left. reflexivity.
Defined.

(** X2.  A line written as name, value and optional timestamp, separated
    by single spaces.  Without a timestamp both parsers answer the base name
    and the value.  With one, metrics.go still answers the value, whatever
    the timestamp; main.go answers the timestamp when it reads as a number,
    and the value only when it does not. *)
Theorem parse_written_line (ParseFloat : string -> option float)
  (nm vtxt : string) (v : float) :
  token nm -> token vtxt -> ParseFloat vtxt = Some v ->
  MainGo.parseMetricLine ParseFloat (joinSpace [nm; vtxt])
  = (baseNameOf nm, v, true)
  /\ MetricsGo.parseMetricLine ParseFloat (joinSpace [nm; vtxt])
     = (baseNameOf nm, v, true)
  /\ forall ts, token ts ->
       MetricsGo.parseMetricLine ParseFloat (joinSpace [nm; vtxt; ts])
       = (baseNameOf nm, v, true)
       /\ MainGo.parseMetricLine ParseFloat (joinSpace [nm; vtxt; ts])
          = (baseNameOf nm, default v (ParseFloat ts), true).
Proof.
  intros Hn Hv Hp.
  rewrite main_parse_rule, metrics_parse_rule.
  rewrite (Fields_join [nm; vtxt]) by by repeat (constructor; [done|]).
  unfold lastTokenRule, secondTokenRule. simpl. rewrite Hp.
  split; [done|]. split; [done|]. intros ts Hts.
  rewrite main_parse_rule, metrics_parse_rule.
  rewrite (Fields_join [nm; vtxt; ts]) by by repeat (constructor; [done|]).
  unfold lastTokenRule, secondTokenRule. simpl. rewrite Hp.
  split; [done|]. by destruct (ParseFloat ts).
Qed.

Lemma parse_written_line_witness :
  MainGo.parseMetricLine ParseFloat_plain "up{job=node} 1"
  = ("up", 1%float, true)
  /\ MetricsGo.parseMetricLine ParseFloat_plain "up{job=node} 1"
     = ("up", 1%float, true)
  /\ forall ts, token ts ->
       MetricsGo.parseMetricLine ParseFloat_plain
         (joinSpace ["up{job=node}"; "1"; ts])
       = ("up", 1%float, true)
       /\ MainGo.parseMetricLine ParseFloat_plain
            (joinSpace ["up{job=node}"; "1"; ts])
          = ("up", default 1%float (ParseFloat_plain ts), true).
Proof.
  apply (parse_written_line ParseFloat_plain "up{job=node}" "1" 1%float);
    [by split|by split|reflexivity].
Defined.

(** X3.  The two parsers give the same answer on every line of at most two
    fields, and on every line of three fields whose last field does not
    read as a number. *)
Theorem parsers_agree (ParseFloat : string -> option float) (line : string) :
  (length (Fields line) <= 2)%nat
  \/ (length (Fields line) = 3%nat
      /\ ParseFloat (Fields line !!! 2%nat) = None) ->
  MainGo.parseMetricLine ParseFloat line
  = MetricsGo.parseMetricLine ParseFloat line.
Proof.
  rewrite main_parse_rule, metrics_parse_rule.
  unfold lastTokenRule, secondTokenRule.
  destruct (Fields line) as [|a [|b [|c [|d r]]]]; simpl;
    intros [H|[H Hp]]; try done; try (exfalso; lia).
  - by destruct (ParseFloat b).
  - by rewrite Hp.
Qed.

Lemma parsers_agree_witness :
  MainGo.parseMetricLine ParseFloat_plain "name 7.89 not_a_number"
  = MetricsGo.parseMetricLine ParseFloat_plain "name 7.89 not_a_number".
Proof.
  apply (parsers_agree ParseFloat_plain "name 7.89 not_a_number").
  right. split; reflexivity.
Defined.

(** * Discovery *)

(** The value resolution written out in main.go is the last-token rule,
    whatever is done with the value. *)
Lemma main_value_rule {A} (ParseFloat : string -> option float)
  (parts : list string) (K : float -> A) (R : A) :
  (if (length parts <? 2)%nat then R
   else match ParseFloat (parts !!! (length parts - 1)%nat) with
        | Some val => K val
        | None =>
            if (3 <=? length parts)%nat then
              match ParseFloat (parts !!! (length parts - 2)%nat) with
              | Some val => K val
              | None => R
              end
            else R
        end)
  = match lastTokenRule ParseFloat parts with Some v => K v | None => R end.
Proof.
  unfold lastTokenRule.
  destruct (reverse parts) as [|x [|y r]] eqn:E;
    apply (f_equal reverse) in E; rewrite reverse_involutive in E;
    subst parts; [done..|].
  rewrite !reverse_cons, <- app_assoc. simpl app.
  set (l := reverse r).
  assert (Hlen : (length (l ++ [y; x]) <? 2)%nat = false).
  { apply Nat.ltb_ge. rewrite length_app. simpl. lia. }
  rewrite Hlen, lookup_total_last, lookup_total_prev.
  destruct (ParseFloat x) as [v|]; [done|].
  assert (Hr : (3 <=? length (l ++ [y; x]))%nat
               = match r with [] => false | _ => true end).
  { rewrite length_app. subst l. rewrite length_reverse.
    destruct r; [done|]. apply Nat.leb_le. simpl. lia. }
  rewrite Hr. by destruct r.
Qed.

Lemma metrics_value_rule {A} (ParseFloat : string -> option float)
  (parts : list string) (K : float -> A) (R : A) :
  (if (length parts <? 2)%nat then R
   else match ParseFloat (parts !!! 1%nat) with
        | None => R
        | Some val => K val
        end)
  = match secondTokenRule ParseFloat parts with Some v => K v | None => R end.
Proof. by destruct parts as [|a [|b r]]. Qed.


Lemma main_nameOfLine_rule ParseFloat line :
  MainGo.nameOfLine ParseFloat line
  = nameByRule (lastTokenRule ParseFloat) line.
Proof.
  unfold MainGo.nameOfLine, nameByRule, skipped.
  destruct (_ || _); [done|]. rewrite main_parse_rule. unfold answer.
  by destruct (lastTokenRule ParseFloat (Fields line)).
Qed.

Lemma metrics_nameOfLine_rule ParseFloat line :
  MetricsGo.nameOfLine ParseFloat line
  = nameByRule (secondTokenRule ParseFloat) line.
Proof.
  unfold MetricsGo.nameOfLine, nameByRule, skipped.
  destruct (_ || _); [done|]. rewrite metrics_parse_rule. unfold answer.
  by destruct (secondTokenRule ParseFloat (Fields line)).
Qed.

Lemma main_seriesOfLine_rule ParseFloat metric line :
  MainGo.seriesOfLine ParseFloat metric line
  = seriesByRule (lastTokenRule ParseFloat) metric line.
Proof.
  unfold MainGo.seriesOfLine, seriesByRule, skipped, labelled.
  destruct (_ || _); [done|]. cbv zeta.
  destruct (String.eqb _ metric) eqn:E; cbn [negb].
  - apply (main_value_rule ParseFloat (Fields line)).
  - destruct (_ <? _)%nat; by destruct (lastTokenRule _ _).
Qed.

Lemma metrics_seriesOfLine_rule ParseFloat metric line :
  MetricsGo.seriesOfLine ParseFloat metric line
  = seriesByRule (secondTokenRule ParseFloat) metric line.
Proof.
  unfold MetricsGo.seriesOfLine, seriesByRule, skipped, labelled.
  destruct (_ || _); [done|]. cbv zeta.
  destruct (String.eqb _ metric) eqn:E; cbn [negb].
  - apply (metrics_value_rule ParseFloat (Fields line)).
  - destruct (_ <? _)%nat; by destruct (secondTokenRule _ _).
Qed.

(** A line gives the name [n] to discovery exactly when it gives a sample
    to the fetch of [n]. *)
Lemma name_iff_series rule line n :
  nameByRule rule line = Some n <-> is_Some (seriesByRule rule n line).
Proof.
  unfold nameByRule, seriesByRule. destruct (skipped line).
  { split; [done|]. by intros [? ?]. }
  destruct (rule (Fields line)) as [v|].
  - destruct (String.eqb_spec (baseNameOf (Fields line !!! 0%nat)) n) as [->|Hne].
    + split; [by eexists|done].
    + split; [by intros [= ?]|]. by intros [? ?].
  - split; [done|]. by intros [? ?].
Qed.

(** The set the discovery loop builds. *)
Lemma fold_names_lookup (f : string -> option string) body :
  forall (acc : gmap string bool) n,
    is_Some (fold_left (fun (metrics : gmap string bool) line =>
                          match f line with
                          | Some name => <[name := true]> metrics
                          | None => metrics
                          end) body acc !! n)
    <-> is_Some (acc !! n) \/ exists line, line ∈ body /\ f line = Some n.
Proof.
  induction body as [|l body IH]; intros acc n; simpl.
  - split; [by left|]. intros [?|(line & Hl & _)]; [done|].
    by apply elem_of_nil in Hl.
  - rewrite IH. split.
    + intros [H|(line & Hl & Hf)].
      * destruct (f l) as [m|] eqn:E; [|by left].
        destruct (decide (m = n)) as [->|Hne].
        -- right. exists l. split; [by left|done].
        -- rewrite lookup_insert_ne in H by done. by left.
      * right. exists line. split; [by right|done].
    + intros [H|(line & Hl & Hf)].
      * left. destruct (f l) as [m|]; [|done].
        destruct (decide (m = n)) as [->|Hne].
        -- by rewrite lookup_insert_eq.
        -- by rewrite lookup_insert_ne.
      * apply elem_of_cons in Hl as [->|Hl].
        -- left. rewrite Hf. by rewrite lookup_insert_eq.
        -- right. by exists line.
Qed.

Lemma sorted_keys (m : gmap string bool) :
  let names := merge_sort String.le (map_to_list m).*1 in
  Sorted String.le names /\ NoDup names
  /\ forall n, n ∈ names <-> is_Some (m !! n).
Proof.
  cbv zeta. split; [apply Sorted_merge_sort; apply _|].
  split.
  - rewrite merge_sort_Permutation. apply NoDup_fst_map_to_list.
  - intros n. rewrite merge_sort_Permutation, list_elem_of_fmap. split.
    + intros ([k b] & -> & H). apply elem_of_map_to_list in H. by exists b.
    + intros [b H]. exists (n, b). split; [done|].
      by apply elem_of_map_to_list.
Qed.

Lemma main_discover_contract ParseFloat resp :
  discoverContract (MainGo.nameOfLine ParseFloat) resp
    (MainGo.fetchAllMetrics ParseFloat resp).
Proof.
  destruct resp as [cause|code body]; simpl.
  - left. by exists cause.
  - destruct (Z.eqb_spec code StatusOK) as [->|Hne]; simpl.
    + exists body. split; [done|].
      destruct (sorted_keys (MainGo.scanNames ParseFloat body)) as (Hs & Hd & Hm).
      split; [done|]. split; [done|]. intros n. rewrite Hm.
      unfold MainGo.scanNames. rewrite fold_names_lookup, lookup_empty.
      split; [intros [[? ?]|?]; done|by right].
    + right. by exists code, body.
Qed.

Lemma metrics_discover_contract ParseFloat resp :
  discoverContract (MetricsGo.nameOfLine ParseFloat) resp
    (MetricsGo.fetchAllMetrics ParseFloat resp).
Proof.
  destruct resp as [cause|code body]; simpl.
  - left. by exists cause.
  - destruct (Z.eqb_spec code StatusOK) as [->|Hne]; simpl.
    + exists body. split; [done|].
      destruct (sorted_keys (MetricsGo.scanNames ParseFloat body)) as (Hs & Hd & Hm).
      split; [done|]. split; [done|]. intros n. rewrite Hm.
      unfold MetricsGo.scanNames. rewrite fold_names_lookup, lookup_empty.
      split; [intros [[? ?]|?]; done|by right].
    + right. by exists code, body.
Qed.

Lemma omap_nonempty {A B} (f : A -> option B) (l : list A) :
  omap f l <> [] <-> exists x, x ∈ l /\ is_Some (f x).
Proof.
  split.
  - destruct (omap f l) as [|y ys] eqn:E; [done|]. intros _.
    assert (Hy : y ∈ omap f l) by (rewrite E; by left).
    apply list_elem_of_omap in Hy as (x & Hx & Hf). exists x. by rewrite Hf.
  - intros (x & Hx & [y Hy]) E.
    assert (Hin : y ∈ omap f l) by (apply list_elem_of_omap; eauto).
    rewrite E in Hin. by apply elem_of_nil in Hin.
Qed.

(** X5.  main.go: on one and the same response, a name is among the
    discovered metrics exactly when the fetch of that name succeeds. *)
Theorem main_discovered_iff_fetchable
  (ParseFloat : string -> option float) (resp : HttpResult)
  (names : list string) :
  MainGo.fetchAllMetrics ParseFloat resp = inl names ->
  forall n, n ∈ names
            <-> exists samples,
                  MainGo.fetchAllMetricSeries ParseFloat resp n = inl samples.
Proof.
  intros H n.
  pose proof (main_discover_contract ParseFloat resp) as Hd. rewrite H in Hd.
  destruct Hd as (body & -> & _ & _ & Hm). rewrite Hm.
  pose proof (main_fetch_contract ParseFloat (HttpResp StatusOK body) n) as Hf.
  assert (Hne : omap (MainGo.seriesOfLine ParseFloat n) body <> []
                <-> exists line, line ∈ body
                                 /\ MainGo.nameOfLine ParseFloat line = Some n).
  { rewrite omap_nonempty. apply exist_proper. intros line.
    by rewrite main_nameOfLine_rule, main_seriesOfLine_rule, name_iff_series. }
  rewrite <- Hne.
  destruct (MainGo.fetchAllMetricSeries ParseFloat (HttpResp StatusOK body) n)
    as [samples|e].
  - destruct Hf as (body' & [= <-] & -> & Hs). split; [by eexists|done].
  - split; [|by intros [? ?]]. intros Hs.
    destruct Hf as [(c & ? & _)|[(c & b & [= <- <-] & ? & _)|(b & [= <-] & ? & _)]];
      done.
Qed.

Lemma main_discovered_iff_fetchable_witness :
  "metric_b" ∈ ["metric_a"; "metric_b"; "metric_c"]
  <-> exists samples,
        MainGo.fetchAllMetricSeries ParseFloat_plain
          (HttpResp 200 [ "# comment line"; "metric_a{env=prod} 10";
                          "metric_b 5"; "metric_a{env=prod} 12";
                          "metric_c 1" ]) "metric_b" = inl samples.
Proof.
  apply (main_discovered_iff_fetchable ParseFloat_plain
           (HttpResp 200 [ "# comment line"; "metric_a{env=prod} 10";
                           "metric_b 5"; "metric_a{env=prod} 12";
                           "metric_c 1" ])
           ["metric_a"; "metric_b"; "metric_c"]).
  vm_compute. reflexivity.
Defined.

(** X6.  metrics.go: on one and the same response, a name is among the
    discovered metrics exactly when the fetch of that name succeeds. *)
Theorem metrics_discovered_iff_fetchable
  (ParseFloat : string -> option float) (resp : HttpResult)
  (names : list string) :
  MetricsGo.fetchAllMetrics ParseFloat resp = inl names ->
  forall n, n ∈ names
            <-> exists samples,
                  MetricsGo.fetchAllMetricSeries ParseFloat resp n = inl samples.
Proof.
  intros H n.
  pose proof (metrics_discover_contract ParseFloat resp) as Hd. rewrite H in Hd.
  destruct Hd as (body & -> & _ & _ & Hm). rewrite Hm.
  pose proof (metrics_fetch_contract ParseFloat (HttpResp StatusOK body) n) as Hf.
  assert (Hne : omap (MetricsGo.seriesOfLine ParseFloat n) body <> []
                <-> exists line, line ∈ body
                                 /\ MetricsGo.nameOfLine ParseFloat line = Some n).
  { rewrite omap_nonempty. apply exist_proper. intros line.
    by rewrite metrics_nameOfLine_rule, metrics_seriesOfLine_rule, name_iff_series. }
  rewrite <- Hne.
  destruct (MetricsGo.fetchAllMetricSeries ParseFloat (HttpResp StatusOK body) n)
    as [samples|e].
  - destruct Hf as (body' & [= <-] & -> & Hs). split; [by eexists|done].
  - split; [|by intros [? ?]]. intros Hs.
    destruct Hf as [(c & ? & _)|[(c & b & [= <- <-] & ? & _)|(b & [= <-] & ? & _)]];
      done.
Qed.

Lemma metrics_discovered_iff_fetchable_witness :
  "metric_b" ∈ ["metric_a"; "metric_b"; "metric_c"]
  <-> exists samples,
        MetricsGo.fetchAllMetricSeries ParseFloat_plain
          (HttpResp 200 [ "# comment line"; "metric_a{env=prod} 10";
                          "metric_b 5"; "metric_a{env=prod} 12";
                          "metric_c 1" ]) "metric_b" = inl samples.
Proof.
  apply (metrics_discovered_iff_fetchable ParseFloat_plain
           (HttpResp 200 [ "# comment line"; "metric_a{env=prod} 10";
                           "metric_b 5"; "metric_a{env=prod} 12";
                           "metric_c 1" ])
           ["metric_a"; "metric_b"; "metric_c"]).
  vm_compute. reflexivity.
Defined.

(** * The session over whole runs *)

Lemma sameData_refl `{W : Widgets} (m : Model) : sameData m m.
Proof. by repeat split. Qed.

Lemma sameData_trans `{W : Widgets} (m1 m2 m3 : Model) :
  sameData m1 m2 -> sameData m2 m3 -> sameData m1 m3.
Proof.
  intros (?&?&?&?&?) (?&?&?&?&?). repeat split; congruence.
Qed.

Lemma redrawChart_sameData `{W : Widgets} (m : Model) :
  sameData m (redrawChart m).
Proof. by repeat split. Qed.

Lemma rebuildLegend_sameData `{W : Widgets} (m : Model) :
  sameData m (rebuildLegend m).
Proof. by repeat split. Qed.

Lemma updateLegendViewportSize_sameData `{W : Widgets} (m : Model) :
  sameData m (updateLegendViewportSize m).
Proof.
  unfold updateLegendViewportSize. destruct (negb (showLegend m)); [done|].
  by destruct (legendInnerDimensions (height m)).
Qed.

Lemma resizeChart_sameData `{W : Widgets} (m : Model) :
  sameData m (resizeChart m).
Proof.
  unfold resizeChart. destruct (_ || _); [done|]. cbv zeta.
  eapply sameData_trans; [|apply updateLegendViewportSize_sameData].
  by destruct (_ || _).
Qed.

Lemma legendTail_sameData `{W : Widgets} (m : Model) msg :
  sameData m (legendTail m msg).1.
Proof.
  unfold legendTail. destruct (showLegend m); [|done].
  by destruct (viewport_Update msg (legendViewport m)).
Qed.

Lemma passToList_sameData `{W : Widgets} (m : Model) msg :
  sameData m (passToList m msg).1.
Proof. unfold passToList. by destruct (list_Update msg (metricsList m)). Qed.

Lemma updateNormal_sameData `{W : Widgets} (m : Model) msg :
  sameData m (updateNormal m msg).1.
Proof.
  unfold updateNormal. destruct msg; try apply legendTail_sameData.
  - repeat (case_match; try done); cbn [fst];
      try apply legendTail_sameData.
    + eapply sameData_trans; [|apply legendTail_sameData].
      eapply sameData_trans; [|apply resizeChart_sameData].
      eapply sameData_trans; [|apply rebuildLegend_sameData]. done.
    + eapply sameData_trans; [|apply legendTail_sameData]. done.
  - cbv zeta. eapply sameData_trans; [|apply legendTail_sameData].
    destruct (negb _); [|done].
    eapply sameData_trans; [|apply resizeChart_sameData]. done.
Qed.

Lemma updateSelect_sameData `{W : Widgets} (m : Model) msg :
  match msg with KeyMsg key => String.eqb key "enter" = false | _ => True end ->
  sameData m (updateSelect m msg).1.
Proof.
  unfold updateSelect. destruct msg; intros Hk;
    try apply passToList_sameData.
  - by destruct Err.
  - rewrite Hk. repeat (case_match; try done); apply passToList_sameData.
Qed.

(** The keys of the series picker change checks only. *)
Lemma fmap_alter_toggle {A} (f : seriesItem -> A) i (sl : list seriesItem) :
  (forall s, f (toggle s) = f s) -> f <$> alter toggle i sl = f <$> sl.
Proof.
  intros Hf. revert i. induction sl as [|s sl IH]; intros [|i]; simpl; [done..| |].
  - by rewrite Hf.
  - f_equal. apply IH.
Qed.

Lemma updateSeriesSelect_ids `{W : Widgets} (m : Model) msg :
  let m' := (updateSeriesSelect m msg).1 in
  metricName m' = metricName m /\ dataHistory m' = dataHistory m
  /\ lastValues m' = lastValues m /\ yRangeSet m' = yRangeSet m
  /\ name <$> seriesList m' = name <$> seriesList m
  /\ colorIdx <$> seriesList m' = colorIdx <$> seriesList m
  /\ termHeight m' = termHeight m.
Proof.
  unfold updateSeriesSelect. destruct msg; try done.
  repeat (case_match; try done); cbn [fst]; repeat split; try done; simpl.
  - by apply fmap_alter_toggle.
  - by apply fmap_alter_toggle.
  - by rewrite <- list_fmap_compose.
  - by rewrite <- list_fmap_compose.
Qed.

(** One sample pushed: one point more at the end of one history. *)
Lemma pushSample_history `{W : Widgets} i sample (m : Model) n :
  historyOf (pushSample i sample m) n
  = historyOf m n
    ++ (if decide (FullName sample = n)
        then [mkPoint (lastUpdate m) (Value sample)] else []).
Proof.
  unfold pushSample, historyOf. cbv zeta.
  match goal with |- context [let '(_, _) := ?p in _] =>
    destruct p as [isChecked idx] end.
  simpl. destruct (decide (FullName sample = n)) as [<-|Hne].
  - by rewrite lookup_insert_eq.
  - rewrite lookup_insert_ne by done. by rewrite app_nil_r.
Qed.

(** The points a batch holds for the series [n], stamped [now]. *)
Lemma pushSamples_history `{W : Widgets} samples : forall i (m : Model) n,
  historyOf (pushSamples i samples m) n
  = historyOf m n
    ++ ((mkPoint (lastUpdate m) ∘ Value)
          <$> filter (fun x => FullName x = n) samples).
Proof.
  induction samples as [|s rest IH]; intros i m n; simpl.
  - by rewrite app_nil_r.
  - rewrite IH, pushSample_history.
    destruct (pushSample_frame i s m) as (_ & _ & _ & -> & _).
    rewrite filter_cons. destruct (decide (FullName s = n)); simpl.
    + by rewrite <- app_assoc.
    + by rewrite app_nil_r.
Qed.

Lemma updateMetrics_history `{W : Widgets} now (m : Model) samples n :
  wrongMetric m samples = false ->
  historyOf (updateMetrics now m samples None).1 n
  = historyOf m n
    ++ ((mkPoint now ∘ Value) <$> filter (fun x => FullName x = n) samples).
Proof.
  intros Hg. unfold updateMetrics. cbv zeta.
  replace (wrongMetric (set_lastUpdate now (set_err None m)) samples)
    with (wrongMetric m samples) by by destruct samples.
  rewrite Hg.
  set (m1 := if 0 <? _ then _ else _).
  set (m2 := if _ && _ then _ else m1).
  assert (H2 : lastUpdate m2 = now /\ dataHistory m2 = dataHistory m).
  { subst m2 m1. destruct (0 <? _); simpl.
    - destruct (negb (yRangeSet m)); [|done].
      by destruct (initialRange samples).
    - done. }
  destruct H2 as [Hl Hh].
  set (m3 := pushSamples 0 samples m2).
  assert (H3 : historyOf m3 n
               = historyOf m n
                 ++ ((mkPoint now ∘ Value)
                       <$> filter (fun x => FullName x = n) samples)).
  { subst m3. rewrite pushSamples_history, Hl. unfold historyOf. by rewrite Hh. }
  cbn [fst]. by destruct (negb (seriesSelectMode m3)).
Qed.

Lemma grows_refl `{W : Widgets} (m : Model) : grows m m.
Proof. by repeat split. Qed.

Lemma grows_trans `{W : Widgets} (m1 m2 m3 : Model) :
  grows m1 m2 -> grows m2 m3 -> grows m1 m3.
Proof.
  intros (?&Ha&Hn1&Hc1) (?&Hb&Hn2&Hc2). split; [congruence|].
  split; [intros n; etrans; [apply Ha|apply Hb]|].
  split; etrans; eauto.
Qed.

Lemma sameData_grows `{W : Widgets} (m m' : Model) : sameData m m' -> grows m m'.
Proof.
  intros (H1 & H2 & _ & H3 & _). unfold grows, historyOf.
  by rewrite H1, H2, H3.
Qed.

Lemma updateMetrics_grows `{W : Widgets} now (m : Model) samples e :
  grows m (updateMetrics now m samples e).1.
Proof.
  destruct e as [e|]; [done|].
  destruct (wrongMetric m samples) eqn:Hg.
  { rewrite updateMetrics_discard by done. done. }
  split.
  { destruct samples as [|s rest].
    - unfold updateMetrics. simpl. by destruct (negb (seriesSelectMode m)).
    - by destruct (updateMetrics_accept now m (s :: rest) Hg) as (_&_&_&_&?&_). }
  split.
  { intros n. rewrite updateMetrics_history by done. by eexists. }
  destruct (updateMetrics_registry now m samples None) as (new & -> & _).
  rewrite !fmap_app. split; by eexists.
Qed.

Lemma Update_grows `{W : Widgets} now (m : Model) msg :
  confirmsMetric m msg = false -> grows m (Update now m msg).1.
Proof.
  intros Hc. unfold Update.
  destruct msg as [t|samples e|metrics e|key|w h|tag];
    try apply updateMetrics_grows; try apply grows_refl.
  - destruct (seriesSelectMode m).
    + destruct (updateSeriesSelect_ids m (MetricsListMsg metrics e))
        as (H1 & H2 & _ & _ & H3 & H4 & _).
      unfold grows, historyOf. by rewrite H1, H2, H3, H4.
    + destruct (selectMode m); apply sameData_grows;
        [by apply updateSelect_sameData|apply updateNormal_sameData].
  - simpl in Hc. destruct (seriesSelectMode m).
    + destruct (updateSeriesSelect_ids m (KeyMsg key))
        as (H1 & H2 & _ & _ & H3 & H4 & _).
      unfold grows, historyOf. by rewrite H1, H2, H3, H4.
    + destruct (selectMode m); apply sameData_grows;
        [|apply updateNormal_sameData].
      apply updateSelect_sameData. by destruct (String.eqb key "enter").
  - destruct (seriesSelectMode m).
    + destruct (updateSeriesSelect_ids m (WindowSizeMsg w h))
        as (H1 & H2 & _ & _ & H3 & H4 & _).
      unfold grows, historyOf. by rewrite H1, H2, H3, H4.
    + destruct (selectMode m); apply sameData_grows;
        [by apply updateSelect_sameData|apply updateNormal_sameData].
  - destruct (seriesSelectMode m).
    + destruct (updateSeriesSelect_ids m (OtherMsg tag))
        as (H1 & H2 & _ & _ & H3 & H4 & _).
      unfold grows, historyOf. by rewrite H1, H2, H3, H4.
    + destruct (selectMode m); apply sameData_grows;
        [by apply updateSelect_sameData|apply updateNormal_sameData].
Qed.

Lemma run_grows `{W : Widgets} events : forall m : Model,
  noConfirm m events = true -> grows m (run m events).
Proof.
  unfold run.
  induction events as [|[now msg] rest IH]; intros m Hn; simpl;
    [apply grows_refl|].
  simpl in Hn. apply andb_true_iff in Hn as [Hc Hn].
  apply negb_true_iff in Hc.
  eapply grows_trans; [by apply (Update_grows now)|by apply IH].
Qed.

(** X7.  Over any run of the event loop in which no metric is confirmed
    in the picker, the session only grows: the current metric stays, the
    history of every series is extended at its end and never shortened or
    rewritten, and the registry keeps each name and colour number in place
    while new records come after them; checks alone may change. *)
Theorem run_append_only `{W : Widgets} (m : Model) (events : list (Z * Msg)) :
  noConfirm m events = true ->
  let m' := run m events in
  metricName m' = metricName m
  /\ (forall n, historyOf m n `prefix_of` historyOf m' n)
  /\ (name <$> seriesList m) `prefix_of` (name <$> seriesList m')
  /\ (colorIdx <$> seriesList m) `prefix_of` (colorIdx <$> seriesList m').
Proof. intros Hn. by apply run_grows. Qed.

Lemma run_append_only_witness :
  let m' := run Demo.afterAB
              [ (2, KeyMsg "s"); (3, KeyMsg " "); (4, MetricsMsg Demo.batchABC None);
                (5, KeyMsg "esc"); (6, KeyMsg "r");
                (7, MetricsMsg [] (Some (ErrUnexpectedStatus 500))) ] in
  metricName m' = metricName Demo.afterAB
  /\ (forall n, historyOf Demo.afterAB n `prefix_of` historyOf m' n)
  /\ (name <$> seriesList Demo.afterAB) `prefix_of` (name <$> seriesList m')
  /\ (colorIdx <$> seriesList Demo.afterAB)
       `prefix_of` (colorIdx <$> seriesList m').
Proof. apply (run_append_only Demo.afterAB). vm_compute. reflexivity. Defined.

(** X8.  What an accepted batch does to the history: for every series
    name, the history is the old one followed by one point per sample of
    the batch under that name, in batch order, each stamped with the time
    of the update.  Whether the series is checked plays no part. *)
Theorem batch_appends_history `{W : Widgets}
  (now : Z) (m : Model) (samples : list MetricSample) (n : string) :
  wrongMetric m samples = false ->
  historyOf (Update now m (MetricsMsg samples None)).1 n
  = historyOf m n
    ++ ((mkPoint now ∘ Value) <$> filter (fun x => FullName x = n) samples).
Proof. intros Hg. rewrite Update_metrics. by apply updateMetrics_history. Qed.

Lemma batch_appends_history_witness :
  historyOf (Update 2 Demo.afterAB (MetricsMsg Demo.batchWild None)).1 Demo.seriesB
  = historyOf Demo.afterAB Demo.seriesB
    ++ ((mkPoint 2 ∘ Value)
          <$> filter (fun x => FullName x = Demo.seriesB) Demo.batchWild).
Proof.
  apply (batch_appends_history 2 Demo.afterAB Demo.batchWild Demo.seriesB).
  vm_compute. reflexivity.
Defined.

(** * What holds of every reachable model *)

Lemma dense_colors (sl : list seriesItem) :
  dense sl <-> forall i c, (colorIdx <$> sl) !! i = Some c -> c = Z.of_nat i.
Proof.
  unfold dense. split.
  - intros H i c Hc. rewrite list_lookup_fmap in Hc.
    destruct (sl !! i) as [s|] eqn:E; [|done]. injection Hc as <-. by apply H.
  - intros H i s Hs. apply H. by rewrite list_lookup_fmap, Hs.
Qed.

Lemma dense_same_colors (sl sl' : list seriesItem) :
  colorIdx <$> sl' = colorIdx <$> sl -> dense sl -> dense sl'.
Proof. intros H. rewrite !dense_colors. by rewrite H. Qed.

Lemma maxVisible_floor `{W : Widgets} (m : Model) : 3 <= maxVisible m.
Proof. unfold maxVisible. destruct (Z.ltb_spec (termHeight m - 12) 3); lia. Qed.

Lemma NewModel_consistent `{W : Widgets} url metric interval :
  consistent (NewModel url metric interval).
Proof.
  split; [constructor|]. split; [by intros i s H|].
  split; [|done]. intros n [x Hx]. simpl in Hx. by rewrite lookup_empty in Hx.
Qed.

(** A scrape result leaves the cursor of the series picker alone. *)
Lemma pushSamples_cursor `{W : Widgets} samples : forall i (m : Model),
  let m' := pushSamples i samples m in
  seriesListSelected m' = seriesListSelected m
  /\ seriesListScroll m' = seriesListScroll m
  /\ termHeight m' = termHeight m.
Proof.
  induction samples as [|s rest IH]; intros i m; simpl; [done|].
  destruct (IH (i + 1) (pushSample i s m)) as (-> & -> & ->).
  unfold pushSample. cbv zeta.
  match goal with |- context [let '(_, _) := ?p in _] =>
    destruct p as [isChecked idx] end.
  done.
Qed.

Lemma updateMetrics_cursor `{W : Widgets} now (m : Model) samples e :
  let m' := (updateMetrics now m samples e).1 in
  seriesSelectMode m' = seriesSelectMode m
  /\ seriesListSelected m' = seriesListSelected m
  /\ seriesListScroll m' = seriesListScroll m
  /\ termHeight m' = termHeight m.
Proof.
  destruct e as [e|]; [done|].
  unfold updateMetrics. cbv zeta.
  destruct (wrongMetric _ samples); [done|].
  set (m1 := if 0 <? _ then _ else _).
  set (m2 := if _ && _ then _ else m1).
  assert (H2 : seriesSelectMode m2 = seriesSelectMode m
               /\ seriesListSelected m2 = seriesListSelected m
               /\ seriesListScroll m2 = seriesListScroll m
               /\ termHeight m2 = termHeight m).
  { subst m2 m1. destruct (0 <? _); simpl; [|done].
    destruct (negb (yRangeSet m)); [|done]. by destruct (initialRange samples). }
  destruct H2 as (A1 & A2 & A3 & A4).
  destruct (pushSamples_cursor samples 0 m2) as (B2 & B3 & B4).
  destruct (pushSamples_frame samples 0 m2) as (_ & B1 & _).
  set (m3 := pushSamples 0 samples m2) in *. cbn [fst].
  destruct (negb (seriesSelectMode m3)); simpl; repeat split; congruence.
Qed.

(** The series that get a history are those of the batch. *)
Lemma pushSamples_keys `{W : Widgets} samples : forall i (m : Model) n,
  is_Some (dataHistory (pushSamples i samples m) !! n) ->
  is_Some (dataHistory m !! n) \/ n ∈ FullName <$> samples.
Proof.
  induction samples as [|s rest IH]; intros i m n H; simpl in *; [by left|].
  apply IH in H as [H|H]; [|right; by right].
  revert H. unfold pushSample. cbv zeta.
  match goal with |- context [let '(_, _) := ?p in _] =>
    destruct p as [isChecked idx] end.
  simpl. destruct (decide (FullName s = n)) as [->|Hne].
  - intros _. right. by left.
  - rewrite lookup_insert_ne by done. by left.
Qed.

Lemma updateMetrics_keys `{W : Widgets} now (m : Model) samples n :
  wrongMetric m samples = false ->
  is_Some (dataHistory (updateMetrics now m samples None).1 !! n) ->
  is_Some (dataHistory m !! n) \/ n ∈ FullName <$> samples.
Proof.
  intros Hg. unfold updateMetrics. cbv zeta.
  replace (wrongMetric (set_lastUpdate now (set_err None m)) samples)
    with (wrongMetric m samples) by by destruct samples.
  rewrite Hg.
  set (m1 := if 0 <? _ then _ else _).
  set (m2 := if _ && _ then _ else m1).
  assert (H2 : dataHistory m2 = dataHistory m).
  { subst m2 m1. destruct (0 <? _); simpl; [|done].
    destruct (negb (yRangeSet m)); [|done]. by destruct (initialRange samples). }
  set (m3 := pushSamples 0 samples m2). cbn [fst].
  replace (dataHistory (if negb (seriesSelectMode m3)
                        then addCalls [timeserieslinechart.DrawAll] m3 else m3))
    with (dataHistory m3) by by destruct (negb (seriesSelectMode m3)).
  intros H. apply pushSamples_keys in H. by rewrite H2 in H.
Qed.

Lemma updateMetrics_consistent `{W : Widgets} now (m : Model) samples e :
  consistent m -> consistent (updateMetrics now m samples e).1.
Proof.
  intros (Hn & Hd & Hk & Hc).
  destruct e as [e|]; [done|].
  destruct (wrongMetric m samples) eqn:Hg.
  { by rewrite updateMetrics_discard. }
  destruct (updateMetrics_cursor now m samples None) as (C1 & C2 & C3 & C4).
  destruct (reconcile_adds (seriesList m) samples) as (new & Hr & Ha).
  assert (Hs : seriesList (updateMetrics now m samples None).1
               = seriesList m ++ new).
  { destruct samples as [|s rest].
    - destruct (updateMetrics_empty now m) as (-> & _).
      destruct Ha as (_ & _ & _ & Hin & _).
      destruct new as [|t new]; [by rewrite app_nil_r|].
      destruct (Hin t) as [_ Ht]; [by left|]. by apply elem_of_nil in Ht.
    - destruct (updateMetrics_accept now m (s :: rest) Hg) as (-> & _); done. }
  split; [rewrite Hs; by eapply adds_NoDup|].
  split; [rewrite Hs; by eapply adds_dense|].
  split.
  - intros n H. apply (updateMetrics_keys now m samples n Hg) in H as [H|H].
    + rewrite Hs, fmap_app, elem_of_app. left. by apply Hk.
    + rewrite Hs. apply list_elem_of_fmap in H as (x & -> & Hx).
      destruct Ha as (_ & _ & _ & _ & Hall & _). by apply Hall.
  - unfold maxVisible. rewrite C1, C2, C3, C4, Hs. intros Hm.
    destruct (Hc Hm) as (H1 & H2 & H3). fold (maxVisible m).
    rewrite length_app. repeat split; try lia.
Qed.

Lemma length_same_names (sl sl' : list seriesItem) :
  name <$> sl' = name <$> sl -> length sl' = length sl.
Proof. intros H. apply (f_equal length) in H. by rewrite !length_fmap in H. Qed.

Lemma updateSeriesSelect_consistent `{W : Widgets} (m : Model) msg :
  seriesSelectMode m = true ->
  consistent m -> consistent (updateSeriesSelect m msg).1.
Proof.
  intros Hm (Hn & Hd & Hk & Hc).
  destruct (updateSeriesSelect_ids m msg) as (_ & H2 & _ & _ & H3 & H4 & H5).
  split; [by rewrite H3|]. split; [by eapply dense_same_colors|].
  split; [by rewrite H2, H3|].
  destruct (Hc Hm) as (B1 & B2 & B3).
  pose proof (maxVisible_floor m) as Hmv.
  rewrite (length_same_names _ _ H3).
  assert (Hmv' : maxVisible (updateSeriesSelect m msg).1 = maxVisible m)
    by (unfold maxVisible; by rewrite H5).
  rewrite Hmv'. clear Hmv' H2 H3 H4 H5.
  unfold updateSeriesSelect. destruct msg; try done.
  repeat case_match; cbn [fst]; simpl; try done; intros _;
    repeat match goal with
           | H : (_ <? _) = true |- _ => apply Z.ltb_lt in H
           | H : (_ <? _) = false |- _ => apply Z.ltb_ge in H
           | H : (_ <=? _) = true |- _ => apply Z.leb_le in H
           | H : (_ <=? _) = false |- _ => apply Z.leb_gt in H
           end; simpl in *; try lia;
    change (maxVisible (set_seriesListSelected (seriesListSelected m + 1) m))
      with (maxVisible m) in *; lia.
Qed.

Lemma sameData_consistent `{W : Widgets} (m m' : Model) :
  sameData m m' -> seriesSelectMode m' = false ->
  consistent m -> consistent m'.
Proof.
  intros (_ & H2 & _ & H3 & _) Hm (Hn & Hd & Hk & _).
  unfold consistent. rewrite H2, H3, Hm. by repeat split.
Qed.

Lemma passToList_mode `{W : Widgets} (m : Model) msg :
  seriesSelectMode (passToList m msg).1 = seriesSelectMode m.
Proof. unfold passToList. by destruct (list_Update msg (metricsList m)). Qed.

Lemma legendTail_mode `{W : Widgets} (m : Model) msg :
  let m' := (legendTail m msg).1 in
  seriesSelectMode m' = seriesSelectMode m
  /\ seriesListSelected m' = seriesListSelected m
  /\ seriesListScroll m' = seriesListScroll m.
Proof.
  unfold legendTail. destruct (showLegend m); [|done].
  by destruct (viewport_Update msg (legendViewport m)).
Qed.

Lemma resizeChart_mode `{W : Widgets} (m : Model) :
  seriesSelectMode (resizeChart m) = seriesSelectMode m.
Proof.
  unfold resizeChart. destruct (_ || _); [done|]. cbv zeta.
  unfold updateLegendViewportSize.
  destruct (_ || _); simpl; destruct (negb (showLegend m)); try done;
    by destruct (legendInnerDimensions _).
Qed.

Lemma updateSelect_enter_consistent `{W : Widgets} (m : Model) :
  seriesSelectMode m = false ->
  consistent m -> consistent (updateSelect m (KeyMsg "enter")).1.
Proof.
  intros Hm Hc.
  unfold updateSelect. simpl String.eqb. cbv iota.
  destruct (list_SelectedItem (metricsList m)) as [i|]; cbv zeta; cbn [fst].
  - split; [constructor|]. split; [by intros j s H|].
    split; [|simpl; by rewrite Hm].
    intros n [x Hx]. simpl in Hx. by rewrite lookup_empty in Hx.
  - apply (sameData_consistent m); [done|by simpl|done].
Qed.

Lemma updateSelect_mode `{W : Widgets} (m : Model) msg :
  seriesSelectMode (updateSelect m msg).1 = seriesSelectMode m.
Proof.
  unfold updateSelect. destruct msg; try (by rewrite passToList_mode).
  - by destruct Err.
  - repeat case_match; try done; try (by rewrite passToList_mode).
Qed.

Lemma updateSelect_consistent `{W : Widgets} (m : Model) msg :
  seriesSelectMode m = false ->
  consistent m -> consistent (updateSelect m msg).1.
Proof.
  intros Hm Hc.
  assert (Hother :
    match msg with KeyMsg key => String.eqb key "enter" = false | _ => True end ->
    consistent (updateSelect m msg).1).
  { intros Hk. apply (sameData_consistent m); [|by rewrite updateSelect_mode|done].
    by apply updateSelect_sameData. }
  destruct msg; try by apply Hother.
  destruct (String.eqb_spec key "enter") as [->|Hne].
  - by apply updateSelect_enter_consistent.
  - by apply Hother.
Qed.

Lemma updateNormal_s_consistent `{W : Widgets} (m : Model) :
  seriesSelectMode m = false ->
  consistent m -> consistent (updateNormal m (KeyMsg "s")).1.
Proof.
  intros Hm Hc.
  unfold updateNormal. simpl String.eqb. cbn [orb]. cbv iota.
  destruct (0 <? size (dataHistory m))%nat eqn:Hs.
  - destruct Hc as (Hn & Hd & Hk & _).
    set (m1 := set_seriesListScroll 0 _).
    destruct (legendTail_mode m1 (KeyMsg "s")) as (L1 & L2 & L3).
    destruct (legendTail_sameData m1 (KeyMsg "s")) as (_ & D2 & _ & D3 & _).
    assert (Ht : termHeight (legendTail m1 (KeyMsg "s")).1 = termHeight m).
    { unfold legendTail. destruct (showLegend m1); [|done].
      by destruct (viewport_Update _ _). }
    unfold consistent, maxVisible. rewrite D2, D3, L1, L2, L3, Ht.
    split; [done|]. split; [done|]. split; [done|]. intros _. simpl.
    fold (maxVisible m). pose proof (maxVisible_floor m).
    assert (exists n, is_Some (dataHistory m !! n)) as [n Hn'].
    { apply Nat.ltb_lt in Hs.
      destruct (map_to_list (dataHistory m)) as [|[k v] l] eqn:E.
      - apply map_to_list_empty_iff in E. rewrite E in Hs.
        rewrite map_size_empty in Hs. lia.
      - exists k. exists v. apply elem_of_map_to_list. rewrite E. by left. }
    apply Hk, list_elem_of_fmap in Hn' as (s & _ & Hin).
    destruct (seriesList m); [by apply elem_of_nil in Hin|]. simpl. lia.
  - apply (sameData_consistent m); [apply legendTail_sameData| |done].
    by destruct (legendTail_mode m (KeyMsg "s")) as (-> & _).
Qed.

Lemma updateNormal_mode `{W : Widgets} (m : Model) msg :
  match msg with KeyMsg key => String.eqb key "s" = false | _ => True end ->
  seriesSelectMode (updateNormal m msg).1 = seriesSelectMode m.
Proof.
  intros Hk. unfold updateNormal.
  destruct msg; cbv zeta; simpl in Hk;
    repeat case_match; try done; try congruence;
    match goal with |- context [legendTail ?x ?y] =>
      destruct (legendTail_mode x y) as (-> & _) end;
    rewrite ?resizeChart_mode; done.
Qed.

Lemma updateNormal_consistent `{W : Widgets} (m : Model) msg :
  seriesSelectMode m = false ->
  consistent m -> consistent (updateNormal m msg).1.
Proof.
  intros Hm Hc.
  assert (Hother :
    match msg with KeyMsg key => String.eqb key "s" = false | _ => True end ->
    consistent (updateNormal m msg).1).
  { intros Hk. apply (sameData_consistent m); [apply updateNormal_sameData| |done].
    by rewrite updateNormal_mode. }
  destruct msg; try by apply Hother.
  destruct (String.eqb_spec key "s") as [->|Hne].
  - by apply updateNormal_s_consistent.
  - by apply Hother.
Qed.

Lemma Update_consistent `{W : Widgets} now (m : Model) msg :
  consistent m -> consistent (Update now m msg).1.
Proof.
  intros Hc. unfold Update.
  destruct msg as [t|samples e|metrics e|key|w h|tag]; try done;
    try (by apply updateMetrics_consistent);
    (destruct (seriesSelectMode m) eqn:Hm;
     [by apply updateSeriesSelect_consistent|];
     destruct (selectMode m);
     [by apply updateSelect_consistent|by apply updateNormal_consistent]).
Qed.

Lemma run_consistent `{W : Widgets} events : forall m : Model,
  consistent m -> consistent (run m events).
Proof.
  unfold run. induction events as [|[now msg] rest IH]; intros m Hc; [done|].
  simpl. by apply IH, Update_consistent.
Qed.

(** X9.  In every model the program can reach from [NewModel], by any
    sequence of messages, the registry lists every name once, its records
    are numbered 0, 1, 2, ... by position, and every series that has a
    history has its record in the registry. *)
Theorem reachable_registry_sound `{W : Widgets}
  (url metric : string) (interval : Z) (events : list (Z * Msg)) :
  let m := run (NewModel url metric interval) events in
  NoDup (name <$> seriesList m)
  /\ dense (seriesList m)
  /\ forall n, is_Some (dataHistory m !! n) -> n ∈ name <$> seriesList m.
Proof.
  destruct (run_consistent events _ (NewModel_consistent url metric interval))
    as (H1 & H2 & H3 & _).
  done.
Qed.

(** X10.  In every reachable model in which the series picker is open the
    cursor is on a record of the registry (so the toggle key always finds
    its record), and the cursor lies in the scroll window, whose height is
    at least three rows. *)
Theorem reachable_cursor_in_window `{W : Widgets}
  (url metric : string) (interval : Z) (events : list (Z * Msg)) :
  let m := run (NewModel url metric interval) events in
  seriesSelectMode m = true ->
  0 <= seriesListSelected m < Z.of_nat (length (seriesList m))
  /\ 0 <= seriesListScroll m <= seriesListSelected m
  /\ seriesListSelected m < seriesListScroll m + maxVisible m
  /\ 3 <= maxVisible m.
Proof.
  destruct (run_consistent events _ (NewModel_consistent url metric interval))
    as (_ & _ & _ & H).
  intros m Hm. destruct (H Hm) as (? & ? & ?).
  repeat (split; [done|]). apply maxVisible_floor.
Qed.

Lemma reachable_cursor_in_window_witness :
  let m := run (NewModel "http://host/metrics" "temp" 2)
             [ (1, WindowSizeMsg 80 16); (2, MetricsMsg Demo.batchABC None);
               (3, KeyMsg "s"); (4, KeyMsg "down"); (5, KeyMsg "down");
               (6, KeyMsg "down"); (7, KeyMsg "up") ] in
  0 <= seriesListSelected m < Z.of_nat (length (seriesList m))
  /\ 0 <= seriesListScroll m <= seriesListSelected m
  /\ seriesListSelected m < seriesListScroll m + maxVisible m
  /\ 3 <= maxVisible m.
Proof.
  apply (reachable_cursor_in_window "http://host/metrics" "temp" 2).
  vm_compute. reflexivity.
Defined.

(** * What the chart is told *)

Lemma pushedTo_app n cs1 cs2 :
  pushedTo n (cs1 ++ cs2) = pushedTo n cs1 ++ pushedTo n cs2.
Proof. apply omap_app. Qed.

Lemma pushedTo_push n d (data : list TimePoint) :
  pushedTo n (map (timeserieslinechart.PushDataSet d) data)
  = if decide (d = n) then data else [].
Proof.
  unfold pushedTo. destruct (decide (d = n)) as [E|E].
  - induction data as [|p data IH]; [done|].
    cbn. rewrite decide_True by done. cbn. f_equal. exact IH.
  - induction data as [|p data IH]; [done|].
    cbn. rewrite decide_False by done. exact IH.
Qed.

Lemma findSeries_name sl n s : findSeries sl n = Some s -> name s = n.
Proof.
  induction sl as [|t sl IH]; simpl; [done|].
  destruct (String.eqb_spec (name t) n); [|done].
  intros E. by injection E as <-.
Qed.

Lemma findSeries_None sl n : findSeries sl n = None <-> n ∉ name <$> sl.
Proof.
  induction sl as [|t sl IH]; simpl.
  - split; [intros _ H; by apply elem_of_nil in H|done].
  - destruct (String.eqb_spec (name t) n) as [<-|Hne].
    + split; [done|]. intros H. exfalso. apply H. left.
    + rewrite IH. rewrite not_elem_of_cons.
      split; [intros H; split; [congruence|done]|by intros [_ H]].
Qed.

(** The calls one sample makes. *)
Lemma pushSample_chart `{W : Widgets} i sample (m : Model) :
  exists idx,
    chart (pushSample i sample m)
    = chart m
      ++ [ timeserieslinechart.SetDataSetStyle (FullName sample) (colorAt idx);
           timeserieslinechart.SetDataSetLineStyle (FullName sample) ]
      ++ (if (if 0 <? Z.of_nat (length (seriesList m))
              then visible (seriesList m) (FullName sample) else true)
          then [ timeserieslinechart.PushDataSet (FullName sample)
                   (mkPoint (lastUpdate m) (Value sample)) ]
          else []).
Proof.
  unfold pushSample, visible. cbv zeta.
  change (seriesList (set_lastValues _ m)) with (seriesList m).
  change (lastUpdate (set_lastValues _ m)) with (lastUpdate m).
  destruct (0 <? Z.of_nat (length (seriesList m))); [|by eexists].
  destruct (findSeries (seriesList m) (FullName sample)); by eexists.
Qed.

(** One sample: the chart is pushed the point when the series is shown. *)
Lemma pushSample_pushed `{W : Widgets} i sample (m : Model) n :
  seriesList m <> [] ->
  pushedTo n (chart (pushSample i sample m))
  = pushedTo n (chart m)
    ++ (if visible (seriesList m) n
        then pointsOf (lastUpdate m) n [sample] else []).
Proof.
  intros Hne. destruct (pushSample_chart i sample m) as (idx & ->).
  rewrite (nonempty_length _ Hne), pushedTo_app. f_equal.
  unfold pointsOf. rewrite filter_cons, filter_nil.
  destruct (decide (FullName sample = n)) as [<-|Hn].
  - destruct (visible _ _); [|done].
    unfold pushedTo. cbn. by rewrite decide_True.
  - destruct (visible (seriesList m) (FullName sample));
      unfold pushedTo; cbn; rewrite ?decide_False by done;
      by destruct (visible _ _).
Qed.

Lemma pushSamples_pushed `{W : Widgets} samples : forall i (m : Model) n,
  seriesList m <> [] ->
  pushedTo n (chart (pushSamples i samples m))
  = pushedTo n (chart m)
    ++ (if visible (seriesList m) n
        then pointsOf (lastUpdate m) n samples else []).
Proof.
  induction samples as [|s rest IH]; intros i m n Hne; simpl.
  - unfold pointsOf. rewrite filter_nil. simpl.
    destruct (visible _ _); by rewrite app_nil_r.
  - destruct (pushSample_frame i s m) as (Hsl & _ & _ & Hl & _).
    rewrite IH; [|by rewrite Hsl].
    rewrite pushSample_pushed, Hsl, Hl; [|done].
    destruct (visible (seriesList m) n); [|by rewrite !app_nil_r].
    rewrite <- app_assoc. f_equal. unfold pointsOf.
    rewrite (filter_cons _ s rest), (filter_cons _ s []), filter_nil.
    by destruct (decide (FullName s = n)).
Qed.

Lemma reconcile_nonempty sl samples : samples <> [] -> reconcile sl samples <> [].
Proof.
  intros Hne. destruct (reconcile_adds sl samples) as (new & -> & Ha).
  destruct samples as [|x rest]; [done|].
  destruct Ha as (_ & _ & _ & _ & Hall & _).
  specialize (Hall x (ltac:(by left))).
  intros E. rewrite E in Hall. by apply elem_of_nil in Hall.
Qed.

(** X11.  What an accepted batch pushes to the chart: for every series
    name, exactly the points the batch holds for it when the registry, as
    it stands after the batch, shows the series, and nothing when the
    series is hidden or unknown. *)
Theorem batch_pushes_visible `{W : Widgets}
  (now : Z) (m : Model) (samples : list MetricSample) (n : string) :
  wrongMetric m samples = false ->
  let m' := (Update now m (MetricsMsg samples None)).1 in
  pushedTo n (chart m')
  = pushedTo n (chart m)
    ++ (if visible (seriesList m') n then pointsOf now n samples else []).
Proof.
  intros Hg. cbv zeta. rewrite Update_metrics.
  destruct samples as [|s0 rest].
  { unfold updateMetrics, pointsOf. simpl.
    destruct (negb (seriesSelectMode m)); simpl;
      rewrite ?pushedTo_app; simpl; destruct (visible _ _);
      by rewrite ?app_nil_r. }
  destruct (updateMetrics_accept now m (s0 :: rest) Hg) as (Hsl & _); [done|].
  rewrite Hsl. clear Hsl.
  unfold updateMetrics. cbv zeta.
  replace (wrongMetric (set_lastUpdate now (set_err None m)) (s0 :: rest))
    with (wrongMetric m (s0 :: rest)) by done.
  rewrite Hg, (nonempty_length (s0 :: rest)) by done. cbn [andb].
  set (m1 := set_seriesList _ _).
  set (m2 := if negb (yRangeSet m1) then _ else m1).
  assert (H2 : seriesList m2 = reconcile (seriesList m) (s0 :: rest)
               /\ lastUpdate m2 = now
               /\ pushedTo n (chart m2) = pushedTo n (chart m)).
  { subst m2 m1. destruct (negb (yRangeSet _)); [|done].
    destruct (initialRange (s0 :: rest)). simpl.
    repeat split. by rewrite pushedTo_app, app_nil_r. }
  destruct H2 as (A1 & A2 & A3).
  assert (Hne : seriesList m2 <> [])
    by (rewrite A1; by apply reconcile_nonempty).
  pose proof (pushSamples_pushed (s0 :: rest) 0 m2 n Hne) as H3.
  rewrite A1, A2, A3 in H3.
  set (m3 := pushSamples 0 (s0 :: rest) m2) in *. cbn [fst].
  destruct (negb (seriesSelectMode m3)); [|done].
  simpl. by rewrite pushedTo_app, H3, app_nil_r.
Qed.

Lemma batch_pushes_visible_witness :
  let m := run Demo.afterAB [ (2, KeyMsg "s"); (3, KeyMsg " "); (4, KeyMsg "enter") ] in
  let m' := (Update 5 m (MetricsMsg Demo.batchABC None)).1 in
  pushedTo Demo.seriesA (chart m')
  = pushedTo Demo.seriesA (chart m)
    ++ (if visible (seriesList m') Demo.seriesA
        then pointsOf 5 Demo.seriesA Demo.batchABC else []).
Proof.
  apply (batch_pushes_visible 5
           (run Demo.afterAB
              [ (2, KeyMsg "s"); (3, KeyMsg " "); (4, KeyMsg "enter") ])
           Demo.batchABC Demo.seriesA).
  vm_compute. reflexivity.
Defined.

(** * Redrawing after the series picker *)

Lemma visible_cons t sl n :
  visible (t :: sl) n
  = if String.eqb (name t) n then checked t else visible sl n.
Proof. unfold visible. simpl. by destruct (String.eqb (name t) n). Qed.

Lemma visible_unknown sl n : n ∉ name <$> sl -> visible sl n = false.
Proof.
  intros H. unfold visible.
  by rewrite (proj2 (findSeries_None sl n) H).
Qed.

Lemma redrawSeries_pushed `{W : Widgets} (m : Model) s n :
  pushedTo n (redrawSeries m s)
  = if String.eqb (name s) n && checked s then historyOf m n else [].
Proof.
  unfold redrawSeries, historyOf.
  destruct (String.eqb_spec (name s) n) as [<-|Hne]; simpl.
  - destruct (checked s); simpl; [|done].
    destruct (dataHistory m !! name s) as [data|]; simpl; [|done].
    change (pushedTo (name s)
              ([ timeserieslinechart.SetDataSetStyle (name s)
                   (colorAt (Z.rem (colorIdx s) paletteSize));
                 timeserieslinechart.SetDataSetLineStyle (name s) ]
               ++ map (timeserieslinechart.PushDataSet (name s)) data) = data).
    rewrite pushedTo_app, pushedTo_push. by rewrite decide_True.
  - destruct (checked s); simpl; [|done].
    destruct (dataHistory m !! name s) as [data|]; simpl; [|done].
    change (pushedTo n
              ([ timeserieslinechart.SetDataSetStyle (name s)
                   (colorAt (Z.rem (colorIdx s) paletteSize));
                 timeserieslinechart.SetDataSetLineStyle (name s) ]
               ++ map (timeserieslinechart.PushDataSet (name s)) data) = []).
    rewrite pushedTo_app, pushedTo_push. by rewrite decide_False.
Qed.

Lemma redrawSeries_data `{W : Widgets} (m : Model) s :
  Forall (fun c => isDataCall c = true) (redrawSeries m s).
Proof.
  unfold redrawSeries. destruct (checked s); simpl; [|done].
  destruct (dataHistory m !! name s) as [data|]; [|done].
  repeat constructor. induction data; by constructor.
Qed.

Lemma redraw_body_pushed `{W : Widgets} (m : Model) sl n :
  NoDup (name <$> sl) ->
  pushedTo n (concat (map (redrawSeries m) sl))
  = if visible sl n then historyOf m n else [].
Proof.
  induction sl as [|t sl IH]; [done|].
  rewrite fmap_cons, NoDup_cons. intros [Hnot Hnd].
  simpl. rewrite pushedTo_app, redrawSeries_pushed, visible_cons, (IH Hnd).
  destruct (String.eqb_spec (name t) n) as [<-|Hne]; simpl.
  - rewrite (visible_unknown _ _ Hnot). by rewrite app_nil_r.
  - done.
Qed.

Lemma redrawChart_chart `{W : Widgets} (m : Model) :
  chart (redrawChart m)
  = chart m ++ [ timeserieslinechart.ClearAllData; timeserieslinechart.Clear; timeserieslinechart.DrawXYAxisAndLabel ]
    ++ concat (map (redrawSeries m) (seriesList m)) ++ [ timeserieslinechart.DrawAll ].
Proof. unfold redrawChart, addCalls. simpl. by rewrite <- !app_assoc. Qed.

(** X12.  Leaving the series picker with enter, in any session the event
    loop can reach: the chart is cleared, then given, for every series the
    registry shows, its whole history in order, and nothing for a hidden
    series; only style and push calls come between the clearing and the
    final [DrawAll]; the picker is closed. *)
Theorem enter_redraws_visible `{W : Widgets}
  (url metric : string) (interval : Z) (events : list (Z * Msg)) (now : Z) :
  let m := run (NewModel url metric interval) events in
  seriesSelectMode m = true ->
  let m' := (Update now m (KeyMsg "enter")).1 in
  exists body,
    chart m'
    = chart m ++ [ timeserieslinechart.ClearAllData; timeserieslinechart.Clear; timeserieslinechart.DrawXYAxisAndLabel ]
      ++ body ++ [ timeserieslinechart.DrawAll ]
    /\ Forall (fun c => isDataCall c = true) body
    /\ (forall n, pushedTo n body
                  = if visible (seriesList m) n then historyOf m n else [])
    /\ seriesSelectMode m' = false
    /\ sameData m m'.
Proof.
  intros m Hm m'.
  destruct (run_consistent events _ (NewModel_consistent url metric interval))
    as (Hnd & _).
  fold m in Hnd.
  assert (Hm' : m' = rebuildLegend (redrawChart (set_seriesSelectMode false m))).
  { subst m'. unfold Update. by rewrite Hm. }
  exists (concat (map (redrawSeries m) (seriesList m))).
  rewrite Hm'. split; [|split; [|split; [|split]]].
  - change (chart (rebuildLegend (redrawChart (set_seriesSelectMode false m))))
      with (chart (redrawChart (set_seriesSelectMode false m))).
    by rewrite redrawChart_chart.
  - clear Hnd. induction (seriesList m) as [|s sl IH]; [done|].
    simpl. apply Forall_app. split; [apply redrawSeries_data|exact IH].
  - intros n. by apply redraw_body_pushed.
  - done.
  - done.
Qed.

Lemma enter_redraws_visible_witness :
  let m := run (NewModel "http://host/metrics" "temp" 2)
             [ (1, MetricsMsg Demo.batchABC None); (2, KeyMsg "s");
               (3, KeyMsg " "); (4, MetricsMsg Demo.batchABC None) ] in
  let m' := (Update 5 m (KeyMsg "enter")).1 in
  exists body,
    chart m'
    = chart m ++ [ timeserieslinechart.ClearAllData; timeserieslinechart.Clear; timeserieslinechart.DrawXYAxisAndLabel ]
      ++ body ++ [ timeserieslinechart.DrawAll ]
    /\ Forall (fun c => isDataCall c = true) body
    /\ (forall n, pushedTo n body
                  = if visible (seriesList m) n then historyOf m n else [])
    /\ seriesSelectMode m' = false
    /\ sameData m m'.
Proof.
  apply (enter_redraws_visible "http://host/metrics" "temp" 2
           [ (1, MetricsMsg Demo.batchABC None); (2, KeyMsg "s");
             (3, KeyMsg " "); (4, MetricsMsg Demo.batchABC None) ] 5).
  vm_compute. reflexivity.
Defined.

(** * The legend and the palette *)

Lemma sliceFrom_cons a s i :
  0 <= i -> sliceFrom (String a s) (i + 1) = sliceFrom s i.
Proof.
  intros Hi. unfold sliceFrom.
  replace (Z.to_nat (i + 1)) with (S (Z.to_nat i)) by lia. done.
Qed.

Lemma substring_all s : String.substring 0 (String.length s) s = s.
Proof. induction s as [|a s IH]; [done|]. simpl. by rewrite IH. Qed.

Lemma sliceFrom_IndexByte s c :
  IndexByte s c <> -1 -> exists t, sliceFrom s (IndexByte s c) = String c t.
Proof.
  induction s as [|a s IH]; [done|]. simpl.
  destruct (Ascii.eqb_spec a c) as [->|Hne].
  - intros _. exists s. unfold sliceFrom. simpl. by rewrite substring_all.
  - destruct (Z.eqb_spec (IndexByte s c) (-1)) as [|Hi]; [done|].
    intros _. destruct (IndexByte_range s c) as [|Hr]; [done|].
    rewrite sliceFrom_cons by lia. by apply IH.
Qed.

Lemma length_sliceTo s i :
  0 <= i <= Z.of_nat (String.length s) ->
  Z.of_nat (String.length (sliceTo s i)) = i.
Proof.
  unfold sliceTo. intros Hi.
  assert (H : forall (n : nat) t, (n <= String.length t)%nat ->
              String.length (String.substring 0 n t) = n).
  { induction n as [|n IHn]; intros [|b t] Hn; simpl in *; try done; try lia.
    rewrite IHn; [done|lia]. }
  rewrite H; lia.
Qed.

Lemma length_app_string s t :
  String.length (s +:+ t) = (String.length s + String.length t)%nat.
Proof. induction s as [|a s IH]; [done|]. rewrite app_cons. simpl. by rewrite IH. Qed.

Lemma HasPrefix_brace t : HasPrefix (String lbrace t) "{" = true.
Proof. unfold HasPrefix. simpl. by destruct t. Qed.

(** The label of a legend entry. *)
Lemma legendEntry_label `{W : Widgets} (m : Model) s c l :
  (c, l) ∈ legendEntry m s ->
  inLegend m s
  /\ c = colorOf s
  /\ Z.of_nat (String.length l) <= 30
  /\ HasPrefix l "{" = true.
Proof.
  unfold legendEntry, inLegend. destruct (checked s); simpl; [|by intros H%elem_of_nil].
  destruct (dataHistory m !! name s) as [d|]; [|by intros H%elem_of_nil].
  cbv zeta. intros H%list_elem_of_singleton. injection H as -> ->.
  split; [by split|]. split; [done|].
  set (lab := if negb (IndexByte (name s) lbrace =? -1)
              then sliceFrom (name s) (IndexByte (name s) lbrace) else "{}").
  assert (Hlab : exists t, lab = String lbrace t).
  { subst lab. destruct (Z.eqb_spec (IndexByte (name s) lbrace) (-1)); simpl.
    - by exists "}".
    - by apply sliceFrom_IndexByte. }
  destruct Hlab as (t & Ht).
  destruct (Z.ltb_spec 30 (Z.of_nat (String.length lab))) as [Hlong|Hshort].
  - split.
    + rewrite length_app_string, Nat2Z.inj_add, length_sliceTo by lia.
      simpl. lia.
    + rewrite Ht. unfold sliceTo. change (Z.to_nat 27) with 27%nat.
      cbn [String.substring]. rewrite app_cons.
      apply HasPrefix_brace.
  - split; [done|]. rewrite Ht.
    apply HasPrefix_brace.
Qed.

Lemma NoDup_seriesColors : NoDup seriesColors.
Proof. apply (bool_decide_unpack _). by vm_compute. Qed.

Lemma colorOf_lookup (sl : list seriesItem) i s :
  dense sl -> sl !! i = Some s ->
  seriesColors !! (i mod 32)%nat = Some (colorOf s).
Proof.
  intros Hd Hs. unfold colorOf, colorAt. rewrite (Hd i s Hs).
  assert (Hlt : (i mod 32 < length seriesColors)%nat).
  { change (length seriesColors) with 32%nat. apply Nat.mod_upper_bound. lia. }
  replace (Z.to_nat (Z.rem (Z.of_nat i) paletteSize)) with (i mod 32)%nat.
  - by apply list_lookup_lookup_total_lt.
  - change paletteSize with 32. rewrite Z.rem_mod_nonneg by lia.
    rewrite <- (Nat2Z.id (i mod 32)) at 1. f_equal.
    by rewrite Nat2Z.inj_mod.
Qed.

Lemma legend_content `{W : Widgets} (m : Model) :
  dense (seriesList m) ->
  let content := concat (map (legendEntry m) (seriesList m)) in
  content.*1 = colorOf <$> filter (inLegend m) (seriesList m)
  /\ Forall (fun c => c ∈ seriesColors) content.*1
  /\ Forall (fun l => Z.of_nat (String.length l) <= 30
                      /\ HasPrefix l "{" = true) content.*2.
Proof.
  intros Hd. cbv zeta.
  assert (H1 : (concat (map (legendEntry m) (seriesList m))).*1
               = colorOf <$> filter (inLegend m) (seriesList m)).
  { clear Hd. induction (seriesList m) as [|s sl IH]; [done|].
    simpl. rewrite fmap_app, IH, filter_cons.
    destruct (decide (inLegend m s)) as [[Hc [d Hd]]|Hn].
    + unfold legendEntry. by rewrite Hc, Hd.
    + unfold legendEntry, inLegend in *.
      destruct (checked s); simpl; [|done].
      destruct (dataHistory m !! name s); [|done].
      exfalso. apply Hn. by split. }
  split; [exact H1|]. split.
  - rewrite H1. apply Forall_fmap, Forall_forall. intros s Hs. simpl.
    apply list_elem_of_filter in Hs as [_ Hs].
    apply list_elem_of_lookup in Hs as [i Hi].
    eapply list_elem_of_lookup_2. by apply (colorOf_lookup _ i s Hd).
  - apply Forall_fmap, Forall_forall. intros [c l] Hcl. simpl.
    assert (exists s, (c, l) ∈ legendEntry m s) as (s & Hs).
    { clear Hd H1. induction (seriesList m) as [|s sl IH]; simpl in Hcl.
      - by apply elem_of_nil in Hcl.
      - apply elem_of_app in Hcl as [H|H]; [by exists s|by apply IH]. }
    by destruct (legendEntry_label m s c l Hs) as (_ & _ & ? & ?).
Qed.

(** X13.  The legend that [rebuildLegend] hands to the viewport, in any
    session the event loop can reach: one entry for each series that is
    checked and has a history, in registry order, in the colour the chart
    draws the series in, which is one of the palette; every label begins
    with an opening brace and is at most 30 characters long (a longer
    label set is cut to 27 characters and three dots). *)
Theorem legend_entries `{W : Widgets}
  (url metric : string) (interval : Z) (events : list (Z * Msg)) :
  let m := run (NewModel url metric interval) events in
  exists content,
    rebuildLegend m
    = set_legendViewport (viewport_SetContent content (legendViewport m)) m
    /\ content.*1 = colorOf <$> filter (inLegend m) (seriesList m)
    /\ Forall (fun c => c ∈ seriesColors) content.*1
    /\ Forall (fun l => Z.of_nat (String.length l) <= 30
                        /\ HasPrefix l "{" = true) content.*2.
Proof.
  intros m.
  destruct (run_consistent events _ (NewModel_consistent url metric interval))
    as (_ & Hd & _).
  exists (concat (map (legendEntry m) (seriesList m))).
  split; [done|]. by apply legend_content.
Qed.

(** X14.  Colours of the registry: two series are drawn in the same colour
    exactly when their positions differ by a multiple of the palette size,
    32; so the first 32 series get pairwise distinct colours and the 33rd
    reuses the colour of the first. *)
Theorem colors_repeat_every_32 (sl : list seriesItem) (i j : nat)
  (s t : seriesItem) :
  dense sl -> sl !! i = Some s -> sl !! j = Some t ->
  colorOf s ∈ seriesColors
  /\ (colorOf s = colorOf t <-> (i mod 32 = j mod 32)%nat).
Proof.
  intros Hd Hs Ht.
  pose proof (colorOf_lookup sl i s Hd Hs) as Hi.
  pose proof (colorOf_lookup sl j t Hd Ht) as Hj.
  split; [by eapply list_elem_of_lookup_2|]. split.
  - intros E. rewrite <- E in Hj.
    by apply (NoDup_lookup _ _ _ _ NoDup_seriesColors Hi Hj).
  - intros E. rewrite E in Hi. congruence.
Qed.

Lemma colors_repeat_every_32_witness :
  colorOf (mkSeries Demo.seriesA true 0) ∈ seriesColors
  /\ (colorOf (mkSeries Demo.seriesA true 0) = colorOf (mkSeries Demo.seriesC true 2)
      <-> (0 mod 32 = 2 mod 32)%nat).
Proof.
  apply (colors_repeat_every_32
           [ mkSeries Demo.seriesA true 0; mkSeries Demo.seriesB true 1;
             mkSeries Demo.seriesC true 2 ] 0 2).
  - intros [|[|[|i]]] s; simpl; intros E; try done; by injection E as <-.
  - reflexivity.
  - reflexivity.
Defined.

(** * The size of the chart *)

Lemma chartSize_app_other c cs :
  Forall (fun c => isSizeCall c = false) cs ->
  chartSize (c ++ cs) = chartSize c.
Proof.
  intros H. unfold chartSize. rewrite fold_left_app. generalize (fold_left
    (fun r call =>
       match call with
       | timeserieslinechart.New w h
       | timeserieslinechart.Resize w h => Some (w, h)
       | _ => r
       end) c None).
  induction H as [|x cs Hx _ IH]; intros r; [done|].
  simpl. rewrite IH. by destruct x.
Qed.

Lemma sizeFrame_refl `{W : Widgets} (m : Model) : sizeFrame m m.
Proof.
  repeat split. exists []. split; [by rewrite app_nil_r|constructor].
Qed.

Lemma sizeFrame_trans `{W : Widgets} (m1 m2 m3 : Model) :
  sizeFrame m1 m2 -> sizeFrame m2 m3 -> sizeFrame m1 m3.
Proof.
  intros (A1 & A2 & cs & A3 & A4) (B1 & B2 & ds & B3 & B4).
  split; [congruence|]. split; [congruence|].
  exists (cs ++ ds). split.
  - by rewrite B3, A3, app_assoc.
  - by apply Forall_app.
Qed.

Lemma sizeFrame_same `{W : Widgets} (m m' : Model) :
  width m' = width m -> height m' = height m -> chart m' = chart m ->
  sizeFrame m m'.
Proof.
  intros H1 H2 H3. split; [done|]. split; [done|].
  exists []. split; [by rewrite app_nil_r|constructor].
Qed.

Lemma sizeFrame_addCalls `{W : Widgets} (m : Model) cs :
  Forall (fun c => isSizeCall c = false) cs -> sizeFrame m (addCalls cs m).
Proof. intros H. repeat split. by exists cs. Qed.

Lemma sized_frame `{W : Widgets} (m m' : Model) :
  sized m -> sizeFrame m m' -> sized m'.
Proof.
  intros (H1 & H2 & H3) (A1 & A2 & cs & A3 & A4).
  unfold sized. rewrite A1, A2, A3, chartSize_app_other; done.
Qed.

Lemma isDataCall_noSize cs :
  Forall (fun c => isDataCall c = true) cs ->
  Forall (fun c => isSizeCall c = false) cs.
Proof. intros H. eapply Forall_impl; [exact H|]. by intros []. Qed.

Lemma sizeFrame_pushSample `{W : Widgets} i s (m : Model) :
  sizeFrame m (pushSample i s m).
Proof.
  destruct (pushSample_chart i s m) as (idx & Hc).
  split; [|split].
  - unfold pushSample. cbv zeta.
    match goal with |- context [let '(_, _) := ?p in _] => by destruct p end.
  - unfold pushSample. cbv zeta.
    match goal with |- context [let '(_, _) := ?p in _] => by destruct p end.
  - eexists. split; [exact Hc|].
    destruct (if 0 <? _ then _ else _); by repeat constructor.
Qed.

Lemma sizeFrame_pushSamples `{W : Widgets} samples : forall i (m : Model),
  sizeFrame m (pushSamples i samples m).
Proof.
  induction samples as [|s rest IH]; intros i m; simpl.
  - apply sizeFrame_refl.
  - eapply sizeFrame_trans; [apply sizeFrame_pushSample|apply IH].
Qed.

Lemma sizeFrame_updateMetrics `{W : Widgets} now (m : Model) samples e :
  sizeFrame m (updateMetrics now m samples e).1.
Proof.
  unfold updateMetrics. destruct e as [e|]; [by apply sizeFrame_same|].
  cbv zeta. destruct (wrongMetric _ _); [by apply sizeFrame_same|].
  cbn [fst].
  set (m1 := if 0 <? Z.of_nat (length samples) then _ else _).
  assert (F1 : sizeFrame m m1)
    by (subst m1; destruct (0 <? _); by apply sizeFrame_same).
  set (m2 := if (0 <? Z.of_nat (length samples)) && negb (yRangeSet m1)
             then _ else m1).
  assert (F2 : sizeFrame m1 m2).
  { subst m2. destruct (_ && _); [|apply sizeFrame_refl].
    destruct (initialRange samples) as [lo hi].
    split; [done|]. split; [done|]. eexists. split; [done|].
    by repeat constructor. }
  set (m3 := pushSamples 0 samples m2).
  assert (F3 : sizeFrame m2 m3) by apply sizeFrame_pushSamples.
  eapply sizeFrame_trans; [exact F1|].
  eapply sizeFrame_trans; [exact F2|].
  eapply sizeFrame_trans; [exact F3|].
  destruct (negb (seriesSelectMode m3)); [|apply sizeFrame_refl].
  apply sizeFrame_addCalls. by repeat constructor.
Qed.

Lemma sizeFrame_redrawChart `{W : Widgets} (m : Model) :
  sizeFrame m (redrawChart m).
Proof.
  split; [done|]. split; [done|]. eexists. split; [apply redrawChart_chart|].
  apply Forall_app. split; [by repeat constructor|].
  apply Forall_app. split; [|by repeat constructor].
  induction (seriesList m) as [|s sl IH]; [constructor|].
  simpl. apply Forall_app. split; [|exact IH].
  apply isDataCall_noSize, redrawSeries_data.
Qed.

Lemma sizeFrame_legendTail `{W : Widgets} (m : Model) msg :
  sizeFrame m (legendTail m msg).1.
Proof.
  unfold legendTail. destruct (showLegend m); [|apply sizeFrame_refl].
  destruct (viewport_Update msg (legendViewport m)). by apply sizeFrame_same.
Qed.

Lemma sizeFrame_passToList `{W : Widgets} (m : Model) msg :
  sizeFrame m (passToList m msg).1.
Proof.
  unfold passToList. destruct (list_Update msg (metricsList m)).
  by apply sizeFrame_same.
Qed.

Lemma sizeFrame_updateSeriesSelect `{W : Widgets} (m : Model) msg :
  sizeFrame m (updateSeriesSelect m msg).1.
Proof.
  unfold updateSeriesSelect. destruct msg as [| | |key| |];
    try apply sizeFrame_refl.
  repeat match goal with
         | |- context [if ?b then _ else _] => destruct b
         end; try apply sizeFrame_refl; try (by apply sizeFrame_same).
  change (sizeFrame m (rebuildLegend (redrawChart (set_seriesSelectMode false m)))).
  destruct (sizeFrame_redrawChart (set_seriesSelectMode false m))
    as (H1 & H2 & cs & H3 & H4).
  split; [exact H1|]. split; [exact H2|]. by exists cs.
Qed.

Lemma sized_resized `{W : Widgets} (m : Model) cw ch d :
  40 <= cw -> 10 <= ch -> isSizeCall d = false ->
  sized (addCalls [ timeserieslinechart.Resize cw ch;
                    timeserieslinechart.DrawXYAxisAndLabel; d ]
           (set_height ch (set_width cw m))).
Proof.
  intros Hw Hh Hd. split; [|by split]. simpl.
  unfold chartSize. rewrite fold_left_app. simpl. by destruct d.
Qed.

Lemma sized_legendSize `{W : Widgets} (m : Model) :
  sized m -> sized (updateLegendViewportSize m).
Proof.
  intros Hs. unfold updateLegendViewportSize.
  destruct (negb (showLegend m)); [done|].
  by destruct (legendInnerDimensions (height m)).
Qed.

Lemma floor_ok (x lo : Z) : lo <= (if x <? lo then lo else x).
Proof. destruct (Z.ltb_spec x lo); lia. Qed.

Lemma sized_resizeChart `{W : Widgets} (m : Model) :
  sized m -> sized (resizeChart m).
Proof.
  intros Hs. unfold resizeChart.
  destruct (_ || _); [done|]. cbv zeta.
  apply sized_legendSize.
  destruct (_ || _); [|done].
  apply sized_resized; [apply floor_ok|apply floor_ok|].
  by destruct (size _ <=? 1)%nat.
Qed.

Lemma sized_rebuildLegend `{W : Widgets} (m : Model) :
  sized m -> sized (rebuildLegend m).
Proof. done. Qed.

Lemma sized_updateSelect `{W : Widgets} (m : Model) msg :
  sized m -> sized (updateSelect m msg).1.
Proof.
  intros Hs. unfold updateSelect.
  destruct msg as [| |metrics e|key| |];
    try (eapply sized_frame; [exact Hs|apply sizeFrame_passToList]).
  - by destruct e.
  - destruct (String.eqb key "enter").
    + cbv zeta. cbn [fst].
      destruct (list_SelectedItem (metricsList m)) as [i|]; [|done].
      destruct Hs as (_ & ? & ?). by split.
    + destruct (String.eqb key "ctrl+c"); [done|].
      destruct (_ && _); [done|].
      eapply sized_frame; [exact Hs|apply sizeFrame_passToList].
Qed.

Lemma sized_updateNormal `{W : Widgets} (m : Model) msg :
  sized m -> sized (updateNormal m msg).1.
Proof.
  intros Hs. unfold updateNormal.
  destruct msg as [| | |key|w h|];
    try (eapply sized_frame; [exact Hs|apply sizeFrame_legendTail]).
  - destruct (_ || _); [done|].
    destruct (String.eqb key "m"); [done|].
    destruct (String.eqb key "l").
    { eapply sized_frame; [|apply sizeFrame_legendTail].
      by apply sized_resizeChart. }
    destruct (String.eqb key "s").
    { eapply sized_frame; [|apply sizeFrame_legendTail].
      by destruct (0 <? size (dataHistory m))%nat. }
    destruct (String.eqb key "r").
    { eapply sized_frame; [exact Hs|].
      apply sizeFrame_addCalls. by repeat constructor. }
    eapply sized_frame; [exact Hs|apply sizeFrame_legendTail].
  - cbv zeta. eapply sized_frame; [|apply sizeFrame_legendTail].
    destruct (negb _); [by apply sized_resizeChart|done].
Qed.

Lemma Update_sized `{W : Widgets} now (m : Model) msg :
  sized m -> sized (Update now m msg).1.
Proof.
  intros Hs. unfold Update.
  destruct msg as [t|samples e|metrics e|key|w h|tag]; try done;
    try (eapply sized_frame; [exact Hs|apply sizeFrame_updateMetrics]);
    (destruct (seriesSelectMode m);
     [eapply sized_frame; [exact Hs|apply sizeFrame_updateSeriesSelect]|];
     destruct (selectMode m);
     [by apply sized_updateSelect|by apply sized_updateNormal]).
Qed.

(** X15.  In every model the event loop can reach, the fields [width] and
    [height] are the size the chart widget was last given (by [New] or
    [Resize]), the width is at least 40 and the height at least 10. *)
Theorem reachable_chart_size `{W : Widgets}
  (url metric : string) (interval : Z) (events : list (Z * Msg)) :
  let m := run (NewModel url metric interval) events in
  chartSize (chart m) = Some (width m, height m)
  /\ 40 <= width m /\ 10 <= height m.
Proof.
  cbv zeta. change (sized (run (NewModel url metric interval) events)).
  assert (H0 : sized (NewModel url metric interval))
    by (split; [done|split; simpl; lia]).
  revert H0. generalize (NewModel url metric interval).
  unfold run. induction events as [|[now msg] rest IH]; intros m Hs; [done|].
  simpl. by apply IH, Update_sized.
Qed.

(** * Window size, and the keys that quit *)

Lemma floor_max (x lo : Z) : (if x <? lo then lo else x) = Z.max lo x.
Proof. destruct (Z.ltb_spec x lo); lia. Qed.

Lemma resizeChart_spec `{W : Widgets} (m : Model) :
  termWidth m <> 0 -> termHeight m <> 0 ->
  let cw := Z.max 40 (termWidth m - 6 - (if showLegend m then 38 else 0)) in
  let ch := Z.max 10 (termHeight m - (if err m is Some _ then 11 else 9)) in
  let m' := resizeChart m in
  width m' = cw /\ height m' = ch
  /\ termWidth m' = termWidth m /\ termHeight m' = termHeight m
  /\ err m' = err m /\ showLegend m' = showLegend m
  /\ selectMode m' = selectMode m /\ seriesSelectMode m' = seriesSelectMode m
  /\ sameData m m'
  /\ (width m = cw -> height m = ch -> chart m' = chart m).
Proof.
  intros Hw Hh. cbv zeta. unfold resizeChart.
  destruct (Z.eqb_spec (termWidth m) 0) as [|_]; [done|].
  destruct (Z.eqb_spec (termHeight m) 0) as [|_]; [done|].
  cbn [orb]. cbv zeta. rewrite !floor_max.
  replace (if showLegend m then termWidth m - 6 - 38 else termWidth m - 6)
    with (termWidth m - 6 - (if showLegend m then 38 else 0))
    by (destruct (showLegend m); lia).
  replace (termHeight m - (if err m is Some _ then 9 + 2 else 9))
    with (termHeight m - (if err m is Some _ then 11 else 9))
    by (by destruct (err m)).
  set (cw := Z.max 40 _). set (ch := Z.max 10 _).
  unfold updateLegendViewportSize.
  destruct (Z.eqb_spec cw (width m)) as [Ew|Ew];
    destruct (Z.eqb_spec ch (height m)) as [Eh|Eh]; cbn [negb orb];
    match goal with
    | |- context [if negb (showLegend ?x) then _ else _] =>
        destruct (negb (showLegend x));
        try destruct (legendInnerDimensions (height x))
    end; simpl; repeat (split; [done|]); try done; intros; congruence.
Qed.

Lemma legendTail_frame `{W : Widgets} (m : Model) msg :
  let m' := (legendTail m msg).1 in
  width m' = width m /\ height m' = height m
  /\ termWidth m' = termWidth m /\ termHeight m' = termHeight m
  /\ err m' = err m /\ showLegend m' = showLegend m
  /\ selectMode m' = selectMode m /\ seriesSelectMode m' = seriesSelectMode m
  /\ sameData m m' /\ chart m' = chart m.
Proof.
  unfold legendTail. destruct (showLegend m) eqn:E.
  - destruct (viewport_Update msg (legendViewport m)). simpl.
    repeat (split; [done|]). done.
  - simpl. repeat (split; [done|]). done.
Qed.

(** X16.  A window-size message in normal mode, for a window that is not
    empty: the terminal size is recorded; the chart gets the width left
    after 6 columns of frame and, when the legend is shown, 38 of legend,
    and the height left after 9 rows of header and footer, 11 when an
    error is shown, but never less than 40 by 10; the data are untouched;
    and a second message with the same size makes no call on the chart. *)
Theorem window_size_normal `{W : Widgets}
  (now now' : Z) (m : Model) (w h : Z) :
  seriesSelectMode m = false -> selectMode m = false ->
  w <> 0 -> h <> 0 ->
  let m' := (Update now m (WindowSizeMsg w h)).1 in
  termWidth m' = w /\ termHeight m' = h
  /\ width m' = Z.max 40 (w - 6 - (if showLegend m then 38 else 0))
  /\ height m' = Z.max 10 (h - (if err m is Some _ then 11 else 9))
  /\ sameData m m'
  /\ chart (Update now' m' (WindowSizeMsg w h)).1 = chart m'.
Proof.
  intros Hs Hp Hw Hh.
  assert (step : forall x : Model,
            seriesSelectMode x = false -> selectMode x = false ->
            (Update now x (WindowSizeMsg w h)).1
            = (legendTail (resizeChart (set_termHeight h (set_termWidth w x)))
                 (WindowSizeMsg w h)).1
            /\ (Update now' x (WindowSizeMsg w h)).1
               = (legendTail (resizeChart (set_termHeight h (set_termWidth w x)))
                    (WindowSizeMsg w h)).1).
  { intros x H1 H2. unfold Update, updateNormal. rewrite H1, H2. cbv zeta.
    change (selectMode (set_termHeight h (set_termWidth w x)))
      with (selectMode x). by rewrite H2. }
  cbv zeta. rewrite (proj1 (step m Hs Hp)).
  set (m0 := set_termHeight h (set_termWidth w m)).
  destruct (resizeChart_spec m0 Hw Hh)
    as (R1 & R2 & R3 & R4 & R5 & R6 & R7 & R8 & R9 & _).
  destruct (legendTail_frame (resizeChart m0) (WindowSizeMsg w h))
    as (L1 & L2 & L3 & L4 & L5 & L6 & L7 & L8 & L9 & L10).
  set (m1 := (legendTail (resizeChart m0) (WindowSizeMsg w h)).1) in *.
  split; [by rewrite L3, R3|]. split; [by rewrite L4, R4|].
  split; [by rewrite L1, R1|]. split; [by rewrite L2, R2|].
  split.
  { destruct R9 as (a1 & a2 & a3 & a4 & a5), L9 as (b1 & b2 & b3 & b4 & b5).
    split; [by rewrite b1, a1|]. split; [by rewrite b2, a2|].
    split; [by rewrite b3, a3|]. split; [by rewrite b4, a4|].
    by rewrite b5, a5. }
  assert (Hs1 : seriesSelectMode m1 = false) by (by rewrite L8, R8).
  assert (Hp1 : selectMode m1 = false) by (by rewrite L7, R7).
  rewrite (proj2 (step m1 Hs1 Hp1)).
  set (m2 := set_termHeight h (set_termWidth w m1)).
  destruct (resizeChart_spec m2 Hw Hh) as (_ & _ & _ & _ & _ & _ & _ & _ & _ & Q).
  destruct (legendTail_frame (resizeChart m2) (WindowSizeMsg w h))
    as (_ & _ & _ & _ & _ & _ & _ & _ & _ & ->).
  apply Q.
  - change (width m1 = Z.max 40 (w - 6 - (if showLegend m1 then 38 else 0))).
    rewrite L1, R1, L6, R6. done.
  - change (height m1 = Z.max 10 (h - (if err m1 is Some _ then 11 else 9))).
    rewrite L2, R2, L5, R5. done.
Qed.

Lemma window_size_normal_witness :
  let m' := (Update 2 Demo.afterAB (WindowSizeMsg 30 40)).1 in
  termWidth m' = 30 /\ termHeight m' = 40
  /\ width m' = Z.max 40 (30 - 6 - (if showLegend Demo.afterAB then 38 else 0))
  /\ height m' = Z.max 10 (40 - (if err Demo.afterAB is Some _ then 11 else 9))
  /\ sameData Demo.afterAB m'
  /\ chart (Update 3 m' (WindowSizeMsg 30 40)).1 = chart m'.
Proof.
  apply (window_size_normal 2 3 Demo.afterAB 30 40);
    [vm_compute; reflexivity|vm_compute; reflexivity|lia|lia].
Defined.

(** X17.  While either picker is open a window-size message reaches
    neither [termWidth] and [termHeight] nor the chart: the chart keeps its
    size and is given no call; the series picker ignores the message
    altogether. *)
Theorem window_size_in_pickers `{W : Widgets}
  (now : Z) (m : Model) (w h : Z) :
  seriesSelectMode m = true \/ selectMode m = true ->
  let m' := (Update now m (WindowSizeMsg w h)).1 in
  termWidth m' = termWidth m /\ termHeight m' = termHeight m
  /\ width m' = width m /\ height m' = height m
  /\ chart m' = chart m
  /\ (seriesSelectMode m = true -> m' = m).
Proof.
  intros Hmode. cbv zeta. unfold Update.
  destruct (seriesSelectMode m) eqn:Hs; [done|].
  destruct Hmode as [|Hp]; [done|]. rewrite Hp.
  unfold updateSelect, passToList.
  by destruct (list_Update (WindowSizeMsg w h) (metricsList m)).
Qed.

Lemma window_size_in_pickers_witness :
  let m' := (Update 4 Demo.picking (WindowSizeMsg 200 60)).1 in
  termWidth m' = termWidth Demo.picking /\ termHeight m' = termHeight Demo.picking
  /\ width m' = width Demo.picking /\ height m' = height Demo.picking
  /\ chart m' = chart Demo.picking
  /\ (seriesSelectMode Demo.picking = true -> m' = Demo.picking).
Proof.
  apply (window_size_in_pickers 4 Demo.picking 200 60).
  right. vm_compute. reflexivity.
Defined.

(** X18.  The keys that quit: ctrl+c quits in every mode and leaves the
    model alone; q quits in normal mode, while in the series picker it
    only closes the picker. *)
Theorem quit_keys `{W : Widgets} (now : Z) (m : Model) :
  Update now m (KeyMsg "ctrl+c") = (m, Quit)
  /\ (seriesSelectMode m = false -> selectMode m = false ->
      Update now m (KeyMsg "q") = (m, Quit))
  /\ (seriesSelectMode m = true ->
      Update now m (KeyMsg "q") = (set_seriesSelectMode false m, nilCmd)).
Proof.
  unfold Update.
  destruct (seriesSelectMode m); [by repeat split|].
  destruct (selectMode m); by repeat split.
Qed.

(** * Scrapes as the commands deliver them *)

Lemma fetched_samples ParseFloat resp metric samples :
  MainGo.fetchAllMetricSeries ParseFloat resp metric = inl samples ->
  samples <> [] /\ Forall (sampleOf metric) samples.
Proof.
  intros H.
  pose proof (main_fetch_contract ParseFloat resp metric) as Hf.
  rewrite H in Hf. destruct Hf as (body & _ & -> & Hne).
  split; [done|]. apply Forall_forall. intros s Hs.
  apply list_elem_of_omap in Hs as (line & _ & Hl).
  by apply (main_line_sampleOf ParseFloat metric line).
Qed.

Lemma fetched_guard `{W : Widgets} ParseFloat resp (m : Model) metric samples :
  MainGo.fetchAllMetricSeries ParseFloat resp metric = inl samples ->
  wrongMetric m samples = negb (String.eqb metric (metricName m)).
Proof.
  intros H. destruct (fetched_samples _ _ _ _ H) as (Hne & Hall).
  destruct samples as [|s rest]; [done|].
  apply Forall_cons in Hall as [[Hb _] _]. simpl. by rewrite Hb.
Qed.

(** X19.  A scrape of the metric the session shows, as [fetchMetricCmd]
    delivers it, is never taken for a stale one: when the fetch succeeds
    the batch passes the guard, the error is cleared and the registry lists
    every series of the batch; when it fails the model only records the
    error. *)
Theorem fresh_scrape_accepted `{W : Widgets}
  (ParseFloat : string -> option float) (now : Z) (m : Model)
  (resp : HttpResult) :
  let out := Update now m (fetchMetricMsg ParseFloat resp (metricName m)) in
  match MainGo.fetchAllMetricSeries ParseFloat resp (metricName m) with
  | inl samples =>
      wrongMetric m samples = false
      /\ err out.1 = None /\ lastUpdate out.1 = now
      /\ seriesList out.1 = reconcile (seriesList m) samples
      /\ (forall s, s ∈ samples -> FullName s ∈ name <$> seriesList out.1)
  | inr e => out = (set_err (Some e) m, nilCmd)
  end.
Proof.
  cbv zeta. unfold fetchMetricMsg.
  destruct (MainGo.fetchAllMetricSeries ParseFloat resp (metricName m))
    as [samples|e] eqn:E; [|done].
  pose proof (fetched_guard ParseFloat resp m _ _ E) as Hg.
  rewrite String.eqb_refl in Hg. simpl in Hg.
  destruct (fetched_samples _ _ _ _ E) as (Hne & _).
  rewrite Update_metrics.
  destruct (updateMetrics_accept now m samples Hg Hne)
    as (H1 & _ & H3 & H4 & _).
  split; [done|]. split; [done|]. split; [done|]. split; [done|].
  rewrite H1. destruct (reconcile_adds (seriesList m) samples) as (new & -> & Ha).
  by destruct Ha as (_ & _ & _ & _ & Hall & _).
Qed.

Lemma switched `{W : Widgets} now (m : Model) new :
  seriesSelectMode m = false -> selectMode m = true ->
  list_SelectedItem (metricsList m) = Some new ->
  let m1 := (Update now m (KeyMsg "enter")).1 in
  metricName m1 = new /\ dataHistory m1 = ∅ /\ lastValues m1 = ∅
  /\ seriesList m1 = [] /\ yRangeSet m1 = false /\ err m1 = None
  /\ chart m1 = [ timeserieslinechart.New (width m) (height m);
                  timeserieslinechart.DrawXYAxisAndLabel ]
  /\ selectMode m1 = false /\ seriesSelectMode m1 = false.
Proof.
  intros Hs Hp Hi. cbv zeta. unfold Update. rewrite Hs, Hp.
  unfold updateSelect. simpl String.eqb. cbv iota zeta. rewrite Hi.
  by repeat split.
Qed.

(** X20.  After the picker has switched to another metric, a scrape of the
    former metric that arrives late adds no data: metric, history, last
    values, registry, range lock and chart stay as the switch left them.
    Its error, however, is not filtered: a late failure is recorded as the
    session's error. *)
Theorem stale_scrape_after_switch `{W : Widgets}
  (ParseFloat : string -> option float) (now1 now2 : Z) (m : Model)
  (new : string) (resp : HttpResult) :
  seriesSelectMode m = false -> selectMode m = true ->
  list_SelectedItem (metricsList m) = Some new ->
  new <> metricName m ->
  let m1 := (Update now1 m (KeyMsg "enter")).1 in
  let m2 := (Update now2 m1 (fetchMetricMsg ParseFloat resp (metricName m))).1 in
  sameData m1 m2 /\ chart m2 = chart m1
  /\ metricName m2 = new /\ dataHistory m2 = ∅ /\ seriesList m2 = []
  /\ err m2 = match MainGo.fetchAllMetricSeries ParseFloat resp (metricName m) with
              | inl _ => None
              | inr e => Some e
              end.
Proof.
  intros Hs Hp Hi Hne.
  destruct (switched now1 m new Hs Hp Hi)
    as (S1 & S2 & S3 & S4 & S5 & S6 & S7 & _).
  cbv zeta. set (m1 := (Update now1 m (KeyMsg "enter")).1) in *.
  unfold fetchMetricMsg.
  destruct (MainGo.fetchAllMetricSeries ParseFloat resp (metricName m))
    as [samples|e] eqn:E.
  - pose proof (fetched_guard ParseFloat resp m1 _ _ E) as Hg.
    rewrite S1 in Hg.
    destruct (String.eqb_spec (metricName m) new) as [|_]; [done|].
    simpl in Hg. rewrite Update_metrics, (updateMetrics_discard _ _ _ Hg).
    simpl. by repeat split.
  - rewrite Update_metrics. simpl. by repeat split.
Qed.

Lemma stale_scrape_after_switch_witness :
  let resp := HttpResp 200 [ "temp{room=a} 5"; "load{cpu=0} 7" ] in
  let m1 := (Update 4 Demo.picking (KeyMsg "enter")).1 in
  let m2 := (Update 5 m1
               (fetchMetricMsg ParseFloat_plain resp
                  (metricName Demo.picking))).1 in
  sameData m1 m2 /\ chart m2 = chart m1
  /\ metricName m2 = "load" /\ dataHistory m2 = ∅ /\ seriesList m2 = []
  /\ err m2 = match MainGo.fetchAllMetricSeries ParseFloat_plain resp
                      (metricName Demo.picking) with
              | inl _ => None
              | inr e => Some e
              end.
Proof.
  apply (stale_scrape_after_switch ParseFloat_plain 4 5 Demo.picking "load"
           (HttpResp 200 [ "temp{room=a} 5"; "load{cpu=0} 7" ]));
    [vm_compute; reflexivity|vm_compute; reflexivity|vm_compute; reflexivity|].
  vm_compute. intros E. discriminate E.
Defined.

(** * The start of the program *)

Lemma sorted_head_least (names : list string) (n : string) :
  Sorted String.le names -> n ∈ names ->
  String.le (names !!! 0%nat) n.
Proof.
  intros Hs Hn. apply Sorted_StronglySorted in Hs; [|apply _].
  destruct names as [|a rest]; [by apply elem_of_nil in Hn|].
  simpl. apply StronglySorted_inv in Hs as [_ Hall].
  apply elem_of_cons in Hn as [->|Hn]; [done|].
  by apply (proj1 (Forall_forall _ _) Hall).
Qed.

(** X21.  Without the metric flag [runApp] starts the session on the least
    of the discovered names -- a name whose fetch, on the same response,
    succeeds -- and fails before any model is made exactly when discovery
    fails or finds no name.  With the flag the name is taken as given and
    no discovery is made. *)
Theorem runApp_selects_least `{W : Widgets}
  (ParseFloat : string -> option float) (intervalFlag : Z)
  (resp : HttpResult) (url : string) :
  match runApp ParseFloat "" intervalFlag resp url with
  | inl m =>
      m = NewModel url (metricName m) intervalFlag
      /\ exists names,
           MainGo.fetchAllMetrics ParseFloat resp = inl names
           /\ metricName m ∈ names
           /\ (forall n, n ∈ names -> String.le (metricName m) n)
           /\ exists samples,
                MainGo.fetchAllMetricSeries ParseFloat resp (metricName m)
                = inl samples
  | inr ErrNoMetrics => MainGo.fetchAllMetrics ParseFloat resp = inl []
  | inr (ErrFetchingMetrics e) =>
      MainGo.fetchAllMetrics ParseFloat resp = inr e
  end
  /\ forall flag, flag <> "" ->
       runApp ParseFloat flag intervalFlag resp url
       = inl (NewModel url flag intervalFlag).
Proof.
  split.
  - unfold runApp. simpl String.eqb. cbv iota zeta.
    pose proof (main_discover_contract ParseFloat resp) as Hd.
    destruct (MainGo.fetchAllMetrics ParseFloat resp) as [names|e] eqn:E;
      [|done].
    destruct names as [|a rest]; [done|]. cbn [length Nat.eqb].
    split; [done|]. exists (a :: rest). split; [done|].
    destruct Hd as (body & -> & Hsort & _ & Hm).
    split; [by left|]. split.
    + intros n Hn. by apply (sorted_head_least (a :: rest) n).
    + assert (Ha : a ∈ a :: rest) by by left.
      apply Hm in Ha as (line & Hline & Hname).
      pose proof (main_fetch_contract ParseFloat (HttpResp StatusOK body) a)
        as Hf.
      destruct (MainGo.fetchAllMetricSeries ParseFloat (HttpResp StatusOK body) a)
        as [samples|e'] eqn:E'; [by eexists|].
      exfalso.
      destruct Hf as [(c & ? & _)|[(c & b & Hr & Hc & _)|(b & Hr & Ho & _)]].
      * done.
      * by injection Hr as <- <-.
      * injection Hr as <-.
        assert (Hsome : omap (MainGo.seriesOfLine ParseFloat a) body <> []).
        { apply omap_nonempty. exists line. split; [done|].
          rewrite main_seriesOfLine_rule. apply name_iff_series.
          by rewrite <- main_nameOfLine_rule. }
        done.
  - intros flag Hflag. unfold runApp.
    by destruct (String.eqb_spec flag "").
Qed.

(** * Floats: [abs] and the range of an all-zero batch *)

Lemma isZero_cases v : isZero v -> v = 0%float \/ v = (-0)%float.
Proof.
  unfold isZero. rewrite FloatAxioms.eqb_spec. intros H.
  rewrite <- (FloatAxioms.SF2Prim_Prim2SF v).
  destruct (Prim2SF v) as [[|]|s| |s mant e]; simpl in H.
  - by right.
  - by left.
  - by destruct s.
  - done.
  - by destruct s.
Qed.

Lemma minMax_zero samples : forall a b,
  Forall (fun s => isZero (Value s)) samples -> isZero a -> isZero b ->
  isZero (fold_left minMaxStep samples (a, b)).1
  /\ isZero (fold_left minMaxStep samples (a, b)).2.
Proof.
  induction samples as [|s rest IH]; intros a b Hall Ha Hb; [done|].
  apply Forall_cons in Hall as [Hs Hrest]. simpl.
  unfold minMaxStep at 2. simpl.
  apply IH; [done| |].
  - by destruct (_ <? _)%float.
  - by destruct (_ <? _)%float.
Qed.

Lemma initialRange_zero samples :
  samples <> [] -> Forall (fun s => isZero (Value s)) samples ->
  initialRange samples = ((-1)%float, 1%float).
Proof.
  intros Hne Hall. unfold initialRange. cbv zeta.
  assert (H0 : isZero (Value (samples !!! 0%nat))).
  { destruct samples as [|s rest]; [done|]. by apply Forall_cons in Hall as [? _]. }
  destruct (minMax_zero samples _ _ Hall H0 H0) as [Hmin Hmax].
  destruct (fold_left minMaxStep samples _) as [mn mx]. simpl in Hmin, Hmax.
  destruct (isZero_cases mn Hmin) as [->| ->],
           (isZero_cases mx Hmax) as [->| ->]; vm_compute; reflexivity.
Qed.

(** X22.  The first non-empty batch of a session in which every value is
    zero (of either sign): the range given to the chart is [-1, 1]. *)
Theorem zero_batch_range `{W : Widgets}
  (now : Z) (m : Model) (samples : list MetricSample) :
  yRangeSet m = false -> wrongMetric m samples = false -> samples <> [] ->
  Forall (fun s => isZero (Value s)) samples ->
  timeserieslinechart.yRange (chart (Update now m (MetricsMsg samples None)).1)
  = Some ((-1)%float, 1%float).
Proof.
  intros Hy Hg Hne Hall. rewrite Update_metrics.
  destruct (updateMetrics_accept now m samples Hg Hne)
    as (_ & _ & _ & _ & _ & _ & Hc).
  destruct (Hc Hy) as (cs & Hq & ->).
  rewrite (initialRange_zero samples Hne Hall). simpl fst. simpl snd.
  by apply yRange_set.
Qed.

Lemma zero_batch_range_witness :
  timeserieslinechart.yRange
    (chart (Update 1 Demo.started
              (MetricsMsg [ mkSample Demo.seriesA 0; mkSample Demo.seriesB (-0) ]
                 None)).1)
  = Some ((-1)%float, 1%float).
Proof.
  apply (zero_batch_range 1 Demo.started
           [ mkSample Demo.seriesA 0; mkSample Demo.seriesB (-0) ]).
  - reflexivity.
  - vm_compute. reflexivity.
  - intros E. discriminate E.
  - repeat constructor.
Defined.

(** X23.  [abs] never answers a number below zero, and applying it twice
    is applying it once. *)
Theorem abs_not_negative (x : float) :
  (abs x <? 0)%float = false /\ abs (abs x) = abs x.
Proof.
  assert (H : (abs x <? 0)%float = false).
  { unfold abs. destruct (x <? 0)%float eqn:E; [|exact E].
    rewrite FloatAxioms.ltb_spec in *. rewrite FloatAxioms.opp_spec.
    destruct (Prim2SF x) as [s|s| |s mant e]; try done.
    - by destruct s.
    - by destruct s. }
  split; [exact H|]. unfold abs at 1. by rewrite H.
Qed.

(** * Opening the metric picker; drawing while the series picker is open *)

(** X24.  Opening the metric picker from normal mode: the key m asks for
    the discovery; when its answer arrives with names, the picker is open
    on exactly these names, which are sorted and distinct; when discovery
    failed, the picker is closed again, the error is recorded, and the
    data and the chart are as they were. *)
Theorem open_picker `{W : Widgets}
  (ParseFloat : string -> option float) (now1 now2 : Z) (m : Model)
  (resp : HttpResult) :
  seriesSelectMode m = false -> selectMode m = false ->
  let out1 := Update now1 m (KeyMsg "m") in
  let m2 := (Update now2 out1.1 (fetchAllMetricsMsg ParseFloat resp)).1 in
  out1.2 = fetchAllMetricsCmd (url m)
  /\ sameData m m2 /\ chart m2 = chart m
  /\ match MainGo.fetchAllMetrics ParseFloat resp with
     | inl names =>
         selectMode m2 = true
         /\ metricsList m2 = list_SetItems names (metricsList m)
         /\ err m2 = err m
         /\ Sorted String.le names /\ NoDup names
     | inr e =>
         selectMode m2 = false /\ err m2 = Some e
         /\ metricsList m2 = metricsList m
         /\ isEndpointError e = true
     end.
Proof.
  intros Hs Hp. cbv zeta.
  assert (H1 : Update now1 m (KeyMsg "m")
               = (set_selectMode true m, fetchAllMetricsCmd (url m))).
  { unfold Update. by rewrite Hs, Hp. }
  rewrite H1. cbn [fst snd]. split; [done|].
  unfold fetchAllMetricsMsg.
  pose proof (main_discover_contract ParseFloat resp) as Hd.
  destruct (MainGo.fetchAllMetrics ParseFloat resp) as [names|e].
  - assert (H2 : (Update now2 (set_selectMode true m) (MetricsListMsg names None)).1
                 = set_metricsList (list_SetItems names (metricsList m))
                     (set_selectMode true m)).
    { unfold Update.
      change (seriesSelectMode (set_selectMode true m)) with (seriesSelectMode m).
      by rewrite Hs. }
    rewrite H2. destruct Hd as (body & _ & Hsort & Hnd & _).
    by repeat split.
  - assert (H2 : (Update now2 (set_selectMode true m) (MetricsListMsg [] (Some e))).1
                 = set_selectMode false (set_err (Some e) (set_selectMode true m))).
    { unfold Update.
      change (seriesSelectMode (set_selectMode true m)) with (seriesSelectMode m).
      by rewrite Hs. }
    rewrite H2. split; [done|]. split; [done|].
    split; [done|]. split; [done|]. split; [done|].
    destruct Hd as [(c & _ & ->)|(c & b & _ & _ & ->)]; done.
Qed.

Lemma open_picker_witness :
  let resp := HttpResp 503 [] in
  let out1 := Update 2 Demo.afterAB (KeyMsg "m") in
  let m2 := (Update 3 out1.1 (fetchAllMetricsMsg ParseFloat_plain resp)).1 in
  out1.2 = fetchAllMetricsCmd (url Demo.afterAB)
  /\ sameData Demo.afterAB m2 /\ chart m2 = chart Demo.afterAB
  /\ match MainGo.fetchAllMetrics ParseFloat_plain resp with
     | inl names =>
         selectMode m2 = true
         /\ metricsList m2 = list_SetItems names (metricsList Demo.afterAB)
         /\ err m2 = err Demo.afterAB
         /\ Sorted String.le names /\ NoDup names
     | inr e =>
         selectMode m2 = false /\ err m2 = Some e
         /\ metricsList m2 = metricsList Demo.afterAB
         /\ isEndpointError e = true
     end.
Proof.
  apply (open_picker ParseFloat_plain 2 3 Demo.afterAB (HttpResp 503 []));
    vm_compute; reflexivity.
Defined.

Lemma pushSamples_data `{W : Widgets} samples : forall i (m : Model),
  exists cs, chart (pushSamples i samples m) = chart m ++ cs
             /\ Forall (fun c => isDataCall c = true) cs.
Proof.
  induction samples as [|s rest IH]; intros i m; simpl.
  - exists []. split; [by rewrite app_nil_r|constructor].
  - destruct (IH (i + 1) (pushSample i s m)) as (cs & -> & Hcs).
    destruct (pushSample_chart i s m) as (idx & ->).
    eexists. split; [by rewrite <- app_assoc|].
    apply Forall_app. split; [|done].
    destruct (if 0 <? _ then _ else _); by repeat constructor.
Qed.

(** X25.  The calls an accepted batch makes on the chart: range calls (at
    most the one pair that locks the range) and style and push calls,
    followed by one [DrawAll] -- except while the series picker is open,
    when the batch is recorded but nothing is drawn. *)
Theorem batch_draws_outside_picker `{W : Widgets}
  (now : Z) (m : Model) (samples : list MetricSample) :
  wrongMetric m samples = false ->
  exists cs,
    chart (Update now m (MetricsMsg samples None)).1
    = chart m ++ cs
      ++ (if seriesSelectMode m then [] else [ timeserieslinechart.DrawAll ])
    /\ Forall (fun c => isDataCall c || timeserieslinechart.isRangeCall c = true)
         cs.
Proof.
  intros Hg. rewrite Update_metrics. unfold updateMetrics. cbv zeta.
  replace (wrongMetric (set_lastUpdate now (set_err None m)) samples)
    with (wrongMetric m samples) by by destruct samples.
  rewrite Hg. cbn [fst].
  set (m1 := if 0 <? Z.of_nat (length samples) then _ else _).
  assert (F1 : chart m1 = chart m /\ seriesSelectMode m1 = seriesSelectMode m)
    by (subst m1; by destruct (0 <? _)).
  set (m2 := if (0 <? Z.of_nat (length samples)) && negb (yRangeSet m1)
             then _ else m1).
  assert (F2 : seriesSelectMode m2 = seriesSelectMode m1
               /\ exists rs, chart m2 = chart m1 ++ rs
                  /\ Forall (fun c => isDataCall c
                                      || timeserieslinechart.isRangeCall c = true) rs).
  { subst m2. destruct (_ && _).
    - destruct (initialRange samples) as [lo hi]. split; [done|].
      eexists. split; [done|]. by repeat constructor.
    - split; [done|]. exists []. split; [by rewrite app_nil_r|constructor]. }
  destruct F1 as [F1 F1'], F2 as (F2' & rs & F2 & Hrs).
  destruct (pushSamples_data samples 0 m2) as (ds & F3 & Hds).
  destruct (pushSamples_frame samples 0 m2) as (_ & F3' & _).
  set (m3 := pushSamples 0 samples m2) in *.
  exists (rs ++ ds). split.
  - rewrite F3', F2', F1'.
    destruct (seriesSelectMode m); simpl; rewrite F3, F2, F1;
      by rewrite <- ?app_assoc, ?app_nil_r.
  - apply Forall_app. split; [done|].
    eapply Forall_impl; [exact Hds|]. by intros c ->.
Qed.

Lemma batch_draws_outside_picker_witness :
  let m := run Demo.afterAB [ (2, KeyMsg "s") ] in
  exists cs,
    chart (Update 3 m (MetricsMsg Demo.batchABC None)).1
    = chart m ++ cs
      ++ (if seriesSelectMode m then [] else [ timeserieslinechart.DrawAll ])
    /\ Forall (fun c => isDataCall c || timeserieslinechart.isRangeCall c = true)
         cs.
Proof.
  apply (batch_draws_outside_picker 3 (run Demo.afterAB [ (2, KeyMsg "s") ])
           Demo.batchABC).
  vm_compute. reflexivity.
Defined.

(** * The toggle key *)

Lemma toggle_toggle s : toggle (toggle s) = s.
Proof. destruct s as [n c i]. unfold toggle. simpl. by rewrite negb_involutive. Qed.

Lemma alter_toggle_twice (sl : list seriesItem) i :
  alter toggle i (alter toggle i sl) = sl.
Proof.
  revert i. induction sl as [|s sl IH]; intros [|i]; simpl; try done.
  - by rewrite toggle_toggle.
  - f_equal. apply IH.
Qed.

(** X26.  In the series picker, with the cursor at a position that is not
    negative, the space key changes no name, no colour number and no record
    but the one under the cursor, and pressing it twice gives back the
    model as it was. *)
Theorem toggle_twice `{W : Widgets} (now1 now2 : Z) (m : Model) :
  seriesSelectMode m = true -> 0 <= seriesListSelected m ->
  let m1 := (Update now1 m (KeyMsg " ")).1 in
  name <$> seriesList m1 = name <$> seriesList m
  /\ colorIdx <$> seriesList m1 = colorIdx <$> seriesList m
  /\ (forall j s, j <> Z.to_nat (seriesListSelected m) ->
                  seriesList m !! j = Some s -> seriesList m1 !! j = Some s)
  /\ (Update now2 m1 (KeyMsg " ")).1 = m.
Proof.
  intros Hs _. cbv zeta.
  assert (H1 : (Update now1 m (KeyMsg " ")).1
               = if (0 <? Z.of_nat (length (seriesList m)))
                    && (seriesListSelected m <? Z.of_nat (length (seriesList m)))
                 then set_seriesList
                        (alter toggle (Z.to_nat (seriesListSelected m))
                           (seriesList m)) m
                 else m).
  { unfold Update. rewrite Hs. simpl. by destruct (_ && _). }
  rewrite H1. destruct (_ && _) eqn:E.
  - split; [by apply fmap_alter_toggle|].
    split; [by apply fmap_alter_toggle|].
    split.
    { intros j s Hj Hl. simpl. by rewrite list_lookup_alter_ne. }
    unfold Update.
    change (seriesSelectMode (set_seriesList _ m)) with (seriesSelectMode m).
    rewrite Hs. simpl. rewrite length_alter, E. simpl.
    rewrite alter_toggle_twice. by destruct m.
  - split; [done|]. split; [done|]. split; [done|].
    unfold Update. rewrite Hs. simpl. by rewrite E.
Qed.

Lemma toggle_twice_witness :
  let m := run Demo.afterAB [ (2, KeyMsg "s"); (3, KeyMsg "down") ] in
  let m1 := (Update 4 m (KeyMsg " ")).1 in
  name <$> seriesList m1 = name <$> seriesList m
  /\ colorIdx <$> seriesList m1 = colorIdx <$> seriesList m
  /\ (forall j s, j <> Z.to_nat (seriesListSelected m) ->
                  seriesList m !! j = Some s -> seriesList m1 !! j = Some s)
  /\ (Update 5 m1 (KeyMsg " ")).1 = m.
Proof.
  apply (toggle_twice 4 5
           (run Demo.afterAB [ (2, KeyMsg "s"); (3, KeyMsg "down") ])).
  - vm_compute. reflexivity.
  - vm_compute. intros E. discriminate E.
Defined.

(** * The two pickers *)

Lemma updateMetrics_modes `{W : Widgets} now (m : Model) samples e :
  let m' := (updateMetrics now m samples e).1 in
  selectMode m' = selectMode m /\ seriesSelectMode m' = seriesSelectMode m.
Proof.
  destruct e as [e|]; [done|].
  unfold updateMetrics. cbv zeta.
  destruct (wrongMetric _ samples); [done|].
  set (m1 := if 0 <? _ then _ else _).
  set (m2 := if _ && _ then _ else m1).
  assert (H2 : selectMode m2 = selectMode m
               /\ seriesSelectMode m2 = seriesSelectMode m).
  { subst m2 m1. destruct (0 <? _); simpl; [|by destruct (yRangeSet m)].
    destruct (negb (yRangeSet m)); [|done]. by destruct (initialRange samples). }
  destruct (pushSamples_frame samples 0 m2) as (_ & F1 & _ & _ & _ & F2 & _).
  cbn [fst]. destruct H2 as [A B].
  split; [rewrite <- A, <- F2|rewrite <- B, <- F1];
    destruct (negb (seriesSelectMode (pushSamples 0 samples m2)));
    reflexivity.
Qed.

Lemma updateSeriesSelect_selectMode `{W : Widgets} (m : Model) msg :
  selectMode (updateSeriesSelect m msg).1 = selectMode m.
Proof.
  unfold updateSeriesSelect. destruct msg; try done.
  repeat case_match; done.
Qed.

Lemma updateNormal_s_selectMode `{W : Widgets} (m : Model) :
  selectMode (updateNormal m (KeyMsg "s")).1 = selectMode m.
Proof.
  unfold updateNormal. simpl String.eqb. cbn [orb]. cbv iota zeta.
  match goal with |- context [legendTail ?x ?y] =>
    destruct (legendTail_frame x y) as (_ & _ & _ & _ & _ & _ & -> & _) end.
  by destruct (0 <? size (dataHistory m))%nat.
Qed.

Lemma Update_one_picker `{W : Widgets} now (m : Model) msg :
  selectMode m && seriesSelectMode m = false ->
  let m' := (Update now m msg).1 in
  selectMode m' && seriesSelectMode m' = false.
Proof.
  intros H. cbv zeta.
  assert (Hm : forall samples e,
            selectMode (updateMetrics now m samples e).1
            && seriesSelectMode (updateMetrics now m samples e).1 = false).
  { intros samples e.
    destruct (updateMetrics_modes now m samples e) as [-> ->]. exact H. }
  unfold Update. destruct msg as [t|samples e|metrics e|key|w h|tag];
    try done; try apply Hm;
    (destruct (seriesSelectMode m) eqn:Hs;
     [rewrite updateSeriesSelect_selectMode;
      rewrite andb_true_r in H; by rewrite H|];
     destruct (selectMode m) eqn:Hp;
     [by rewrite updateSelect_mode, Hs, andb_false_r|]).
  - by rewrite updateNormal_mode, Hs, andb_false_r.
  - destruct (String.eqb_spec key "s") as [->|Hk].
    + by rewrite updateNormal_s_selectMode, Hp.
    + rewrite updateNormal_mode, Hs; [by rewrite andb_false_r|].
      by apply String.eqb_neq.
  - by rewrite updateNormal_mode, Hs, andb_false_r.
  - by rewrite updateNormal_mode, Hs, andb_false_r.
Qed.

(** X27.  The metric picker and the series picker are never open at the
    same time, in any model the event loop can reach. *)
Theorem reachable_one_picker `{W : Widgets}
  (url metric : string) (interval : Z) (events : list (Z * Msg)) :
  let m := run (NewModel url metric interval) events in
  selectMode m && seriesSelectMode m = false.
Proof.
  cbv zeta.
  assert (H0 : selectMode (NewModel url metric interval)
               && seriesSelectMode (NewModel url metric interval) = false) by done.
  revert H0. generalize (NewModel url metric interval).
  unfold run. induction events as [|[now msg] rest IH]; intros m Hs; [done|].
  simpl. by apply IH, Update_one_picker.
Qed.

(** X28.  An answer of the discovery that arrives when the metric picker
    is not open (it was closed in the meantime) is dropped, names or error
    alike: the picker stays closed, and the error, the list, the data and
    the chart are as they were. *)
Theorem late_discovery_ignored `{W : Widgets}
  (now : Z) (m : Model) (names : list string) (e : option error) :
  selectMode m = false ->
  let m' := (Update now m (MetricsListMsg names e)).1 in
  selectMode m' = false /\ seriesSelectMode m' = seriesSelectMode m
  /\ err m' = err m /\ metricsList m' = metricsList m
  /\ sameData m m' /\ chart m' = chart m.
Proof.
  intros Hp. cbv zeta. unfold Update.
  destruct (seriesSelectMode m) eqn:Hs; [simpl; by repeat split|].
  rewrite Hp. unfold updateNormal, legendTail.
  destruct (showLegend m); [|simpl; by repeat split].
  destruct (viewport_Update _ (legendViewport m)). simpl. by repeat split.
Qed.

Lemma late_discovery_ignored_witness :
  let m' := (Update 2 Demo.afterAB
               (MetricsListMsg [] (Some (ErrUnexpectedStatus 500)))).1 in
  selectMode m' = false
  /\ seriesSelectMode m' = seriesSelectMode Demo.afterAB
  /\ err m' = err Demo.afterAB /\ metricsList m' = metricsList Demo.afterAB
  /\ sameData Demo.afterAB m' /\ chart m' = chart Demo.afterAB.
Proof.
  apply (late_discovery_ignored 2 Demo.afterAB [] (Some (ErrUnexpectedStatus 500))).
  vm_compute. reflexivity.
Defined.

(** * The scrape contracts in the words of the specification *)

Lemma omap_ext_all {A B} (f g : A -> option B) (l : list A) :
  (forall x, f x = g x) -> omap f l = omap g l.
Proof.
  intros H. induction l as [|x l IH]; [done|].
  change (omap f (x :: l))
    with (match f x with Some y => y :: omap f l | None => omap f l end).
  change (omap g (x :: l))
    with (match g x with Some y => y :: omap g l | None => omap g l end).
  by rewrite H, IH.
Qed.

Lemma fetchContract_ext (f g : string -> option MetricSample)
  metric resp out :
  (forall line, f line = g line) ->
  fetchContract f metric resp out -> fetchContract g metric resp out.
Proof.
  intros H. unfold fetchContract.
  destruct out as [samples|e].
  - intros (body & ? & ? & ?). exists body.
    by rewrite <- (omap_ext_all f g body H).
  - intros [?|[?|(body & ? & ? & ?)]]; [by left|right; by left|].
    right. right. exists body. by rewrite <- (omap_ext_all f g body H).
Qed.

Lemma discoverContract_ext (f g : string -> option string) resp out :
  (forall line, f line = g line) ->
  discoverContract f resp out -> discoverContract g resp out.
Proof.
  intros H. unfold discoverContract. destruct out as [names|e]; [|done].
  intros (body & ? & ? & ? & Hm). exists body.
  split; [done|]. split; [done|]. split; [done|].
  intros n. rewrite Hm. by setoid_rewrite H.
Qed.

Lemma seriesByRule_matches rule metric line :
  is_Some (seriesByRule rule metric line)
  <-> matchesMetric rule metric line = true.
Proof.
  unfold seriesByRule, matchesMetric, resolves.
  destruct (skipped line); simpl; [by split; [intros [? ?]|]|].
  destruct (rule (Fields line)); simpl; [|by split; [intros [? ?]|]].
  destruct (String.eqb _ metric); simpl; [by split; [|eexists]|].
  by split; [intros [? ?]|].
Qed.

Lemma omap_length_filter rule metric (body : list string) :
  length (omap (seriesByRule rule metric) body)
  = length (filter (fun line => matchesMetric rule metric line = true) body).
Proof.
  induction body as [|line body IH]; [done|].
  change (omap (seriesByRule rule metric) (line :: body))
    with (match seriesByRule rule metric line with
          | Some y => y :: omap (seriesByRule rule metric) body
          | None => omap (seriesByRule rule metric) body
          end).
  rewrite filter_cons.
  pose proof (seriesByRule_matches rule metric line) as Hm.
  destruct (decide (matchesMetric rule metric line = true)) as [Ht|Hf].
  - apply Hm in Ht as [s ->]. simpl. by rewrite IH.
  - destruct (seriesByRule rule metric line) as [s|] eqn:E; [|done].
    exfalso. apply Hf, Hm. by eexists.
Qed.

Lemma contract_spec rule metric resp out :
  fetchContract (seriesByRule rule metric) metric resp out ->
  fetchSpec rule metric resp out.
Proof.
  unfold fetchContract, fetchSpec. destruct out as [samples|e].
  - intros (body & -> & -> & Hne). exists body.
    split; [done|]. split; [done|]. split; [done|].
    apply omap_length_filter.
  - intros [?|[?|(body & -> & Ho & -> & ?)]]; [by left|right; by left|].
    right. right. exists body. split; [done|]. split; [|done].
    intros line Hl.
    destruct (matchesMetric rule metric line) eqn:E; [|done].
    apply seriesByRule_matches in E.
    exfalso. cut (omap (seriesByRule rule metric) body <> []); [done|].
    apply omap_nonempty. by exists line.
Qed.




Lemma main_fetch_spec ParseFloat resp metric :
  fetchSpec (lastTokenRule ParseFloat) metric resp
    (MainGo.fetchAllMetricSeries ParseFloat resp metric).
Proof.
  apply contract_spec.
  eapply fetchContract_ext; [|apply main_fetch_contract].
  intros line. apply main_seriesOfLine_rule.
Qed.

Lemma metrics_fetch_spec ParseFloat resp metric :
  fetchSpec (secondTokenRule ParseFloat) metric resp
    (MetricsGo.fetchAllMetricSeries ParseFloat resp metric).
Proof.
  apply contract_spec.
  eapply fetchContract_ext; [|apply metrics_fetch_contract].
  intros line. apply metrics_seriesOfLine_rule.
Qed.

(** C8.  "Fetch series for metric" answers an error exactly when the
    transport failed, or the status is not 200 (the two endpoint errors),
    or the response was read and no line of it is an accepted sample of the
    metric (the not-found error, which names the metric and is no endpoint
    error); otherwise it answers one sample per accepted line of the
    metric, in order, and there is at least one.  A line is an accepted
    sample of the metric when it is neither a comment nor blank, its value
    resolves (main.go: by the last-token rule; metrics.go: by the
    second-token rule) and its first token up to the first brace is the
    metric. *)
Theorem C8_fetch_errors
  (ParseFloat : string -> option float) (resp : HttpResult) (metric : string) :
  fetchSpec (lastTokenRule ParseFloat) metric resp
    (MainGo.fetchAllMetricSeries ParseFloat resp metric)
  /\ fetchSpec (secondTokenRule ParseFloat) metric resp
       (MetricsGo.fetchAllMetricSeries ParseFloat resp metric).
Proof. split; [apply main_fetch_spec|apply metrics_fetch_spec]. Qed.




(** X4.  Discovery answers one of the two endpoint errors, or else the
    names the lines of the body give, each once and in increasing order;
    the name a line gives is its first token up to the first brace, and a
    line gives one when it is neither a comment nor blank and its value
    resolves (main.go: by the last-token rule; metrics.go: by the
    second-token rule).  An empty body gives the empty list, not an error.
    Both snapshots. *)
Theorem discover_sorted_distinct
  (ParseFloat : string -> option float) (resp : HttpResult) :
  discoverContract (nameByRule (lastTokenRule ParseFloat)) resp
    (MainGo.fetchAllMetrics ParseFloat resp)
  /\ discoverContract (nameByRule (secondTokenRule ParseFloat)) resp
       (MetricsGo.fetchAllMetrics ParseFloat resp)
  /\ MainGo.fetchAllMetrics ParseFloat (HttpResp StatusOK []) = inl []
  /\ MetricsGo.fetchAllMetrics ParseFloat (HttpResp StatusOK []) = inl [].
Proof.
  split; [|split; [|done]].
  - eapply discoverContract_ext; [|apply main_discover_contract].
    intros line. apply main_nameOfLine_rule.
  - eapply discoverContract_ext; [|apply metrics_discover_contract].
    intros line. apply metrics_nameOfLine_rule.
Qed.
